(** * VideoBling pipeline: a shallow embedding of the execution engine
    and of the service clients, with the properties of its specification.

    The development follows the layout of [backend/app]:
    - [PyStr], [Json]: the Python values the services manipulate;
    - [VolcParsers]: the schema-tolerant parsers of [services/volc_clients.py];
    - [ScriptSchema]: [services/script_schema.py];
    - [Stage]: [core/constants.py] and the stage helpers of [services/pipeline.py];
    - [Http], [Video], [ASR]: the clients of [services/volc_clients.py], run
      against a scripted remote world;
    - [Pipeline]: the job store of [services/repository.py] and [execute_job].

    Text is modelled as byte strings (the UTF-8 encoding of Python's [str]):
    whitespace and letter case are the ASCII ones, slices count bytes.
    JSON numbers are the integers; floating point is outside the model. *)

From Stdlib Require Import String Ascii List ZArith QArith Lia Bool DecimalString.
From stdpp Require Import base option gmap strings list.

Local Open Scope string_scope.
Local Open Scope list_scope.

(** ** Python string primitives *)
Module PyStr.

(** [str.isspace] on the ASCII range: TAB..CR, FS..US and the space. *)
Definition is_space (c : ascii) : bool :=
  let n := nat_of_ascii c in
  (Nat.leb 9 n && Nat.leb n 13) || (Nat.leb 28 n && Nat.leb n 32).

Fixpoint lstrip (s : string) : string :=
  match s with
  | EmptyString => EmptyString
  | String c r => if is_space c then lstrip r else s
  end.

Fixpoint rstrip (s : string) : string :=
  match s with
  | EmptyString => EmptyString
  | String c r =>
      match rstrip r with
      | EmptyString => if is_space c then EmptyString else String c EmptyString
      | r' => String c r'
      end
  end.

(** [s.strip()] *)
Definition strip (s : string) : string := lstrip (rstrip s).

Definition lower_char (c : ascii) : ascii :=
  let n := nat_of_ascii c in
  if Nat.leb 65 n && Nat.leb n 90 then ascii_of_nat (n + 32) else c.

(** [s.lower()] *)
Fixpoint lower (s : string) : string :=
  match s with
  | EmptyString => EmptyString
  | String c r => String (lower_char c) (lower r)
  end.

(** Truth value of a string: [bool(s)]. *)
Definition truthy (s : string) : bool :=
  match s with EmptyString => false | String _ _ => true end.

(** [s.startswith(p)] *)
Definition startswith (p s : string) : bool := String.prefix p s.

(** [needle in hay] *)
Fixpoint contains (needle hay : string) : bool :=
  String.prefix needle hay ||
  match hay with
  | EmptyString => false
  | String _ r => contains needle r
  end.

(** [s[:n]] *)
Definition take (n : nat) (s : string) : string := String.substring 0 n s.

(** [s[n:]] *)
Fixpoint drop (n : nat) (s : string) : string :=
  match n, s with
  | O, _ => s
  | S _, EmptyString => EmptyString
  | S n', String _ r => drop n' r
  end.

(** [sep.join(parts)] *)
Definition join (sep : string) (parts : list string) : string :=
  String.concat sep parts.

(** [x in xs] for a tuple, list or set of strings. *)
Definition mem (x : string) (xs : list string) : bool :=
  existsb (String.eqb x) xs.

(** [str(n)] for an [int]. *)
Definition of_int (n : Z) : string := NilZero.string_of_int (Z.to_int n).

(** The line feed of ["\n"]. *)
Definition nl : string := String (ascii_of_nat 10) EmptyString.

Fixpoint insert_sorted (x : string) (l : list string) : list string :=
  match l with
  | [] => [x]
  | y :: r => if String.leb x y then x :: l else y :: insert_sorted x r
  end.

(** [sorted(xs)] on strings (code-point order, which on UTF-8 is byte order). *)
Definition sorted (l : list string) : list string :=
  fold_right insert_sorted [] l.

End PyStr.

(** ** JSON values, as [json.loads] builds them *)
Module Json.

(** A [dict] keeps insertion order, which [items()] exposes: an object is
    an association list, read with [dict_get] (first binding of the key). *)
#[warnings="-register-all"] Inductive json : Type :=
| JNull
| JBool (b : bool)
| JNum (n : Z)
| JStr (s : string)
| JArr (items : list json)
| JObj (fields : list (string * json)).

Definition dict := list (string * json).

(** [d.get(k, default)] *)
Fixpoint dict_get_default (default : json) (d : dict) (k : string) : json :=
  match d with
  | [] => default
  | (k', v) :: r => if String.eqb k' k then v else dict_get_default default r k
  end.

(** [d.get(k)]: a missing key reads as [None], like a JSON [null]. *)
Definition dict_get (d : dict) (k : string) : json :=
  dict_get_default JNull d k.

(** [d.keys()] *)
Definition dict_keys (d : dict) : list string := map fst d.

(** [bool(v)] *)
Definition truthy (v : json) : bool :=
  match v with
  | JNull => false
  | JBool b => b
  | JNum n => negb (Z.eqb n 0)
  | JStr s => PyStr.truthy s
  | JArr items => match items with [] => false | _ => true end
  | JObj fields => match fields with [] => false | _ => true end
  end.

(** [repr] of a string, for the text of containers: Python quotes with
    ['], or with the double quote when the text holds ['] and no double
    quote; the backslash and the chosen quote are escaped. *)
Definition dquote : ascii := ascii_of_nat 34.

Fixpoint repr_chars (quote : ascii) (s : string) : string :=
  match s with
  | EmptyString => EmptyString
  | String c r =>
      if Ascii.eqb c "\"%char || Ascii.eqb c quote
      then String "\" (String c (repr_chars quote r))
      else if Ascii.eqb c (ascii_of_nat 10) then String "\" (String "n" (repr_chars quote r))
      else if Ascii.eqb c (ascii_of_nat 13) then String "\" (String "r" (repr_chars quote r))
      else if Ascii.eqb c (ascii_of_nat 9) then String "\" (String "t" (repr_chars quote r))
      else String c (repr_chars quote r)
  end.

Definition repr_str (s : string) : string :=
  let quote :=
    if PyStr.contains "'" s && negb (PyStr.contains (String dquote EmptyString) s)
    then dquote else "'"%char in
  String quote (repr_chars quote s) +:+ String quote EmptyString.

(** [repr(v)] *)
Fixpoint repr (v : json) : string :=
  match v with
  | JNull => "None"
  | JBool true => "True"
  | JBool false => "False"
  | JNum n => PyStr.of_int n
  | JStr s => repr_str s
  | JArr items =>
      "[" +:+ PyStr.join ", " (map repr items) +:+ "]"
  | JObj fields =>
      "{" +:+ PyStr.join ", "
               (map (fun kv => repr_str (fst kv) +:+ ": " +:+ repr (snd kv)) fields)
          +:+ "}"
  end.

(** [str(v)] *)
Definition str (v : json) : string :=
  match v with
  | JStr s => s
  | _ => repr v
  end.

(** What [json.loads] or [response.json()] gives on a text: a value, or
    a [JSONDecodeError] with its message. *)
Inductive decoded : Type :=
| Decoded (v : json)
| DecodeError (msg : string).

End Json.
Export Json.

(** ** Exceptions and results *)

Inductive exn : Type :=
| VolcAPIError (msg : string)
| PipelineError (msg : string)
| ScriptSchemaError (msg : string)
| ValueError (msg : string)
| JSONDecodeError (msg : string)
| MediaError (msg : string)
| AttributeError (msg : string)
| OSError (msg : string).

(** [str(exc)] *)
Definition exn_message (e : exn) : string :=
  match e with
  | VolcAPIError m | PipelineError m | ScriptSchemaError m
  | ValueError m | JSONDecodeError m | MediaError m | AttributeError m | OSError m => m
  end.

Inductive result (A : Type) : Type :=
| Ok (a : A)
| Raise (e : exn).
Arguments Ok {A} a.
Arguments Raise {A} e.

(** ** services/volc_clients.py: parsers *)
Module VolcParsers.

(** [_deep_find]: the values bound to one of [keys], in the order a
    pre-order walk of the document meets them. *)
Fixpoint _deep_find (keys : list string) (data : json) : list json :=
  match data with
  | JObj fields =>
      (fix over_items (fs : list (string * json)) : list json :=
         match fs with
         | [] => []
         | (k, v) :: r =>
             (if PyStr.mem k keys then [v] else [])
               ++ _deep_find keys v ++ over_items r
         end) fields
  | JArr items =>
      (fix over_list (xs : list json) : list json :=
         match xs with
         | [] => []
         | x :: r => _deep_find keys x ++ over_list r
         end) items
  | _ => []
  end.

(** [_first_string] *)
Fixpoint _first_string (values : list json) : option string :=
  match values with
  | [] => None
  | JStr s :: r =>
      if PyStr.truthy (PyStr.strip s) then Some (PyStr.strip s)
      else _first_string r
  | _ :: r => _first_string r
  end.

(** The inner loop of [parse_asr_text]: the [parts] of one block. *)
Fixpoint block_parts (rows : list json) : list string :=
  match rows with
  | [] => []
  | JObj row :: r =>
      match dict_get row "text" with
      | JStr text =>
          if PyStr.truthy (PyStr.strip text)
          then PyStr.strip text :: block_parts r
          else block_parts r
      | _ => block_parts r
      end
  | _ :: r => block_parts r
  end.

(** The loop [for block in utterances]: it returns at the first block
    that is a list and whose [parts] are not empty. *)
Fixpoint utterance_loop (blocks : list json) : option string :=
  match blocks with
  | [] => None
  | JArr rows :: r =>
      match block_parts rows with
      | [] => utterance_loop r
      | parts => Some (PyStr.join PyStr.nl parts)
      end
  | _ :: r => utterance_loop r
  end.

(** The first test of [parse_asr_text], on [payload["result"]["text"]]. *)
Definition direct_text (payload : dict) : option string :=
  match dict_get payload "result" with
  | JObj result =>
      match dict_get result "text" with
      | JStr direct =>
          if PyStr.truthy (PyStr.strip direct) then Some (PyStr.strip direct)
          else None
      | _ => None
      end
  | _ => None
  end.

Definition parse_asr_text (payload : dict) : string :=
  match direct_text payload with
  | Some direct => direct
  | None =>
      match utterance_loop (_deep_find ["utterances"; "sentences"] (JObj payload)) with
      | Some joined => joined
      | None =>
          match _first_string (_deep_find ["text"] (JObj payload)) with
          | Some direct => if PyStr.truthy direct then direct else ""
          | None => ""
          end
      end
  end.

End VolcParsers.

(** ** services/volc_clients.py: [extract_first_json_object] *)
Module JsonExtract.

Definition fence : string := "```".

(** [re.sub(r"^```(?:json)?", "", text)]: the pattern is anchored at the
    start, and the optional group is greedy. *)
Definition sub_leading_fence (text : string) : string :=
  if PyStr.startswith (fence +:+ "json") text then PyStr.drop 7 text
  else if PyStr.startswith fence text then PyStr.drop 3 text
  else text.

(** [re.sub(r"```$", "", text)]: [$] matches at the end of the text and
    before a final line feed. *)
Fixpoint sub_trailing_fence (text : string) : string :=
  if String.eqb text fence then EmptyString
  else if String.eqb text (fence +:+ PyStr.nl) then PyStr.nl
  else match text with
       | EmptyString => EmptyString
       | String c r => String c (sub_trailing_fence r)
       end.

(** The suffix of [s] that starts at its first ["{"]. *)
Fixpoint from_first_open (s : string) : option string :=
  match s with
  | EmptyString => None
  | String c r => if Ascii.eqb c "{"%char then Some r else from_first_open r
  end.

(** The longest prefix of [s] that ends with ["}"]. *)
Fixpoint upto_last_close (s : string) : option string :=
  match s with
  | EmptyString => None
  | String c r =>
      match upto_last_close r with
      | Some p => Some (String c p)
      | None => if Ascii.eqb c "}"%char then Some (String c EmptyString) else None
      end
  end.

(** [re.search(r"\{.*\}", text, flags=re.DOTALL)]: the leftmost match
    starts at the first ["{"]; the greedy [.*] runs to the last ["}"]. *)
Definition search_braces (text : string) : option string :=
  match from_first_open text with
  | Some rest =>
      match upto_last_close rest with
      | Some body => Some (String "{" body)
      | None => None
      end
  | None => None
  end.

(** The two substitutions, made when the text starts with a fence. *)
Definition unfence (text : string) : string :=
  if PyStr.startswith fence text
  then PyStr.strip (sub_trailing_fence (PyStr.strip (sub_leading_fence text)))
  else text.

Section WithDecoder.
(** [json.loads] *)
Variable json_loads : string -> decoded.

Definition extract_first_json_object (text : string) : result dict :=
  let text := PyStr.strip text in
  if negb (PyStr.truthy text) then Raise (ValueError "empty llm output")
  else
    let text := unfence text in
    match json_loads text with
    | Decoded (JObj parsed) => Ok parsed
    | _ =>
        match search_braces text with
        | None => Raise (ValueError "no json object found in llm output")
        | Some span =>
            match json_loads span with
            | DecodeError msg => Raise (JSONDecodeError msg)
            | Decoded (JObj parsed) => Ok parsed
            | Decoded _ => Raise (ValueError "llm output json must be object")
            end
        end
    end.
End WithDecoder.

End JsonExtract.

(** ** services/script_schema.py *)
Module ScriptSchema.

Definition REQUIRED_FIELDS : list string :=
  ["hook_title"; "visual_prompt"; "shot_list"; "narration"; "style_tags"; "safety_notes"].

Definition is_list (v : json) : bool :=
  match v with JArr _ => true | _ => false end.

(** [isinstance(value, str) and value.strip()] *)
Definition non_empty_string (v : json) : bool :=
  match v with
  | JStr s => PyStr.truthy (PyStr.strip s)
  | _ => false
  end.

(** The loop over the four text fields: the first key that fails. *)
Fixpoint first_bad_text_field (payload : dict) (keys : list string) : option string :=
  match keys with
  | [] => None
  | key :: r =>
      if non_empty_string (dict_get payload key)
      then first_bad_text_field payload r
      else Some key
  end.

(** [sorted(REQUIRED_FIELDS - set(payload.keys()))] *)
Definition missing_fields (payload : dict) : list string :=
  PyStr.sorted
    (List.filter (fun k => negb (PyStr.mem k (dict_keys payload))) REQUIRED_FIELDS).

(** A value that is not a [dict] has no [keys]. *)
Definition validate_script_payload (payload : json) : result json :=
  match payload with
  | JObj fields =>
      match missing_fields fields with
      | (_ :: _) as missing =>
          Raise (ScriptSchemaError ("missing fields: " +:+ PyStr.join ", " missing))
      | [] =>
          if negb (is_list (dict_get fields "shot_list"))
          then Raise (ScriptSchemaError "shot_list must be an array")
          else if negb (is_list (dict_get fields "style_tags"))
          then Raise (ScriptSchemaError "style_tags must be an array")
          else
            match first_bad_text_field fields
                    ["hook_title"; "visual_prompt"; "narration"; "safety_notes"] with
            | Some key => Raise (ScriptSchemaError (key +:+ " must be non-empty string"))
            | None => Ok payload
            end
      end
  | _ => Raise (AttributeError "object has no attribute 'keys'")
  end.

End ScriptSchema.

(** ** core/constants.py and the stage helpers of services/pipeline.py *)
Module Stage.

Inductive JobStatus : Type :=
| QUEUED | PREPROCESSING | ASR | TRANSCRIPT_POLISH | SCRIPT_GEN
| VIDEO_SUBMIT | VIDEO_POLLING | POSTPROCESS | COMPLETED | FAILED | CANCELED.

(** [status.value] *)
Definition value (s : JobStatus) : string :=
  match s with
  | QUEUED => "queued"
  | PREPROCESSING => "preprocessing"
  | ASR => "asr"
  | TRANSCRIPT_POLISH => "transcript_polish"
  | SCRIPT_GEN => "script_gen"
  | VIDEO_SUBMIT => "video_submit"
  | VIDEO_POLLING => "video_polling"
  | POSTPROCESS => "postprocess"
  | COMPLETED => "completed"
  | FAILED => "failed"
  | CANCELED => "canceled"
  end.

Definition JobStatus_eqb (a b : JobStatus) : bool :=
  String.eqb (value a) (value b).

Definition STAGE_SEQUENCE : list JobStatus :=
  [PREPROCESSING; ASR; TRANSCRIPT_POLISH; SCRIPT_GEN;
   VIDEO_SUBMIT; VIDEO_POLLING; POSTPROCESS].

(** [raw = str(value or JobStatus.PREPROCESSING.value).strip().lower()] *)
Definition raw_start_stage (v : json) : string :=
  PyStr.lower (PyStr.strip
    (Json.str (if Json.truthy v then v else JStr (value PREPROCESSING)))).

(** The loop over [STAGE_SEQUENCE]. *)
Definition _normalize_start_stage (v : json) : JobStatus :=
  let raw := raw_start_stage v in
  match List.find (fun status => String.eqb (value status) raw) STAGE_SEQUENCE with
  | Some status => status
  | None => PREPROCESSING
  end.

(** [STAGE_SEQUENCE.index(stage)], which raises [ValueError] outside the list. *)
Fixpoint index_from (n : nat) (l : list JobStatus) (stage : JobStatus) : result nat :=
  match l with
  | [] => Raise (ValueError "is not in list")
  | x :: r => if JobStatus_eqb x stage then Ok n else index_from (S n) r stage
  end.

Definition index (stage : JobStatus) : result nat := index_from 0 STAGE_SEQUENCE stage.

Definition _should_run_stage (start_stage stage : JobStatus) : result bool :=
  match index stage with
  | Raise e => Raise e
  | Ok i =>
      match index start_stage with
      | Raise e => Raise e
      | Ok j => Ok (Nat.leb j i)
      end
  end.

End Stage.

(** ** Effects: a state and exception monad *)

(** A computation ends with a value, with a raised exception, or it is
    [Stuck] when the scripted world has nothing left to answer with. *)
Inductive outcome (A : Type) : Type :=
| Return (a : A)
| Throw (e : exn)
| Stuck.
Arguments Return {A} a.
Arguments Throw {A} e.
Arguments Stuck {A}.

Definition M (S A : Type) : Type := S -> outcome A * S.

Definition ret {S A : Type} (a : A) : M S A := fun s => (Return a, s).

Definition throw {S A : Type} (e : exn) : M S A := fun s => (Throw e, s).

Definition stuck {S A : Type} : M S A := fun s => (Stuck, s).

Definition bind {S A B : Type} (m : M S A) (k : A -> M S B) : M S B :=
  fun s =>
    match m s with
    | (Return a, s') => k a s'
    | (Throw e, s') => (Throw e, s')
    | (Stuck, s') => (Stuck, s')
    end.

Definition of_result {S A : Type} (r : result A) : M S A :=
  match r with
  | Ok a => ret a
  | Raise e => throw e
  end.

Definition gets {S A : Type} (f : S -> A) : M S A := fun s => (Return (f s), s).

Definition modify {S : Type} (f : S -> S) : M S unit := fun s => (Return tt, f s).

Declare Scope action_scope.
Delimit Scope action_scope with action.
Notation "x <- m ;; k" := (bind m (fun x => k))
  (at level 100, m at next level, right associativity) : action_scope.
Notation "m ;; k" := (bind m (fun _ => k))
  (at level 100, right associativity) : action_scope.
Local Open Scope action_scope.

(** ** The remote world of the HTTP clients *)
Module Http.

(** An [httpx.Response]: [json_body] is what [response.json()] gives. *)
Record response : Type := {
  status_code : Z;
  text : string;
  headers : list (string * string);
  json_body : decoded;
}.

(** [response.headers.get(name)]: header names compare without case. *)
Fixpoint header_get (hs : list (string * string)) (name : string) : option string :=
  match hs with
  | [] => None
  | (k, v) :: r =>
      if String.eqb (PyStr.lower k) (PyStr.lower name) then Some v
      else header_get r name
  end.

Record request : Type := {
  method : string;
  url : string;
  req_headers : list (string * string);
  req_json : json;
}.

(** The world answers the requests in the order of [responses], gives
    the readings of [clock] (seconds) to [time.time()] and the values of
    [uuids] to [uuid.uuid4()]; it records what was sent and slept. *)
Record World : Type := {
  responses : list response;
  clock : list Q;
  uuids : list string;
  sent : list request;
  slept : list Z;
}.

Definition send (req : request) : M World response :=
  fun w =>
    match responses w with
    | [] => (Stuck, w)
    | resp :: rest =>
        (Return resp,
         {| responses := rest; clock := clock w; uuids := uuids w;
            sent := sent w ++ [req]; slept := slept w |})
    end.

(** [time.time()] *)
Definition time_time : M World Q :=
  fun w =>
    match clock w with
    | [] => (Stuck, w)
    | t :: rest =>
        (Return t,
         {| responses := responses w; clock := rest; uuids := uuids w;
            sent := sent w; slept := slept w |})
    end.

(** [time.sleep(seconds)] *)
Definition time_sleep (seconds : Z) : M World unit :=
  fun w =>
    (Return tt,
     {| responses := responses w; clock := clock w; uuids := uuids w;
        sent := sent w; slept := slept w ++ [seconds] |}).

(** [str(uuid.uuid4())] *)
Definition uuid4 : M World string :=
  fun w =>
    match uuids w with
    | [] => (Stuck, w)
    | u :: rest =>
        (Return u,
         {| responses := responses w; clock := clock w; uuids := rest;
            sent := sent w; slept := slept w |})
    end.

(** [base_url.rstrip("/")] *)
Fixpoint rstrip_slash (s : string) : string :=
  match s with
  | EmptyString => EmptyString
  | String c r =>
      match rstrip_slash r with
      | EmptyString => if Ascii.eqb c "/"%char then EmptyString else String c EmptyString
      | r' => String c r'
      end
  end.

Definition bearer_headers (api_key : string) : list (string * string) :=
  [("Authorization", "Bearer " +:+ api_key); ("Content-Type", "application/json")].

End Http.

(** ** services/volc_clients.py: [VideoClient] *)
Module VideoClient.
Import Http VolcParsers.

Record VideoConfig : Type := {
  base_url : string;
  api_key : string;
  model : string;
  timeout_s : Z;
  poll_interval_s : Z;
  system_prompt : string;
}.

Definition size_text (w h : Z) : string := PyStr.of_int w +:+ "x" +:+ PyStr.of_int h.

Definition _submit_payload_candidates
    (cfg : VideoConfig) (prompt : string) (duration_s width height : Z) : list json :=
  let duration := Z.max 1 duration_s in
  let safe_width := Z.max 1 width in
  let safe_height := Z.max 1 height in
  let content := JArr [JObj [("type", JStr "text"); ("text", JStr prompt)]] in
  [ JObj [("model", JStr (model cfg)); ("content", content);
          ("duration", JNum duration);
          ("width", JNum safe_width); ("height", JNum safe_height)];
    JObj [("model", JStr (model cfg)); ("content", content);
          ("duration", JNum duration);
          ("size", JStr (size_text safe_width safe_height))];
    JObj [("model", JStr (model cfg)); ("content", content);
          ("duration", JNum duration)];
    JObj [("model", JStr (model cfg)); ("content", content)];
    JObj [("model", JStr (model cfg)); ("prompt", JStr prompt);
          ("duration", JNum duration);
          ("resolution", JStr (size_text safe_width safe_height))] ].

Definition http_error_entry (idx : nat) (resp : response) : string :=
  "attempt=" +:+ PyStr.of_int (Z.of_nat idx) +:+ ":http="
    +:+ PyStr.of_int (status_code resp) +:+ ":msg=" +:+ PyStr.take 220 (text resp).

Definition missing_id_entry (idx : nat) (resp : response) : string :=
  "attempt=" +:+ PyStr.of_int (Z.of_nat idx) +:+ ":http="
    +:+ PyStr.of_int (status_code resp) +:+ ":missing_task_id".

Definition submit_url (cfg : VideoConfig) : string :=
  rstrip_slash (base_url cfg) +:+ "/api/v3/contents/generations/tasks".

(** The loop of [submit_generation] over [enumerate(payload_candidates,
    start=idx)], and the [raise] that follows it. *)
Fixpoint submit_loop (cfg : VideoConfig) (idx : nat) (candidates : list json)
    (attempt_errors : list string) : M World (string * json) :=
  match candidates with
  | [] =>
      throw (VolcAPIError ("Video submit failed after payload fallbacks. "
               +:+ PyStr.take 1200 (PyStr.join " | " attempt_errors)))
  | payload :: rest =>
      resp <- send {| method := "POST"; url := submit_url cfg;
                      req_headers := bearer_headers (api_key cfg);
                      req_json := payload |} ;;
      if (400 <=? status_code resp)%Z then
        let attempt_errors := attempt_errors ++ [http_error_entry idx resp] in
        if (status_code resp =? 400)%Z || (status_code resp =? 422)%Z
        then submit_loop cfg (S idx) rest attempt_errors
        else throw (VolcAPIError ("Video submit failed: "
                      +:+ PyStr.of_int (status_code resp) +:+ " "
                      +:+ PyStr.take 500 (text resp)))
      else
        match json_body resp with
        | DecodeError msg => throw (JSONDecodeError msg)
        | Decoded data =>
            match _first_string (_deep_find ["task_id"; "id"] data) with
            | Some task_id =>
                if PyStr.truthy task_id then ret (task_id, data)
                else submit_loop cfg (S idx) rest
                       (attempt_errors ++ [missing_id_entry idx resp])
            | None =>
                submit_loop cfg (S idx) rest
                  (attempt_errors ++ [missing_id_entry idx resp])
            end
        end
  end.

Definition submit_generation
    (cfg : VideoConfig) (prompt : string) (duration_s width height : Z)
    : M World (string * json) :=
  submit_loop cfg 1 (_submit_payload_candidates cfg prompt duration_s width height) [].

Definition SUCCESS_STATUS : list string := ["succeeded"; "success"; "completed"; "done"].
Definition FAILURE_STATUS : list string := ["failed"; "error"; "canceled"; "cancelled"].

Definition task_url (cfg : VideoConfig) (task_id : string) : string :=
  rstrip_slash (base_url cfg) +:+ "/api/v3/contents/generations/tasks/" +:+ task_id.

(** [(_first_string(_deep_find(payload, {"status", "state"})) or "").lower()] *)
Definition payload_status (payload : json) : string :=
  PyStr.lower
    match _first_string (_deep_find ["status"; "state"] payload) with
    | Some s => if PyStr.truthy s then s else ""
    | None => ""
    end.

(** The [while True] loop of [poll_until_done]; every turn takes one
    answer from the world, which bounds the turns by [fuel]. *)
Fixpoint poll_loop (fuel : nat) (cfg : VideoConfig) (task_id : string)
    (deadline : Q) (interval : Z) : M World json :=
  match fuel with
  | O => stuck
  | S fuel' =>
      resp <- send {| method := "GET"; url := task_url cfg task_id;
                      req_headers := bearer_headers (api_key cfg);
                      req_json := JNull |} ;;
      if (400 <=? status_code resp)%Z
      then throw (VolcAPIError ("Video polling failed: "
                    +:+ PyStr.of_int (status_code resp) +:+ " "
                    +:+ PyStr.take 500 (text resp)))
      else
        match json_body resp with
        | DecodeError msg => throw (JSONDecodeError msg)
        | Decoded payload =>
            let status := payload_status payload in
            if PyStr.mem status SUCCESS_STATUS then ret payload
            else if PyStr.mem status FAILURE_STATUS
            then throw (VolcAPIError ("Video generation failed: status=" +:+ status))
            else
              now <- time_time ;;
              if Qle_bool now deadline
              then time_sleep interval ;; poll_loop fuel' cfg task_id deadline interval
              else throw (VolcAPIError "Video generation timed out")
        end
  end.

(** [timeout_s or cfg.timeout_s] *)
Definition effective_timeout (cfg : VideoConfig) (timeout : option Z) : Z :=
  match timeout with
  | Some t => if (t =? 0)%Z then timeout_s cfg else t
  | None => timeout_s cfg
  end.

Definition poll_until_done (cfg : VideoConfig) (task_id : string) (timeout : option Z)
    : M World json :=
  start <- time_time ;;
  let deadline := (start + inject_Z (effective_timeout cfg timeout))%Q in
  let interval := Z.max 1 (poll_interval_s cfg) in
  fuel <- gets (fun w => length (responses w)) ;;
  poll_loop fuel cfg task_id deadline interval.

Definition URL_KEYS : list string :=
  ["video_url"; "url"; "output_url"; "file_url"; "download_url"].

Definition extract_video_url (payload : json) : result string :=
  match _first_string (_deep_find URL_KEYS payload) with
  | Some url_value =>
      if PyStr.truthy url_value then Ok url_value
      else Raise (VolcAPIError "Video result missing downloadable URL")
  | None => Raise (VolcAPIError "Video result missing downloadable URL")
  end.

(** [download_video]: the bytes of the answer, when its status passes
    [raise_for_status]; the caller writes them to the output path. *)
Definition download_video (url_value : string) : M World string :=
  resp <- send {| method := "GET"; url := url_value; req_headers := [];
                  req_json := JNull |} ;;
  if (200 <=? status_code resp)%Z && (status_code resp <? 300)%Z
  then ret (text resp)
  else throw (OSError ("HTTPStatusError: " +:+ PyStr.of_int (status_code resp))).

End VideoClient.

(** ** services/volc_clients.py: [ASRClient] *)
Module ASRClient.
Import Http VolcParsers.

Record ASRConfig : Type := {
  base_url : string;
  appid : string;
  access_token : string;
  resource_id : string;
  boosting_table_name : string;
  timeout_s : Z;
  system_prompt : string;
}.

Definition _RESOURCE_FALLBACKS : list string :=
  ["volc.bigasr.auc_turbo"; "volc.seedasr.auc"; "volc.bigasr.auc"].
Definition _STANDARD_PROCESSING_STATUS : list string := ["20000001"].
Definition _STANDARD_TERMINAL_STATUS : list string := ["20000000"; "20000003"].

Definition no_get : exn := AttributeError "object has no attribute 'get'".

(** The steps shared by the response readers: [payload = response.json()]
    under [try], then [header = payload.get("header")], which raises on a
    payload that is not a [dict], then [isinstance(header, dict)]. *)
Definition payload_header (resp : response) : result (option dict) :=
  match json_body resp with
  | DecodeError _ => Ok None
  | Decoded (JObj payload) =>
      match dict_get payload "header" with
      | JObj header => Ok (Some header)
      | _ => Ok None
      end
  | Decoded _ => Raise no_get
  end.

(** [str(header.get("message", "")).lower()] *)
Definition header_message_lower (header : dict) : string :=
  PyStr.lower (Json.str (dict_get_default (JStr "") header "message")).

Definition _is_grant_not_found_error (resp : response) : result bool :=
  if PyStr.contains "requested grant not found" (PyStr.lower (text resp)) then Ok true
  else
    match payload_header resp with
    | Raise e => Raise e
    | Ok None => Ok false
    | Ok (Some header) =>
        let message := header_message_lower header in
        Ok (PyStr.contains "grant" message && PyStr.contains "not found" message)
    end.

Definition _is_resource_not_allowed_error (resp : response) : result bool :=
  let text_lower := PyStr.lower (text resp) in
  if PyStr.contains "resourceid" text_lower && PyStr.contains "not allowed" text_lower
  then Ok true
  else
    match payload_header resp with
    | Raise e => Raise e
    | Ok None => Ok false
    | Ok (Some header) =>
        let message := header_message_lower header in
        Ok (PyStr.contains "resourceid" message && PyStr.contains "not allowed" message)
    end.

Definition _is_resource_not_granted_error (resp : response) : result bool :=
  let text_lower := PyStr.lower (text resp) in
  if PyStr.contains "requested resource not granted" text_lower then Ok true
  else if PyStr.contains "resource_id=" text_lower && PyStr.contains "not granted" text_lower
  then Ok true
  else
    match payload_header resp with
    | Raise e => Raise e
    | Ok None => Ok false
    | Ok (Some header) =>
        let message := header_message_lower header in
        Ok (PyStr.contains "resource" message && PyStr.contains "not granted" message)
    end.

Definition _is_permission_message (message : string) : bool :=
  let text := PyStr.lower message in
  forallb (fun part => PyStr.contains part text) ["resourceid"; "not allowed"]
  || existsb (fun p => PyStr.contains p text)
       ["requested grant not found"; "resourceid"; "not allowed";
        "requested resource not granted"; "not granted"].

Definition _extract_reqid (resp : response) : result string :=
  match payload_header resp with
  | Raise e => Raise e
  | Ok None => Ok ""
  | Ok (Some header) =>
      match dict_get header "reqid" with
      | JStr reqid => Ok reqid
      | _ => Ok ""
      end
  end.

Definition _extract_status_code (resp : response) : result string :=
  match header_get (headers resp) "X-Api-Status-Code" with
  | Some (String _ _ as status) => Ok status
  | _ =>
      match payload_header resp with
      | Raise e => Raise e
      | Ok None => Ok ""
      | Ok (Some header) =>
          match dict_get header "code" with
          | JNull => Ok ""
          | code => Ok (Json.str code)
          end
      end
  end.

Definition _extract_status_message (resp : response) : result string :=
  match header_get (headers resp) "X-Api-Message" with
  | Some (String _ _ as message) => Ok message
  | _ =>
      match payload_header resp with
      | Raise e => Raise e
      | Ok None => Ok ""
      | Ok (Some header) =>
          match dict_get header "message" with
          | JNull => Ok ""
          | msg => Ok (Json.str msg)
          end
      end
  end.

(** [Path(audio_file).suffix]: from the last dot of the last component,
    unless that dot starts or ends the name. *)
Fixpoint last_component (acc path : string) : string :=
  match path with
  | EmptyString => acc
  | String c r =>
      if Ascii.eqb c "/"%char then last_component r r
      else last_component acc r
  end.

Fixpoint after_last_dot (name : string) : option string :=
  match name with
  | EmptyString => None
  | String c r =>
      match after_last_dot r with
      | Some ext => Some ext
      | None => if Ascii.eqb c "."%char then Some r else None
      end
  end.

Definition path_suffix (path : string) : string :=
  match last_component path path with
  | EmptyString => ""
  | String _ tail =>
      match after_last_dot tail with
      | Some (String _ _ as ext) => "." +:+ ext
      | _ => ""
      end
  end.

Fixpoint lstrip_dot (s : string) : string :=
  match s with
  | EmptyString => EmptyString
  | String c r => if Ascii.eqb c "."%char then lstrip_dot r else s
  end.

Definition _guess_audio_format (audio_file : string) : string :=
  match lstrip_dot (PyStr.lower (path_suffix audio_file)) with
  | EmptyString => "wav"
  | suffix => suffix
  end.

(** [_build_headers], with the request id already chosen. *)
Definition _build_headers (cfg : ASRConfig) (resource request_id : string)
    : list (string * string) :=
  [("X-Api-App-Key", appid cfg);
   ("X-Api-Access-Key", access_token cfg);
   ("X-Api-Resource-Id", resource);
   ("X-Api-Request-Id", request_id);
   ("X-Api-Sequence", "-1");
   ("Content-Type", "application/json")].

Definition _is_permission_response (resp : response) : result bool :=
  match _is_grant_not_found_error resp with
  | Raise e => Raise e
  | Ok true => Ok true
  | Ok false =>
  match _is_resource_not_allowed_error resp with
  | Raise e => Raise e
  | Ok true => Ok true
  | Ok false =>
  match _is_resource_not_granted_error resp with
  | Raise e => Raise e
  | Ok true => Ok true
  | Ok false =>
      if _is_permission_message (text resp) then Ok true
      else
        match _extract_status_message resp with
        | Raise e => Raise e
        | Ok message => Ok (_is_permission_message message)
        end
  end end end.

(** The entry that [_append_try_error] writes. The whole reading of
    [reqid] is under [try], so nothing is raised. *)
Definition try_error_entry (stage resource : string) (resp : response) : string :=
  let reqid :=
    match payload_header resp with
    | Ok (Some header) => Json.str (dict_get_default (JStr "") header "reqid")
    | _ => ""
    end in
  let status_code_text :=
    match header_get (headers resp) "X-Api-Status-Code" with
    | Some v => v | None => "" end in
  let status_message :=
    match header_get (headers resp) "X-Api-Message" with
    | Some v => v | None => "" end in
  stage +:+ ":" +:+ resource +:+ ":http=" +:+ PyStr.of_int (status_code resp)
    +:+ ":status=" +:+ status_code_text +:+ ":reqid=" +:+ reqid +:+ ":msg="
    +:+ (if PyStr.truthy status_message then status_message
         else PyStr.take 180 (text resp)).

(** [_append_try_error]: the list with the new entry at its end. *)
Definition _append_try_error (errors : list string) (stage resource : string)
    (resp : response) : list string :=
  errors ++ [try_error_entry stage resource resp].

Definition request_section (cfg : ASRConfig) : json :=
  JObj (("model_name", JStr "bigmodel")
        :: (if PyStr.truthy (boosting_table_name cfg)
            then [("boosting_table_name", JStr (boosting_table_name cfg))]
            else [])).

Definition _post_flash_once (cfg : ASRConfig) (url audio_b64 resource : string)
    : M World response :=
  request_id <- uuid4 ;;
  send {| method := "POST"; url := url;
          req_headers := _build_headers cfg resource request_id;
          req_json := JObj [("user", JObj [("uid", JStr (appid cfg))]);
                            ("audio", JObj [("data", JStr audio_b64)]);
                            ("request", request_section cfg)] |}.

Definition _post_standard_submit
    (cfg : ASRConfig) (url audio_b64 audio_format resource request_id : string)
    : M World response :=
  send {| method := "POST"; url := url;
          req_headers := _build_headers cfg resource request_id;
          req_json := JObj [("user", JObj [("uid", JStr (appid cfg))]);
                            ("audio", JObj [("data", JStr audio_b64);
                                            ("format", JStr audio_format)]);
                            ("request", request_section cfg)] |}.

Definition _post_standard_query (cfg : ASRConfig) (url resource request_id : string)
    : M World response :=
  send {| method := "POST"; url := url;
          req_headers := _build_headers cfg resource request_id;
          req_json := JObj [] |}.

(** [_candidate_resource_ids]: the loop appends the fallbacks that the
    list does not hold yet. *)
Fixpoint append_fallbacks (candidates fallbacks : list string) : list string :=
  match fallbacks with
  | [] => candidates
  | fallback :: r =>
      if PyStr.mem fallback candidates then append_fallbacks candidates r
      else append_fallbacks (candidates ++ [fallback]) r
  end.

Definition _candidate_resource_ids (cfg : ASRConfig) : list string :=
  let configured := PyStr.strip (resource_id cfg) in
  append_fallbacks (if PyStr.truthy configured then [configured] else [])
                   _RESOURCE_FALLBACKS.

Definition flash_url (cfg : ASRConfig) : string :=
  rstrip_slash (base_url cfg) +:+ "/api/v3/auc/bigmodel/recognize/flash".
Definition submit_url (cfg : ASRConfig) : string :=
  rstrip_slash (base_url cfg) +:+ "/api/v3/auc/bigmodel/submit".
Definition query_url (cfg : ASRConfig) : string :=
  rstrip_slash (base_url cfg) +:+ "/api/v3/auc/bigmodel/query".

(** [business_code not in (None, 20000000, "20000000")] *)
Definition business_code_bad (code : json) : bool :=
  match code with
  | JNull => false
  | JNum n => negb (n =? 20000000)%Z
  | JStr s => negb (String.eqb s "20000000")
  | _ => true
  end.

(** The body of the loop of [_recognize_flash] once the answer is there;
    [continue_] is the rest of the loop, entered by [continue] with the
    list of errors (the list the caller shares with the standard path). *)
Definition flash_answer (cfg : ASRConfig) (resource : string) (resp : response)
    (tried_errors : list string)
    (continue_ : list string -> M World (option json * list string))
    : M World (option json * list string) :=
  if (400 <=? status_code resp)%Z then
    let tried_errors := _append_try_error tried_errors "flash" resource resp in
    permission <- of_result (_is_permission_response resp) ;;
    if permission : bool then continue_ tried_errors
    else throw (VolcAPIError ("ASR request failed: "
                  +:+ PyStr.of_int (status_code resp) +:+ " "
                  +:+ PyStr.take 500 (text resp)))
  else
    status <- of_result (_extract_status_code resp) ;;
    if PyStr.truthy status && negb (String.eqb status "20000000") then
      let tried_errors := _append_try_error tried_errors "flash" resource resp in
      message <- of_result (_extract_status_message resp) ;;
      if _is_permission_message message
      then continue_ tried_errors
      else throw (VolcAPIError ("ASR business error: " +:+ status +:+ " "
                    +:+ message +:+ " " +:+ PyStr.take 500 (text resp)))
    else
      match json_body resp with
      | DecodeError msg => throw (JSONDecodeError msg)
      | Decoded (JObj payload as payload_json) =>
          match dict_get payload "header" with
          | JObj header =>
              let business_code := dict_get header "code" in
              if business_code_bad business_code then
                let message := Json.str (dict_get_default (JStr "") header "message") in
                if _is_permission_message message
                then continue_ (_append_try_error tried_errors "flash" resource resp)
                else throw (VolcAPIError ("ASR business error: "
                              +:+ Json.str business_code +:+ " " +:+ message
                              +:+ " " +:+ PyStr.take 500 (text resp)))
              else ret (Some payload_json, tried_errors)
          | _ => ret (Some payload_json, tried_errors)
          end
      | Decoded _ => throw no_get
      end.

(** The loop of [_recognize_flash]. *)
Fixpoint flash_loop (cfg : ASRConfig) (audio_b64 : string)
    (candidates : list string) (tried_errors : list string)
    : M World (option json * list string) :=
  match candidates with
  | [] => ret (None, tried_errors)
  | resource :: rest =>
      resp <- _post_flash_once cfg (flash_url cfg) audio_b64 resource ;;
      flash_answer cfg resource resp tried_errors (flash_loop cfg audio_b64 rest)
  end.

Definition _recognize_flash (cfg : ASRConfig) (candidate_resource_ids : list string)
    (audio_b64 : string) (tried_errors : list string)
    : M World (option json * list string) :=
  flash_loop cfg audio_b64 candidate_resource_ids tried_errors.

(** How the query loop of [_recognize_standard] ends without raising. *)
Inductive query_exit : Type :=
| QueryReturn (payload : json)      (* [return query_resp.json()] *)
| QueryBreak.                       (* [break]: on to the next candidate *)

Definition timeout_message (cfg : ASRConfig) (resource : string) : string :=
  "ASR standard query timed out after " +:+ PyStr.of_int (timeout_s cfg)
    +:+ "s (resource_id=" +:+ resource +:+ ")".

(** The body of the query loop once the answer is there; [again] is the
    next turn of the loop, entered by [continue]. *)
Definition query_answer (cfg : ASRConfig) (resource : string) (query_resp : response)
    (tried_errors : list string) (again : M World (query_exit * list string))
    : M World (query_exit * list string) :=
  if (400 <=? status_code query_resp)%Z then
    let tried_errors :=
      _append_try_error tried_errors "query" resource query_resp in
    permission <- of_result (_is_permission_response query_resp) ;;
    if permission : bool then ret (QueryBreak, tried_errors)
    else throw (VolcAPIError ("ASR query failed: "
                  +:+ PyStr.of_int (status_code query_resp) +:+ " "
                  +:+ PyStr.take 500 (text query_resp)))
  else
    query_status <- of_result (_extract_status_code query_resp) ;;
    if PyStr.mem query_status _STANDARD_PROCESSING_STATUS then
      time_sleep 1 ;; again
    else if PyStr.mem query_status _STANDARD_TERMINAL_STATUS
            || negb (PyStr.truthy query_status) then
      match json_body query_resp with
      | DecodeError msg => throw (JSONDecodeError msg)
      | Decoded payload => ret (QueryReturn payload, tried_errors)
      end
    else
      query_message <- of_result (_extract_status_message query_resp) ;;
      let tried_errors :=
        _append_try_error tried_errors "query" resource query_resp in
      if _is_permission_message query_message
      then ret (QueryBreak, tried_errors)
      else throw (VolcAPIError ("ASR query business error: " +:+ query_status
                    +:+ " " +:+ query_message +:+ " "
                    +:+ PyStr.take 500 (text query_resp))).

(** [while time.time() < deadline: ... else: raise ...]; every turn
    reads the clock once, which bounds the turns by [fuel]. *)
Fixpoint query_loop (fuel : nat) (cfg : ASRConfig) (resource request_id : string)
    (deadline : Q) (tried_errors : list string)
    : M World (query_exit * list string) :=
  match fuel with
  | O => stuck
  | S fuel' =>
      now <- time_time ;;
      if negb (Qle_bool deadline now) then
        query_resp <- _post_standard_query cfg (query_url cfg) resource request_id ;;
        query_answer cfg resource query_resp tried_errors
          (query_loop fuel' cfg resource request_id deadline tried_errors)
      else throw (VolcAPIError (timeout_message cfg resource))
  end.

(** The polling of one candidate: the deadline, then the query loop. *)
Definition poll_candidate (cfg : ASRConfig) (resource request_id : string)
    (tried_errors : list string) : M World (query_exit * list string) :=
  start <- time_time ;;
  let deadline := (start + inject_Z (Z.max 5 (timeout_s cfg)))%Q in
  fuel <- gets (fun w => length (clock w)) ;;
  query_loop fuel cfg resource request_id deadline tried_errors.

(** The body of the loop of [_recognize_standard] once the answer to the
    submission is there; [continue_] is the rest of the loop and [poll]
    the polling that follows an accepted submission. *)
Definition submit_answer (cfg : ASRConfig) (resource : string) (submit_resp : response)
    (tried_errors : list string)
    (continue_ poll : list string -> M World (option json * list string))
    : M World (option json * list string) :=
  if (400 <=? status_code submit_resp)%Z then
    let tried_errors :=
      _append_try_error tried_errors "submit" resource submit_resp in
    permission <- of_result (_is_permission_response submit_resp) ;;
    if permission : bool then continue_ tried_errors
    else throw (VolcAPIError ("ASR submit failed: "
                  +:+ PyStr.of_int (status_code submit_resp) +:+ " "
                  +:+ PyStr.take 500 (text submit_resp)))
  else
    submit_status <- of_result (_extract_status_code submit_resp) ;;
    if PyStr.truthy submit_status && negb (String.eqb submit_status "20000000") then
      let tried_errors :=
        _append_try_error tried_errors "submit" resource submit_resp in
      submit_message <- of_result (_extract_status_message submit_resp) ;;
      if _is_permission_message submit_message
      then continue_ tried_errors
      else throw (VolcAPIError ("ASR submit business error: " +:+ submit_status
                    +:+ " " +:+ submit_message +:+ " "
                    +:+ PyStr.take 500 (text submit_resp)))
    else poll tried_errors.

(** The loop of [_recognize_standard] over the candidates. *)
Fixpoint standard_loop (cfg : ASRConfig) (audio_b64 audio_format : string)
    (candidates : list string) (tried_errors : list string)
    : M World (option json * list string) :=
  match candidates with
  | [] => ret (None, tried_errors)
  | resource :: rest =>
      request_id <- uuid4 ;;
      submit_resp <- _post_standard_submit cfg (submit_url cfg) audio_b64
                       audio_format resource request_id ;;
      submit_answer cfg resource submit_resp tried_errors
        (standard_loop cfg audio_b64 audio_format rest)
        (fun tried_errors =>
           exit <- poll_candidate cfg resource request_id tried_errors ;;
           match exit with
           | (QueryReturn payload, tried_errors) => ret (Some payload, tried_errors)
           | (QueryBreak, tried_errors) =>
               standard_loop cfg audio_b64 audio_format rest tried_errors
           end)
  end.

Definition _recognize_standard (cfg : ASRConfig) (audio_file audio_b64 : string)
    (candidate_resource_ids : list string) (tried_errors : list string)
    : M World (option json * list string) :=
  standard_loop cfg audio_b64 (_guess_audio_format audio_file)
    candidate_resource_ids tried_errors.

Definition not_granted_message (candidate_resource_ids tried_errors : list string)
    : string :=
  let tried := PyStr.join "," candidate_resource_ids in
  let details := PyStr.take 1400 (PyStr.join " | " tried_errors) in
  "ASR resource is not granted for current credentials. "
    +:+ "Tried resource_id(s): " +:+ tried +:+ ". "
    +:+ "Details: " +:+ details +:+ ". "
    +:+ "Please use an ASR app/token with granted resourceId from Volcengine Speech Console.".

Section Recognize.
(** [base64.b64encode(data).decode("utf-8")] *)
Variable b64encode : string -> string.

(** [recognize]; [audio_bytes] is the content of [audio_file], or
    [None] when there is no such file for [read_bytes]. *)
Definition recognize (cfg : ASRConfig) (audio_file : string)
    (audio_bytes : option string) : M World json :=
  if negb (PyStr.truthy (appid cfg)) || negb (PyStr.truthy (access_token cfg))
  then throw (VolcAPIError "ASR appid/access_token is required")
  else
    let candidate_resource_ids := _candidate_resource_ids cfg in
    match audio_bytes with
    | None => throw (OSError ("No such file or directory: " +:+ audio_file))
    | Some data =>
        let audio_b64 := b64encode data in
        flash <- _recognize_flash cfg candidate_resource_ids audio_b64 [] ;;
        match flash with
        | (Some flash_payload, _) => ret flash_payload
        | (None, tried_errors) =>
            standard <- _recognize_standard cfg audio_file audio_b64
                          candidate_resource_ids tried_errors ;;
            match standard with
            | (Some standard_payload, _) => ret standard_payload
            | (None, tried_errors) =>
                throw (VolcAPIError
                         (not_granted_message candidate_resource_ids tried_errors))
            end
        end
    end.
End Recognize.

End ASRClient.

(** ** services/volc_clients.py: [LLMClient] *)
Module LLMClient.
Import Http VolcParsers.

Record LLMConfig : Type := {
  base_url : string;
  api_key : string;
  model : string;
  timeout_s : Z;
  temperature : Q;
  script_system_prompt : string;
  asr_polish_system_prompt : string;
}.

(** The content of [choices[0]], when [choices] is a list that is not
    empty and its head a [dict]. *)
Definition first_choice_content (choices : json) : option string :=
  match choices with
  | JArr (JObj first :: _) =>
      match dict_get first "message" with
      | JObj message =>
          match dict_get message "content" with
          | JStr content => Some (PyStr.strip content)
          | _ =>
              match dict_get first "content" with
              | JStr content => Some (PyStr.strip content)
              | _ => None
              end
          end
      | _ =>
          match dict_get first "content" with
          | JStr content => Some (PyStr.strip content)
          | _ => None
          end
      end
  | _ => None
  end.

Definition parse_llm_text (payload : json) : result string :=
  match payload with
  | JObj fields =>
      match first_choice_content (dict_get fields "choices") with
      | Some content => Ok content
      | None =>
          match dict_get fields "output_text" with
          | JStr output_text => Ok (PyStr.strip output_text)
          | _ =>
              match _first_string (_deep_find ["text"; "content"] payload) with
              | Some content => Ok content
              | None => Ok ""
              end
          end
      end
  | _ => Raise (AttributeError "object has no attribute 'get'")
  end.

(** [generate_text]; the temperature, a float, is left out of the body
    that the world records. *)
Definition generate_text (cfg : LLMConfig) (system_prompt user_prompt : string)
    (temperature : option Q) : M World (string * json) :=
  resp <- send {| method := "POST";
                  url := rstrip_slash (base_url cfg) +:+ "/api/v3/chat/completions";
                  req_headers := bearer_headers (api_key cfg);
                  req_json :=
                    JObj [("model", JStr (model cfg));
                          ("messages",
                           JArr [JObj [("role", JStr "system");
                                       ("content", JStr system_prompt)];
                                 JObj [("role", JStr "user");
                                       ("content", JStr user_prompt)]])] |} ;;
  if (400 <=? status_code resp)%Z
  then throw (VolcAPIError ("LLM request failed: "
                +:+ PyStr.of_int (status_code resp) +:+ " "
                +:+ PyStr.take 500 (text resp)))
  else
    match json_body resp with
    | DecodeError msg => throw (JSONDecodeError msg)
    | Decoded payload_json =>
        content <- of_result (parse_llm_text payload_json) ;;
        ret (content, payload_json)
    end.

End LLMClient.

(** ** services/media.py *)
Module Media.

(** The numbers of a [VideoMeta] are integers in this model. *)
Record VideoMeta : Type := {
  width : Z;
  height : Z;
  fps : Z;
  duration : Z;
  has_audio : bool;
}.

(** [meta.__dict__] *)
Definition meta_dict (m : VideoMeta) : json :=
  JObj [("width", JNum (width m)); ("height", JNum (height m));
        ("fps", JNum (fps m)); ("duration", JNum (duration m));
        ("has_audio", JBool (has_audio m))].

(** The runs of [ffmpeg] that the module launches. *)
Inductive ffmpeg_cmd : Type :=
| ExtractWav (source : string) (seconds : Z)
| NormalizeSource (source : string) (target : VideoMeta)
| AlignHook (raw : string) (target : VideoMeta) (add_silence : bool)
| TrimHook (normalized : string) (seconds : Z)
| PadHook (normalized : string) (seconds : Z) (pad_seconds : Z)
| ConcatList (concat_txt : string).

(** The media toolchain: whether the two programs start, what [ffprobe]
    reports on a file of the file system, and the bytes that a run of
    [ffmpeg] leaves in its output file. A run that fails is a
    [MediaError]. *)
Record Tools : Type := {
  ffmpeg_available : bool;
  ffprobe_available : bool;
  probe_video : gmap string string -> string -> result VideoMeta;
  run_ffmpeg : ffmpeg_cmd -> gmap string string -> result string;
}.

End Media.

(** ** Paths *)
Module Path.

(** [directory / name] *)
Definition join (directory name : string) : string :=
  directory +:+ "/" +:+ name.

(** [path.parent]: the path without its last component. *)
Fixpoint parent (path : string) : string :=
  match path with
  | EmptyString => EmptyString
  | String c r =>
      if PyStr.contains "/" r then String c (parent r) else EmptyString
  end.

End Path.

(** ** services/repository.py, over a database session *)
Module Repository.
Import Stage.

Record Job : Type := {
  id : string;
  source_path : string;
  asr_clip_seconds : Z;
  hook_clip_seconds : Z;
  status : string;
  error_message : option string;
  meta : gmap string json;          (* [meta_json] *)
  artifacts : gmap string string;   (* [artifacts_json] *)
}.

Record JobEvent : Type := {
  event_job_id : string;
  event_status : string;
  event_message : string;
}.

Record database : Type := {
  jobs : gmap string Job;
  events : list JobEvent;
}.

Definition with_status (j : Job) (s : string) : Job :=
  {| id := id j; source_path := source_path j;
     asr_clip_seconds := asr_clip_seconds j; hook_clip_seconds := hook_clip_seconds j;
     status := s; error_message := error_message j;
     meta := meta j; artifacts := artifacts j |}.

Definition with_error (j : Job) (e : option string) : Job :=
  {| id := id j; source_path := source_path j;
     asr_clip_seconds := asr_clip_seconds j; hook_clip_seconds := hook_clip_seconds j;
     status := status j; error_message := e;
     meta := meta j; artifacts := artifacts j |}.

Definition with_meta (j : Job) (m : gmap string json) : Job :=
  {| id := id j; source_path := source_path j;
     asr_clip_seconds := asr_clip_seconds j; hook_clip_seconds := hook_clip_seconds j;
     status := status j; error_message := error_message j;
     meta := m; artifacts := artifacts j |}.

Definition with_artifacts (j : Job) (a : gmap string string) : Job :=
  {| id := id j; source_path := source_path j;
     asr_clip_seconds := asr_clip_seconds j; hook_clip_seconds := hook_clip_seconds j;
     status := status j; error_message := error_message j;
     meta := meta j; artifacts := a |}.

Definition put_job (db : database) (job_id : string) (j : Job) : database :=
  {| jobs := <[job_id := j]> (jobs db); events := events db |}.

Definition get_job (db : database) (job_id : string) : option Job :=
  jobs db !! job_id.

Definition append_event (db : database) (job_id status message : string) : database :=
  {| jobs := jobs db;
     events := events db ++ [{| event_job_id := job_id; event_status := status;
                                event_message := message |}] |}.

Definition not_found {A : Type} (job_id : string) : result A :=
  Raise (ValueError ("job not found: " +:+ job_id)).

Definition set_job_status (db : database) (job_id status message : string)
    : result database :=
  match get_job db job_id with
  | None => not_found job_id
  | Some job =>
      let db := put_job db job_id (with_status job status) in
      Ok (if PyStr.truthy message then append_event db job_id status message else db)
  end.

Definition set_job_error (db : database) (job_id error : string) : result database :=
  match get_job db job_id with
  | None => not_found job_id
  | Some job =>
      let job := with_error (with_status job (value FAILED)) (Some error) in
      Ok (append_event (put_job db job_id job) job_id (value FAILED) error)
  end.

(** [meta.update(kwargs)] *)
Fixpoint meta_update (m : gmap string json) (kwargs : list (string * json))
    : gmap string json :=
  match kwargs with
  | [] => m
  | (k, v) :: r => meta_update (<[k := v]> m) r
  end.

Definition patch_meta (db : database) (job_id : string) (kwargs : list (string * json))
    : result database :=
  match get_job db job_id with
  | None => not_found job_id
  | Some job => Ok (put_job db job_id (with_meta job (meta_update (meta job) kwargs)))
  end.

Definition put_artifact (db : database) (job_id kind path : string) : result database :=
  match get_job db job_id with
  | None => not_found job_id
  | Some job =>
      Ok (put_job db job_id (with_artifacts job (<[kind := path]> (artifacts job))))
  end.

End Repository.

(** ** services/pipeline.py *)
Module Pipeline.
Import Stage Repository Media.

Record PipelineConfig : Type := {
  enable_asr_polish : bool;
}.

Record AppConfig : Type := {
  asr : ASRClient.ASRConfig;
  llm : LLMClient.LLMConfig;
  video : VideoClient.VideoConfig;
  pipeline : PipelineConfig;
}.

(** What the engine takes from its surroundings: the jobs directory of
    [PATHS], the stored configuration, the [json] and [base64] codecs,
    the media toolchain, and the three prompt templates of the module
    (their [textwrap] layout is not modelled). *)
Record Env : Type := {
  jobs_root : string;
  load_config : result AppConfig;
  json_loads : string -> decoded;
  json_dumps : json -> string;
  b64encode : string -> string;
  tools : Tools;
  _build_polish_prompt : string -> string;
  _build_script_prompt : string -> Z -> string;
  _build_video_prompt : string -> json -> result string;
}.

(** The state of a run: the committed database, the view of the open
    session, the files, and the remote world. *)
Record pstate : Type := {
  saved : database;
  session : database;
  fs : gmap string string;
  world : Http.World;
}.

Definition set_session (p : pstate) (db : database) : pstate :=
  {| saved := saved p; session := db; fs := fs p; world := world p |}.
Definition set_fs (p : pstate) (f : gmap string string) : pstate :=
  {| saved := saved p; session := session p; fs := f; world := world p |}.
Definition set_world (p : pstate) (w : Http.World) : pstate :=
  {| saved := saved p; session := session p; fs := fs p; world := w |}.

(** [db.commit()] and [db.rollback()] *)
Definition commit : M pstate unit :=
  modify (fun p => {| saved := session p; session := session p;
                      fs := fs p; world := world p |}).
Definition rollback : M pstate unit :=
  modify (fun p => {| saved := saved p; session := saved p;
                      fs := fs p; world := world p |}).

(** A repository call on the session. *)
Definition on_session (f : database -> result database) : M pstate unit :=
  fun p =>
    match f (session p) with
    | Ok db => (Return tt, set_session p db)
    | Raise e => (Throw e, p)
    end.

(** A client call on the remote world. *)
Definition on_world {A : Type} (m : M Http.World A) : M pstate A :=
  fun p => let '(r, w) := m (world p) in (r, set_world p w).

Definition write_file (path content : string) : M pstate unit :=
  modify (fun p => set_fs p (<[path := content]> (fs p))).

Definition _write_text (path content : string) : M pstate unit :=
  write_file path content.

Definition _set_stage (job_id : string) (status : JobStatus) (message : string)
    : M pstate unit :=
  on_session (fun db => set_job_status db job_id (value status) message) ;; commit.

Definition _save_artifact (job_id kind path : string) : M pstate unit :=
  on_session (fun db => put_artifact db job_id kind path) ;; commit.

Definition _as_dict (v : json) : dict :=
  match v with JObj d => d | _ => [] end.

(** [int(text)] on a decimal text with an optional sign. *)
Definition int_of_text (s : string) : option Z :=
  let digits t := option_map Z.of_uint (NilZero.uint_of_string t) in
  match PyStr.strip s with
  | String "-" r => option_map Z.opp (digits r)
  | String "+" r => digits r
  | t => digits t
  end.

(** [int(value)], [float(value)]: [None] where Python raises. *)
Definition py_number (v : json) : option Z :=
  match v with
  | JNum n => Some n
  | JBool b => Some (if b then 1 else 0)%Z
  | JStr s => int_of_text s
  | _ => None
  end.

Definition _safe_float (v : json) (default : Z) : Z :=
  match py_number v with Some n => n | None => default end.

Definition _safe_int (v : json) (default : Z) : Z :=
  match py_number v with Some n => n | None => default end.

Definition _video_meta_from_dict (payload : dict) : option VideoMeta :=
  match payload with
  | [] => None
  | _ =>
      if forallb (fun k => PyStr.mem k (dict_keys payload))
           ["width"; "height"; "fps"; "duration"; "has_audio"]
      then Some {| width := Z.max 1 (_safe_int (dict_get payload "width") 1080);
                   height := Z.max 1 (_safe_int (dict_get payload "height") 1920);
                   fps := Z.max 1 (_safe_float (dict_get payload "fps") 30);
                   duration := Z.max 0 (_safe_float (dict_get payload "duration") 0);
                   has_audio := Json.truthy (dict_get payload "has_audio") |}
      else None
  end.

Definition missing_in_parent (kind parent_job_id : string) : string :=
  "重跑需复用产物 `" +:+ kind +:+ "`，但父任务 " +:+ parent_job_id +:+ " 缺少该产物".

Definition missing_on_disk (kind parent_path : string) : string :=
  "重跑需复用产物 `" +:+ kind +:+ "`，但文件不存在: " +:+ parent_path.

(** [shutil.copy2(source, target)]: the bytes of [source] under [target];
    the same path twice is a [SameFileError]. *)
Definition copy2 (source target : string) : M pstate unit :=
  fun p =>
    match fs p !! source with
    | None => (Throw (OSError ("No such file or directory: " +:+ source)), p)
    | Some content =>
        if String.eqb source target
        then (Throw (OSError ("SameFileError: " +:+ source)), p)
        else (Return tt, set_fs p (<[target := content]> (fs p)))
    end.

Definition _reuse_parent_artifact
    (job_id parent_job_id : string) (parent_artifacts : gmap string string)
    (kind target_path : string) (required : bool) : M pstate (option string) :=
  match parent_artifacts !! kind with
  | Some (String _ _ as parent_path) =>
      exists_ <- gets (fun p => bool_decide (is_Some (fs p !! parent_path))) ;;
      if exists_ : bool then
        copy2 parent_path target_path ;;
        _save_artifact job_id kind target_path ;;
        ret (Some target_path)
      else if required
      then throw (PipelineError (missing_on_disk kind parent_path))
      else ret None
  | _ =>
      if required
      then throw (PipelineError (missing_in_parent kind parent_job_id))
      else ret None
  end.

Definition _read_text_or_fail (path error_message : string) : M pstate string :=
  content <- gets (fun p => fs p !! path) ;;
  match content with
  | None => throw (PipelineError error_message)
  | Some text =>
      if PyStr.truthy (PyStr.strip text) then ret (PyStr.strip text)
      else throw (PipelineError error_message)
  end.

Section WithEnv.
Variable env : Env.

Definition _write_json (path : string) (payload : json) : M pstate unit :=
  write_file path (json_dumps env payload).

(** *** The calls into services/media.py *)

Definition run_tool (cmd : ffmpeg_cmd) (output : string) : M pstate unit :=
  files <- gets fs ;;
  content <- of_result (run_ffmpeg (tools env) cmd files) ;;
  write_file output content.

Definition probe (path : string) : M pstate VideoMeta :=
  files <- gets fs ;;
  of_result (probe_video (tools env) files path).

Definition extract_asr_clip_to_wav (source_video : string) (clip_seconds : Z)
    (wav_output : string) : M pstate unit :=
  run_tool (ExtractWav source_video (Z.max 1 clip_seconds)) wav_output.

Definition normalize_source_video (source_video : string) (target : VideoMeta)
    (output_video : string) : M pstate unit :=
  run_tool (NormalizeSource source_video target) output_video.

Definition normalize_hook_video (hook_video_raw : string) (target : VideoMeta)
    (hook_seconds : Z) (output_video : string) : M pstate unit :=
  let normalized := Path.join (Path.parent output_video) "hook_video_aligned.mp4" in
  raw_meta <- probe hook_video_raw ;;
  run_tool (AlignHook hook_video_raw target (negb (has_audio raw_meta))) normalized ;;
  aligned_meta <- probe normalized ;;
  let target_seconds := Z.max 1 hook_seconds in
  if (target_seconds <=? duration aligned_meta)%Z
  then run_tool (TrimHook normalized target_seconds) output_video
  else
    let pad_seconds := Z.max 0 (target_seconds - duration aligned_meta) in
    run_tool (PadHook normalized target_seconds pad_seconds) output_video.

Definition concat_with_source (hook_video source_video output_video : string)
    : M pstate unit :=
  let concat_txt := Path.join (Path.parent output_video) "concat_list.txt" in
  write_file concat_txt
    ("file '" +:+ hook_video +:+ "'" +:+ PyStr.nl
       +:+ "file '" +:+ source_video +:+ "'" +:+ PyStr.nl) ;;
  run_tool (ConcatList concat_txt) output_video.

Definition dump_meta (m : VideoMeta) (path : string) : M pstate unit :=
  write_file path (json_dumps env (meta_dict m)).

(** *** [execute_job] *)

(** The values that [execute_job] fixes before the first stage. *)
Record context : Type := {
  job : Job;
  config : AppConfig;
  job_dir : string;
  start_stage : JobStatus;
  parent_job_id : string;
  parent_meta : gmap string json;
  parent_artifacts : gmap string string;
  source_video_path : string;
}.

(** [mapping.get(key)] on a metadata map. *)
Definition meta_get (m : gmap string json) (key : string) : json :=
  match m !! key with Some v => v | None => JNull end.

(** [str(value or "").strip()] *)
Definition text_or_empty (v : json) : string :=
  PyStr.strip (Json.str (if Json.truthy v then v else JStr "")).

Definition reuse (c : context) (kind name : string) (required : bool)
    : M pstate (option string) :=
  _reuse_parent_artifact (id (job c)) (parent_job_id c) (parent_artifacts c)
    kind (Path.join (job_dir c) name) required.

Definition stage_preprocessing (c : context) : M pstate VideoMeta :=
  run <- of_result (_should_run_stage (start_stage c) PREPROCESSING) ;;
  source_meta <-
    (if run : bool then
       _set_stage (id (job c)) PREPROCESSING "开始预处理视频" ;;
       probe (source_video_path c)
     else
       _set_stage (id (job c)) PREPROCESSING "跳过预处理，复用父任务元数据" ;;
       match _video_meta_from_dict (_as_dict (meta_get (parent_meta c) "source_meta")) with
       | Some source_meta => ret source_meta
       | None => probe (source_video_path c)
       end) ;;
  dump_meta source_meta (Path.join (job_dir c) "source_meta.json") ;;
  on_session (fun db => patch_meta db (id (job c))
                          [("source_meta", meta_dict source_meta)]) ;;
  commit ;;
  ret source_meta.

Definition stage_asr (c : context) : M pstate string :=
  run <- of_result (_should_run_stage (start_stage c) ASR) ;;
  if run : bool then
    _set_stage (id (job c)) ASR "正在截取音频并调用ASR" ;;
    let asr_audio_path := Path.join (job_dir c) "asr_clip.wav" in
    extract_asr_clip_to_wav (source_video_path c) (asr_clip_seconds (job c))
      asr_audio_path ;;
    _save_artifact (id (job c)) "asr_clip_audio" asr_audio_path ;;
    audio <- gets (fun p => fs p !! asr_audio_path) ;;
    asr_raw_payload <-
      on_world (ASRClient.recognize (b64encode env) (asr (config c))
                  asr_audio_path audio) ;;
    _write_json (Path.join (job_dir c) "asr_response.json") asr_raw_payload ;;
    match asr_raw_payload with
    | JObj payload =>
        let transcript_raw := PyStr.strip (VolcParsers.parse_asr_text payload) in
        if negb (PyStr.truthy transcript_raw)
        then throw (PipelineError "ASR识别结果为空")
        else
          let transcript_raw_path := Path.join (job_dir c) "transcript_raw.txt" in
          _write_text transcript_raw_path transcript_raw ;;
          _save_artifact (id (job c)) "transcript_raw" transcript_raw_path ;;
          ret transcript_raw
    | _ => throw ASRClient.no_get
    end
  else
    _set_stage (id (job c)) ASR "跳过ASR，复用父任务转写产物" ;;
    reuse c "asr_clip_audio" "asr_clip.wav" false ;;
    reused_transcript_raw_path <- reuse c "transcript_raw" "transcript_raw.txt" true ;;
    match reused_transcript_raw_path with
    | None => throw (PipelineError "复用 transcript_raw 失败")
    | Some path => _read_text_or_fail path "复用转写文本为空"
    end.

Definition stage_transcript_polish (c : context) (transcript_raw : string)
    : M pstate string :=
  run <- of_result (_should_run_stage (start_stage c) TRANSCRIPT_POLISH) ;;
  if run : bool then
    polished_text <-
      (if enable_asr_polish (pipeline (config c)) then
         _set_stage (id (job c)) TRANSCRIPT_POLISH "ASR文本纠错中" ;;
         let polish_system_prompt :=
           if PyStr.truthy (ASRClient.system_prompt (asr (config c)))
           then ASRClient.system_prompt (asr (config c))
           else LLMClient.asr_polish_system_prompt (llm (config c)) in
         let polish_user_prompt := _build_polish_prompt env transcript_raw in
         answer <- on_world (LLMClient.generate_text (llm (config c))
                               polish_system_prompt polish_user_prompt
                               (Some (2 # 10))) ;;
         _write_json (Path.join (job_dir c) "transcript_polish_response.json")
           (snd answer) ;;
         ret (if PyStr.truthy (PyStr.strip (fst answer))
              then PyStr.strip (fst answer) else transcript_raw)
       else
         _set_stage (id (job c)) TRANSCRIPT_POLISH
           "ASR文本纠错已关闭，直接使用原始转写" ;;
         ret transcript_raw) ;;
    let transcript_polished_path := Path.join (job_dir c) "transcript_polished.txt" in
    _write_text transcript_polished_path polished_text ;;
    _save_artifact (id (job c)) "transcript_polished" transcript_polished_path ;;
    ret polished_text
  else
    _set_stage (id (job c)) TRANSCRIPT_POLISH "跳过纠错，复用父任务文本" ;;
    reused_polished_path <-
      reuse c "transcript_polished" "transcript_polished.txt" true ;;
    match reused_polished_path with
    | None => throw (PipelineError "复用 transcript_polished 失败")
    | Some path => _read_text_or_fail path "复用纠错文本为空"
    end.

Definition stage_script_gen (c : context) (polished_text : string) : M pstate json :=
  run <- of_result (_should_run_stage (start_stage c) SCRIPT_GEN) ;;
  if run : bool then
    _set_stage (id (job c)) SCRIPT_GEN "生成前贴脚本中" ;;
    let script_user_prompt :=
      _build_script_prompt env polished_text (hook_clip_seconds (job c)) in
    answer <- on_world (LLMClient.generate_text (llm (config c))
                          (LLMClient.script_system_prompt (llm (config c)))
                          script_user_prompt
                          (Some (LLMClient.temperature (llm (config c))))) ;;
    _write_json (Path.join (job_dir c) "script_gen_response.json") (snd answer) ;;
    extracted <- of_result
      (JsonExtract.extract_first_json_object (json_loads env) (fst answer)) ;;
    script_payload <- of_result (ScriptSchema.validate_script_payload (JObj extracted)) ;;
    let hook_script_path := Path.join (job_dir c) "hook_script.json" in
    _write_json hook_script_path script_payload ;;
    _save_artifact (id (job c)) "hook_script_json" hook_script_path ;;
    ret script_payload
  else
    _set_stage (id (job c)) SCRIPT_GEN "跳过脚本生成，复用父任务脚本" ;;
    reused_script_path <- reuse c "hook_script_json" "hook_script.json" true ;;
    match reused_script_path with
    | None => throw (PipelineError "复用 hook_script_json 失败")
    | Some path =>
        content <- gets (fun p => fs p !! path) ;;
        match content with
        | None => throw (PipelineError "复用脚本JSON解析失败")
        | Some text =>
            match json_loads env text with
            | DecodeError _ => throw (PipelineError "复用脚本JSON解析失败")
            | Decoded script_payload =>
                of_result (ScriptSchema.validate_script_payload script_payload)
            end
        end
    end.

Definition missing_task_id (c : context) : string :=
  "重跑从 `" +:+ value (start_stage c) +:+ "` 开始需要复用 video_task_id，但父任务 `"
    +:+ parent_job_id c +:+ "` 未记录".

Definition stage_video_submit (c : context) (script_payload : json)
    (source_meta : VideoMeta) : M pstate string :=
  run <- of_result (_should_run_stage (start_stage c) VIDEO_SUBMIT) ;;
  if run : bool then
    _set_stage (id (job c)) VIDEO_SUBMIT "提交视频生成任务" ;;
    video_prompt <- of_result
      (_build_video_prompt env (VideoClient.system_prompt (video (config c)))
         script_payload) ;;
    answer <- on_world (VideoClient.submit_generation (video (config c)) video_prompt
                          (hook_clip_seconds (job c))
                          (width source_meta) (height source_meta)) ;;
    _write_json (Path.join (job_dir c) "video_submit_response.json") (snd answer) ;;
    on_session (fun db => patch_meta db (id (job c))
                            [("video_task_id", JStr (fst answer))]) ;;
    commit ;;
    ret (fst answer)
  else
    _set_stage (id (job c)) VIDEO_SUBMIT "跳过视频提交，复用父任务 task_id" ;;
    let task_id := text_or_empty (meta_get (parent_meta c) "video_task_id") in
    if negb (PyStr.truthy task_id)
    then throw (PipelineError (missing_task_id c))
    else
      on_session (fun db => patch_meta db (id (job c))
                              [("video_task_id", JStr task_id)]) ;;
      commit ;;
      ret task_id.

Definition stage_video_polling (c : context) (task_id : string) : M pstate string :=
  run <- of_result (_should_run_stage (start_stage c) VIDEO_POLLING) ;;
  if run : bool then
    _set_stage (id (job c)) VIDEO_POLLING ("轮询视频任务中: " +:+ task_id) ;;
    video_result <- on_world (VideoClient.poll_until_done (video (config c))
                                task_id None) ;;
    _write_json (Path.join (job_dir c) "video_poll_response.json") video_result ;;
    video_url <- of_result (VideoClient.extract_video_url video_result) ;;
    let hook_video_raw_path := Path.join (job_dir c) "hook_video_raw.mp4" in
    content <- on_world (VideoClient.download_video video_url) ;;
    write_file hook_video_raw_path content ;;
    _save_artifact (id (job c)) "hook_video_raw" hook_video_raw_path ;;
    ret hook_video_raw_path
  else
    _set_stage (id (job c)) VIDEO_POLLING "跳过视频轮询，复用父任务前贴视频" ;;
    reused_hook_raw <- reuse c "hook_video_raw" "hook_video_raw.mp4" true ;;
    match reused_hook_raw with
    | None => throw (PipelineError "复用 hook_video_raw 失败")
    | Some path => ret path
    end.

Definition stage_postprocess (c : context) (source_meta : VideoMeta)
    (hook_video_raw_path : string) : M pstate unit :=
  _set_stage (id (job c)) POSTPROCESS "标准化前贴并拼接成片" ;;
  let source_norm_path := Path.join (job_dir c) "source_video_norm.mp4" in
  normalize_source_video (source_video_path c) source_meta source_norm_path ;;
  let hook_video_norm_path := Path.join (job_dir c) "hook_video_norm.mp4" in
  normalize_hook_video hook_video_raw_path source_meta (hook_clip_seconds (job c))
    hook_video_norm_path ;;
  _save_artifact (id (job c)) "hook_video_norm" hook_video_norm_path ;;
  let final_video_path := Path.join (job_dir c) "final_video.mp4" in
  concat_with_source hook_video_norm_path source_norm_path final_video_path ;;
  _save_artifact (id (job c)) "final_video" final_video_path ;;
  on_session (fun db => set_job_status db (id (job c)) (value COMPLETED)
                          "任务完成，成片已输出") ;;
  commit.

Definition rerun_notice (start : JobStatus) (parent : string) : string :=
  "重跑任务：从 `" +:+ value start +:+ "` 开始，复用父任务 `" +:+ parent +:+ "` 产物".

(** The statements of the [try] block from the loaded job up to the
    first stage. *)
Definition prepare (loaded : Job) : M pstate context :=
  config <- of_result (load_config env) ;;
  let job_dir := Path.join (jobs_root env) (id loaded) in
  on_session (fun db => Ok (put_job db (id loaded) (with_error loaded None))) ;;
  commit ;;
  let job_meta := meta loaded in
  let start_stage := _normalize_start_stage (meta_get job_meta "rerun_start_stage") in
  let parent_job_id := text_or_empty (meta_get job_meta "rerun_of_job_id") in
  lineage <-
    (if PyStr.truthy parent_job_id then
       parent_job <- gets (fun p => get_job (session p) parent_job_id) ;;
       match parent_job with
       | None => throw (PipelineError ("重跑父任务不存在: " +:+ parent_job_id))
       | Some parent =>
           on_session (fun db => Ok (append_event db (id loaded) (value QUEUED)
                                       (rerun_notice start_stage parent_job_id))) ;;
           commit ;;
           ret (meta parent, artifacts parent)
       end
     else ret (∅, ∅)) ;;
  let source_video_path := source_path loaded in
  source_exists <- gets (fun p => bool_decide (is_Some (fs p !! source_video_path))) ;;
  if negb source_exists
  then throw (PipelineError ("源视频不存在: " +:+ source_video_path))
  else if negb (ffmpeg_available (tools env)) || negb (ffprobe_available (tools env))
  then throw (PipelineError "ffmpeg 或 ffprobe 不可用，请先安装")
  else
    _save_artifact (id loaded) "source_video" source_video_path ;;
    ret {| job := loaded; config := config; job_dir := job_dir;
           start_stage := start_stage; parent_job_id := parent_job_id;
           parent_meta := fst lineage; parent_artifacts := snd lineage;
           source_video_path := source_video_path |}.

Definition run_stages (c : context) : M pstate unit :=
  source_meta <- stage_preprocessing c ;;
  transcript_raw <- stage_asr c ;;
  polished_text <- stage_transcript_polish c transcript_raw ;;
  script_payload <- stage_script_gen c polished_text ;;
  task_id <- stage_video_submit c script_payload source_meta ;;
  hook_video_raw_path <- stage_video_polling c task_id ;;
  stage_postprocess c source_meta hook_video_raw_path.

(** The [try] block. *)
Definition execute_job_body (job_id : string) : M pstate unit :=
  loaded <- gets (fun p => get_job (session p) job_id) ;;
  match loaded with
  | None => ret tt
  | Some loaded =>
      c <- prepare loaded ;;
      run_stages c
  end.

(** What lasts between runs: the committed database, the files, the
    remote world. *)
Record system : Type := {
  db : database;
  files : gmap string string;
  remote : Http.World;
}.

(** [db = SessionLocal()] and [db.close()] *)
Definition open_session (s : system) : pstate :=
  {| saved := db s; session := db s; fs := files s; world := remote s |}.
Definition close_session (p : pstate) : system :=
  {| db := saved p; files := fs p; remote := world p |}.

(** The [except] block: roll back, record the failure if that works,
    and raise the exception again. *)
Definition on_exception (job_id : string) (e : exn) (p : pstate) : pstate :=
  let p := snd (rollback p) in
  match (on_session (fun db => set_job_error db job_id (exn_message e)) ;; commit) p with
  | (Return _, p') => p'
  | (_, p') => snd (rollback p')
  end.

Definition execute_job (job_id : string) : M system unit :=
  fun s =>
    match execute_job_body job_id (open_session s) with
    | (Return tt, p) => (Return tt, close_session p)
    | (Throw e, p) => (Throw e, close_session (on_exception job_id e p))
    | (Stuck, p) => (Stuck, close_session p)
    end.

End WithEnv.

End Pipeline.

(** * The statements of the specification *)

(** ** Script payloads (section 4.5) *)
Module ScriptSchemaSpec.
Import ScriptSchema.

Definition TEXT_FIELDS : list string :=
  ["hook_title"; "visual_prompt"; "narration"; "safety_notes"].

(** [shot_list] and [style_tags] are arrays, the four text fields are
    strings that are not blank. *)
Definition well_typed (fields : dict) : Prop :=
  is_list (dict_get fields "shot_list") = true
  /\ is_list (dict_get fields "style_tags") = true
  /\ forall k, In k TEXT_FIELDS -> non_empty_string (dict_get fields k) = true.

Definition has_required_keys (fields : dict) : Prop :=
  forall k, In k REQUIRED_FIELDS -> In k (dict_keys fields).

Definition has_exactly_required_keys (fields : dict) : Prop :=
  forall k, In k (dict_keys fields) <-> In k REQUIRED_FIELDS.

Definition accepted (payload : json) : Prop :=
  validate_script_payload payload = Ok payload.

(** The specification's wording: an object with exactly the required keys. *)
Definition valid_as_worded (payload : json) : Prop :=
  exists fields,
    payload = JObj fields /\ has_exactly_required_keys fields /\ well_typed fields.

(** An object that holds the required keys, and maybe others. *)
Definition valid (payload : json) : Prop :=
  exists fields,
    payload = JObj fields /\ has_required_keys fields /\ well_typed fields.

End ScriptSchemaSpec.

(** ** Transcript extraction (section 4.2) *)
Module TranscriptSpec.
Import VolcParsers.

(** Every member [(key, value)] of every object of a document, in the
    order of a depth-first walk. *)
Fixpoint members (data : json) : list (string * json) :=
  match data with
  | JObj fields =>
      (fix of_fields (fs : list (string * json)) : list (string * json) :=
         match fs with
         | [] => []
         | (k, v) :: r => (k, v) :: members v ++ of_fields r
         end) fields
  | JArr items =>
      (fix of_items (xs : list json) : list (string * json) :=
         match xs with
         | [] => []
         | x :: r => members x ++ of_items r
         end) items
  | _ => []
  end.

(** The values found under one of [keys] anywhere in the document. *)
Definition found_under (keys : list string) (data : json) : list json :=
  map snd (List.filter (fun kv => PyStr.mem (fst kv) keys) (members data)).

(** A string that is not blank, trimmed. *)
Definition non_blank (v : json) : option string :=
  match v with
  | JStr s => if PyStr.truthy (PyStr.strip s) then Some (PyStr.strip s) else None
  | _ => None
  end.

Definition row_text (row : json) : option string :=
  match row with
  | JObj fields => non_blank (dict_get fields "text")
  | _ => None
  end.

(** The text fields of a sentence/utterance block. *)
Definition block_texts (block : json) : list string :=
  match block with
  | JArr rows => omap row_text rows
  | _ => []
  end.

Definition has_text (block : json) : bool :=
  match block_texts block with [] => false | _ => true end.

Definition result_text (payload : dict) : option string :=
  match dict_get payload "result" with
  | JObj result => non_blank (dict_get result "text")
  | _ => None
  end.

Definition first_text (payload : dict) : string :=
  match omap non_blank (found_under ["text"] (JObj payload)) with
  | t :: _ => t
  | [] => ""
  end.

Definition BLOCK_KEYS : list string := ["utterances"; "sentences"].

(** The precedence as worded: the block is the first one that the
    search finds. *)
Definition transcript_as_worded (payload : dict) : string :=
  match result_text payload with
  | Some t => t
  | None =>
      match found_under BLOCK_KEYS (JObj payload) with
      | block :: _ =>
          if has_text block then PyStr.join PyStr.nl (block_texts block)
          else first_text payload
      | [] => first_text payload
      end
  end.

(** The precedence with the first block that has text. *)
Definition transcript (payload : dict) : string :=
  match result_text payload with
  | Some t => t
  | None =>
      match List.find has_text (found_under BLOCK_KEYS (JObj payload)) with
      | Some block => PyStr.join PyStr.nl (block_texts block)
      | None => first_text payload
      end
  end.

End TranscriptSpec.

(** ** JSON extraction (section 4.3) *)
Module JsonExtractSpec.
Import JsonExtract.

(** The errors of parsing: [ValueError] and its subclass [JSONDecodeError]. *)
Definition is_parse_error (e : exn) : Prop :=
  match e with
  | ValueError _ | JSONDecodeError _ => True
  | _ => False
  end.

(** [text] parses to the object [obj]. *)
Definition parses_to (json_loads : string -> decoded) (text : string) (obj : dict) : Prop :=
  json_loads text = Decoded (JObj obj).

Definition no_object (json_loads : string -> decoded) (text : string) : Prop :=
  forall obj, ~ parses_to json_loads text obj.

(** [span] is the part of [text] from its first opening brace to its
    last closing brace. *)
Definition is_brace_span (text span : string) : Prop :=
  exists before body after,
    text = before +:+ "{" +:+ body +:+ "}" +:+ after
    /\ span = "{" +:+ body +:+ "}"
    /\ PyStr.contains "{" before = false
    /\ PyStr.contains "}" after = false.

(** A decoder that knows one document, for the examples. *)
Definition loads_empty_object (s : string) : decoded :=
  if String.eqb s "{}" then Decoded (JObj []) else DecodeError "Expecting value".

End JsonExtractSpec.

(** ** Video generation (section 4.4) *)
Module VideoSpec.
Import Http VolcParsers VideoClient.

Definition TASK_ID_KEYS : list string := ["task_id"; "id"].

(** The answer is a 400 or a 422: the payload shape was refused. *)
Definition shape_rejected (resp : response) : Prop :=
  status_code resp = 400%Z \/ status_code resp = 422%Z.

(** The answer is no error, and no non-blank string lies under a
    [task_id]/[id] key of its document. *)
Definition without_task_id (resp : response) : Prop :=
  (status_code resp < 400)%Z
  /\ exists data,
       json_body resp = Decoded data
       /\ _first_string (_deep_find TASK_ID_KEYS data) = None.

(** The answers after which the client tries the next variant. *)
Definition advances (resp : response) : Prop :=
  shape_rejected resp \/ without_task_id resp.

(** Any other error status. *)
Definition fatal (resp : response) : Prop :=
  (400 <= status_code resp)%Z /\ ~ shape_rejected resp.

(** The answer is no error and [task_id] is the first non-blank string
    under a [task_id]/[id] key of its document [data]. *)
Definition accepted (resp : response) (task_id : string) (data : json) : Prop :=
  (status_code resp < 400)%Z
  /\ json_body resp = Decoded data
  /\ _first_string (_deep_find TASK_ID_KEYS data) = Some task_id.

(** What the client records for the attempt number [idx]. *)
Definition attempt_entry (idx : nat) (resp : response) : string :=
  if (400 <=? status_code resp)%Z then http_error_entry idx resp
  else missing_id_entry idx resp.

Fixpoint attempt_entries (idx : nat) (resps : list response) : list string :=
  match resps with
  | [] => []
  | resp :: rest => attempt_entry idx resp :: attempt_entries (S idx) rest
  end.

Definition submit_request (cfg : VideoConfig) (payload : json) : request :=
  {| method := "POST"; url := submit_url cfg;
     req_headers := bearer_headers (api_key cfg); req_json := payload |}.

Definition poll_request (cfg : VideoConfig) (task_id : string) : request :=
  {| method := "GET"; url := task_url cfg task_id;
     req_headers := bearer_headers (api_key cfg); req_json := JNull |}.

(** A world given by its five components. *)
Definition world_of (rs : list response) (cl : list Q) (us : list string)
    (st : list request) (sl : list Z) : World :=
  {| responses := rs; clock := cl; uuids := us; sent := st; slept := sl |}.

Definition aggregated_error (entries : list string) : exn :=
  VolcAPIError ("Video submit failed after payload fallbacks. "
                  +:+ PyStr.take 1200 (PyStr.join " | " entries)).

Definition fatal_error (resp : response) : exn :=
  VolcAPIError ("Video submit failed: " +:+ PyStr.of_int (status_code resp) +:+ " "
                  +:+ PyStr.take 500 (text resp)).

(** *** Polling *)

Definition STATUS_KEYS : list string := ["status"; "state"].

(** The status of a polled document: the first non-blank string under a
    [status]/[state] key anywhere in it, trimmed and lowercased; the empty
    text when there is none. *)
Definition status_of (payload : json) : string :=
  match omap TranscriptSpec.non_blank (TranscriptSpec.found_under STATUS_KEYS payload) with
  | s :: _ => PyStr.lower s
  | [] => ""
  end.

Definition succeeded (payload : json) : Prop := In (status_of payload) SUCCESS_STATUS.
Definition failed (payload : json) : Prop := In (status_of payload) FAILURE_STATUS.
Definition pending (payload : json) : Prop := ~ succeeded payload /\ ~ failed payload.

(** An answer that is no error and carries the document [payload]. *)
Definition answers (resp : response) (payload : json) : Prop :=
  (status_code resp < 400)%Z /\ json_body resp = Decoded payload.

(** A poll that leaves the loop running: a pending document, read
    before the deadline has passed. *)
Definition still_running (deadline : Q) (turn : response * Q) : Prop :=
  (exists payload, answers (fst turn) payload /\ pending payload)
  /\ (snd turn <= deadline)%Q.

End VideoSpec.

(** ** Speech recognition (section 4.2) *)
Module ASRSpec.
Import Http ASRClient VideoSpec.

(** The elements of [l] that are not in [seen], each once, in order. *)
Fixpoint unique_from (seen l : list string) : list string :=
  match l with
  | [] => []
  | x :: r =>
      if PyStr.mem x seen then unique_from seen r
      else x :: unique_from (seen ++ [x]) r
  end.

(** The configured identifier, when one is set. *)
Definition configured (cfg : ASRConfig) : list string :=
  if PyStr.truthy (PyStr.strip (resource_id cfg)) then [PyStr.strip (resource_id cfg)]
  else [].

Definition has_credentials (cfg : ASRConfig) : Prop :=
  appid cfg <> "" /\ access_token cfg <> "".

(** The identifier that a request names in its headers. *)
Definition resource_of (req : request) : string :=
  match header_get (req_headers req) "X-Api-Resource-Id" with
  | Some r => r
  | None => ""
  end.

Definition request_id_of (req : request) : string :=
  match header_get (req_headers req) "X-Api-Request-Id" with
  | Some r => r
  | None => ""
  end.

(** The trace of the attempts [(stage, identifier, answer)]. *)
Definition trace (attempts : list (string * string * response)) : list string :=
  map (fun a => try_error_entry (fst (fst a)) (snd (fst a)) (snd a)) attempts.

Definition attempt_resource (a : string * string * response) : string := snd (fst a).
Definition attempt_stage (a : string * string * response) : string := fst (fst a).

(** In a scenario, the first component of an attempt is the request id
    that the world supplies for it. *)
Definition attempt_request_id (a : string * string * response) : string := fst (fst a).

(** An HTTP error that reads as a permission failure. *)
Definition denied (resp : response) : Prop :=
  (400 <= status_code resp)%Z /\ _is_permission_response resp = Ok true.

(** A business status other than success whose message reads as a
    permission failure. *)
Definition business_refused (resp : response) : Prop :=
  (status_code resp < 400)%Z
  /\ exists s m,
       _extract_status_code resp = Ok s /\ s <> "" /\ s <> "20000000"
       /\ _extract_status_message resp = Ok m /\ _is_permission_message m = true.

(** A document whose [header.code] is not a success and whose
    [header.message] reads as a permission failure. *)
Definition header_refused (resp : response) : Prop :=
  (status_code resp < 400)%Z
  /\ (_extract_status_code resp = Ok "" \/ _extract_status_code resp = Ok "20000000")
  /\ exists payload header,
       json_body resp = Decoded (JObj payload)
       /\ dict_get payload "header" = JObj header
       /\ business_code_bad (dict_get header "code") = true
       /\ _is_permission_message
            (Json.str (dict_get_default (JStr "") header "message")) = true.

(** The permission-class failures of the three kinds of request. *)
Definition flash_refused (resp : response) : Prop :=
  denied resp \/ business_refused resp \/ header_refused resp.

Definition submit_refused (resp : response) : Prop :=
  denied resp \/ business_refused resp.

Definition query_refused (resp : response) : Prop :=
  denied resp
  \/ ((status_code resp < 400)%Z
      /\ exists s m,
           _extract_status_code resp = Ok s
           /\ ~ In s _STANDARD_PROCESSING_STATUS
           /\ ~ In s _STANDARD_TERMINAL_STATUS /\ s <> ""
           /\ _extract_status_message resp = Ok m
           /\ _is_permission_message m = true).

(** An attempt of the standard path that ended in a permission-class
    failure, at the submission or at a query. *)
Definition standard_refused (a : string * string * response) : Prop :=
  (attempt_stage a = "submit" /\ submit_refused (snd a))
  \/ (attempt_stage a = "query" /\ query_refused (snd a)).

Definition flash_attempt_refused (a : string * string * response) : Prop :=
  attempt_stage a = "flash" /\ flash_refused (snd a).

(** The identifiers named by requests that go candidate by candidate,
    [k] requests for the candidate paired with [k]. *)
Definition grouped (groups : list (string * nat)) : list string :=
  flat_map (fun g => repeat (fst g) (snd g)) groups.

(** *** The standard path *)

(** The submit answer lets the polling start. *)
Definition submit_accepted (resp : response) : Prop :=
  (status_code resp < 400)%Z
  /\ (_extract_status_code resp = Ok "" \/ _extract_status_code resp = Ok "20000000").

(** The business status says that the task is still processed. *)
Definition processing (resp : response) : Prop :=
  (status_code resp < 400)%Z /\ _extract_status_code resp = Ok "20000001".

(** A terminal business status (or none), with the document [payload]. *)
Definition terminal (resp : response) (payload : json) : Prop :=
  (status_code resp < 400)%Z
  /\ (exists s, _extract_status_code resp = Ok s
                /\ (In s _STANDARD_TERMINAL_STATUS \/ s = ""))
  /\ json_body resp = Decoded payload.

(** A turn of the polling loop that goes on: the clock reads [fst turn]
    before the deadline, and the answer [snd turn] says processing. *)
Definition keeps_polling (deadline : Q) (turn : Q * response) : Prop :=
  (fst turn < deadline)%Q /\ processing (snd turn).

Definition submit_request (cfg : ASRConfig) (audio_b64 audio_format resource
    request_id : string) : request :=
  {| method := "POST"; url := ASRClient.submit_url cfg;
     req_headers := _build_headers cfg resource request_id;
     req_json := JObj [("user", JObj [("uid", JStr (appid cfg))]);
                       ("audio", JObj [("data", JStr audio_b64);
                                       ("format", JStr audio_format)]);
                       ("request", request_section cfg)] |}.

Definition query_request (cfg : ASRConfig) (resource request_id : string) : request :=
  {| method := "POST"; url := query_url cfg;
     req_headers := _build_headers cfg resource request_id;
     req_json := JObj [] |}.

Definition flash_request (cfg : ASRConfig) (audio_b64 resource request_id : string)
    : request :=
  {| method := "POST"; url := flash_url cfg;
     req_headers := _build_headers cfg resource request_id;
     req_json := JObj [("user", JObj [("uid", JStr (appid cfg))]);
                       ("audio", JObj [("data", JStr audio_b64)]);
                       ("request", request_section cfg)] |}.

(** The deadline of the polling that starts at [start]. *)
Definition deadline_from (cfg : ASRConfig) (start : Q) : Q :=
  (start + inject_Z (Z.max 5 (ASRClient.timeout_s cfg)))%Q.

End ASRSpec.

(** ** The words of the specification: reruns *)
Module PipelineSpec.
Import Stage Repository Pipeline.

(** The place of a stage in the fixed order. *)
Definition rank (s : JobStatus) : nat :=
  match s with
  | PREPROCESSING => 0
  | ASR => 1
  | TRANSCRIPT_POLISH => 2
  | SCRIPT_GEN => 3
  | VIDEO_SUBMIT => 4
  | VIDEO_POLLING => 5
  | POSTPROCESS => 6
  | _ => 7
  end.

(** [stage] comes before the start stage [s]: it is skipped. *)
Definition before (stage s : JobStatus) : bool := Nat.ltb (rank stage) (rank s).

Inductive mode : Type := Ran | Skipped.

Definition expected (s stage : JobStatus) : mode :=
  if before stage s then Skipped else Ran.

(** What a stage writes to the job's events when it is skipped. *)
Definition skip_message (stage : JobStatus) : string :=
  match stage with
  | PREPROCESSING => "跳过预处理，复用父任务元数据"
  | ASR => "跳过ASR，复用父任务转写产物"
  | TRANSCRIPT_POLISH => "跳过纠错，复用父任务文本"
  | SCRIPT_GEN => "跳过脚本生成，复用父任务脚本"
  | VIDEO_SUBMIT => "跳过视频提交，复用父任务 task_id"
  | VIDEO_POLLING => "跳过视频轮询，复用父任务前贴视频"
  | _ => "跳过"
  end.

(** What a stage writes to the job's events when it runs. *)
Definition run_message (stage : JobStatus) (message : string) : Prop :=
  match stage with
  | PREPROCESSING => message = "开始预处理视频"
  | ASR => message = "正在截取音频并调用ASR"
  | TRANSCRIPT_POLISH =>
      message = "ASR文本纠错中" \/ message = "ASR文本纠错已关闭，直接使用原始转写"
  | SCRIPT_GEN => message = "生成前贴脚本中"
  | VIDEO_SUBMIT => message = "提交视频生成任务"
  | VIDEO_POLLING => exists task_id, message = "轮询视频任务中: " +:+ task_id
  | POSTPROCESS => message = "标准化前贴并拼接成片"
  | _ => False
  end.

(** The event [ev] of job [job_id] says that [stage] ran, or was skipped. *)
Definition announces (job_id : string) (m : mode) (stage : JobStatus) (ev : JobEvent)
    : Prop :=
  event_job_id ev = job_id
  /\ event_status ev = value stage
  /\ match m with
     | Ran => run_message stage (event_message ev)
     | Skipped => event_message ev = skip_message stage
     end.

Definition event (job_id : string) (status : JobStatus) (message : string) : JobEvent :=
  {| event_job_id := job_id; event_status := value status; event_message := message |}.

(** The artifacts that a skipped stage must take from the parent: the
    stage, the kind, and the name of the file in the job's directory. *)
Definition REQUIRED_REUSE : list (JobStatus * string * string) :=
  [(ASR, "transcript_raw", "transcript_raw.txt");
   (TRANSCRIPT_POLISH, "transcript_polished", "transcript_polished.txt");
   (SCRIPT_GEN, "hook_script_json", "hook_script.json");
   (VIDEO_POLLING, "hook_video_raw", "hook_video_raw.mp4")].

(** The one that a skipped stage takes if the parent has it. *)
Definition OPTIONAL_REUSE : list (JobStatus * string * string) :=
  [(ASR, "asr_clip_audio", "asr_clip.wav")].

(** [path] is not below [directory]. *)
Definition outside (directory path : string) : Prop :=
  String.prefix (directory +:+ "/") path = false.

Definition start_of (j : Job) : JobStatus :=
  _normalize_start_stage (meta_get (meta j) "rerun_start_stage").

Definition parent_of (j : Job) : string :=
  text_or_empty (meta_get (meta j) "rerun_of_job_id").

Definition artifact_of (d : database) (job_id kind : string) : option string :=
  match jobs d !! job_id with
  | Some j => artifacts j !! kind
  | None => None
  end.

(** Between the systems [s0] and [s1], the job has taken the parent's
    artifact of [kind]: the parent's file, as it was in [s0], is under
    [name] in the job's directory, and the job records it under [kind]. *)
Definition copied (s0 s1 : system) (parent : Job) (job_id directory kind name : string)
    : Prop :=
  exists parent_path content,
    artifacts parent !! kind = Some parent_path
    /\ parent_path <> ""
    /\ files s0 !! parent_path = Some content
    /\ files s1 !! Path.join directory name = Some content
    /\ artifact_of (db s1) job_id kind = Some (Path.join directory name).

(** The same, where the parent has the artifact and its file. *)
Definition copied_if_there (s0 s1 : system) (parent : Job)
    (job_id directory kind name : string) : Prop :=
  forall parent_path content,
    artifacts parent !! kind = Some parent_path -> parent_path <> "" ->
    files s0 !! parent_path = Some content ->
    files s1 !! Path.join directory name = Some content
    /\ artifact_of (db s1) job_id kind = Some (Path.join directory name).

(** The events that the completed run of a rerun adds to those of [s0]:
    the notice of the rerun, one event for each stage of the fixed order
    that tells whether it ran, and the event of the completed job. *)
Definition rerun_events (s0 s1 : system) (loaded : Job) (evs : list JobEvent) : Prop :=
  events (db s1)
  = events (db s0)
      ++ [event (id loaded) QUEUED (rerun_notice (start_of loaded) (parent_of loaded))]
      ++ evs
      ++ [event (id loaded) COMPLETED "任务完成，成片已输出"]
  /\ Forall2 (fun stage ev => announces (id loaded) (expected (start_of loaded) stage)
                                stage ev)
       STAGE_SEQUENCE evs.

(** The parent has no usable artifact of [kind] in the files [f]. *)
Definition not_in_map (parent_artifacts : gmap string string) (kind : string) : Prop :=
  parent_artifacts !! kind = None \/ parent_artifacts !! kind = Some "".

Definition not_on_disk (parent_artifacts : gmap string string) (f : gmap string string)
    (kind parent_path : string) : Prop :=
  parent_artifacts !! kind = Some parent_path /\ parent_path <> ""
  /\ f !! parent_path = None.

(** A [PipelineError] whose text holds [kind] and [other]. *)
Definition names (e : exn) (kind other : string) : Prop :=
  exists message, e = PipelineError message
    /\ PyStr.contains kind message = true
    /\ PyStr.contains other message = true.

(** The required artifact of [kind] is missing, one way or the other. *)
Definition missing (parent : Job) (f : gmap string string) (kind : string) : Prop :=
  not_in_map (artifacts parent) kind
  \/ exists parent_path, not_on_disk (artifacts parent) f kind parent_path.

(** What a stage sees of the job [job_id] in the state [st]: its
    artifacts [a], the events [e], the files [f]. *)
Definition snap (job_id : string) (st : pstate) (a : gmap string string)
    (e : list JobEvent) (f : gmap string string) : Prop :=
  (exists j, jobs (session st) !! job_id = Some j /\ artifacts j = a)
  /\ events (session st) = e
  /\ fs st = f.

(** The files [f1] are the files [f] but for the [names] in [directory]. *)
Definition touches (directory : string) (names : list string)
    (f f1 : gmap string string) : Prop :=
  forall p, (forall n, In n names -> p <> Path.join directory n) -> f1 !! p = f !! p.

(** The artifacts [a1] are the artifacts [a] but for the [kinds]. *)
Definition sets (kinds : list string) (a a1 : gmap string string) : Prop :=
  forall k, ~ In k kinds -> a1 !! k = a !! k.

(** The files that a stage writes in the job's directory, and the kinds
    of artifact that it records. *)
Definition stage_files (stage : JobStatus) : list string :=
  match stage with
  | PREPROCESSING => ["source_meta.json"]
  | ASR => ["asr_clip.wav"; "asr_response.json"; "transcript_raw.txt"]
  | TRANSCRIPT_POLISH => ["transcript_polish_response.json"; "transcript_polished.txt"]
  | SCRIPT_GEN => ["script_gen_response.json"; "hook_script.json"]
  | VIDEO_SUBMIT => ["video_submit_response.json"]
  | VIDEO_POLLING => ["video_poll_response.json"; "hook_video_raw.mp4"]
  | POSTPROCESS => ["source_video_norm.mp4"; "hook_video_aligned.mp4";
                    "hook_video_norm.mp4"; "concat_list.txt"; "final_video.mp4"]
  | _ => []
  end.

Definition stage_kinds (stage : JobStatus) : list string :=
  match stage with
  | ASR => ["asr_clip_audio"; "transcript_raw"]
  | TRANSCRIPT_POLISH => ["transcript_polished"]
  | SCRIPT_GEN => ["hook_script_json"]
  | VIDEO_POLLING => ["hook_video_raw"]
  | POSTPROCESS => ["hook_video_norm"; "final_video"]
  | _ => []
  end.

(** All the files and all the kinds of the stages. *)
Definition JOB_FILES : list string := flat_map stage_files STAGE_SEQUENCE.
Definition JOB_KINDS : list string := flat_map stage_kinds STAGE_SEQUENCE.

(** From the files [f] to the files [f1] and the artifacts [a1], the job
    has taken the parent's artifact of [kind]. *)
Definition taken (parent_artifacts : gmap string string) (directory : string)
    (f f1 a1 : gmap string string) (kind name : string) : Prop :=
  exists parent_path content,
    parent_artifacts !! kind = Some parent_path
    /\ parent_path <> ""
    /\ f !! parent_path = Some content
    /\ f1 !! Path.join directory name = Some content
    /\ a1 !! kind = Some (Path.join directory name).

(** The same, where the parent has the artifact and its file. *)
Definition taken_if_there (parent_artifacts : gmap string string) (directory : string)
    (f f1 a1 : gmap string string) (kind name : string) : Prop :=
  forall parent_path content,
    parent_artifacts !! kind = Some parent_path -> parent_path <> "" ->
    f !! parent_path = Some content ->
    f1 !! Path.join directory name = Some content
    /\ a1 !! kind = Some (Path.join directory name).

(** What a stage of the job [job_id] does between the states [st] and
    [st1]: one event that tells its mode, files and artifacts within its
    own, and, skipped, the artifacts of the parent. *)
Definition stage_outcome (job_id directory : string)
    (parent_artifacts : gmap string string) (stage : JobStatus) (m : mode)
    (st st1 : pstate) : Prop :=
  forall a e f, snap job_id st a e f ->
    exists a1 f1 ev,
      snap job_id st1 a1 (e ++ [ev]) f1
      /\ announces job_id m stage ev
      /\ touches directory (stage_files stage) f f1
      /\ sets (stage_kinds stage) a a1
      /\ (m = Skipped ->
          (forall kind name, In (stage, kind, name) REQUIRED_REUSE ->
             taken parent_artifacts directory f f1 a1 kind name)
          /\ (forall kind name, In (stage, kind, name) OPTIONAL_REUSE ->
                taken_if_there parent_artifacts directory f f1 a1 kind name)).

(** Nothing of the events is left to commit, and the job is there. *)
Definition settled (job_id : string) (st : pstate) : Prop :=
  events (saved st) = events (session st)
  /\ is_Some (jobs (saved st) !! job_id)
  /\ is_Some (jobs (session st) !! job_id).

(** A computation that writes no event, however it ends. *)
Definition quiet {A : Type} (job_id : string) (m : M pstate A) : Prop :=
  forall st r st',
    m st = (r, st') -> settled job_id st ->
    settled job_id st' /\ events (session st') = events (session st).

(** The error of the required artifact of [kind] that is missing. *)
Definition missing_error (parent_artifacts f : gmap string string)
    (kind parent_job_id : string) (e : exn) : Prop :=
  (not_in_map parent_artifacts kind
   /\ e = PipelineError (missing_in_parent kind parent_job_id))
  \/ (exists parent_path,
        not_on_disk parent_artifacts f kind parent_path
        /\ e = PipelineError (missing_on_disk kind parent_path)).

(** The job [job_id] is recorded as failed with the error [e]. *)
Definition failed_with (d : database) (job_id : string) (e : exn) : Prop :=
  exists j, jobs d !! job_id = Some j
            /\ status j = value FAILED
            /\ error_message j = Some (exn_message e).

(** The run from [s0] to [s1] has written no event of [stage]. *)
Definition ended_before (s0 s1 : system) (stage : JobStatus) : Prop :=
  exists new, events (db s1) = events (db s0) ++ new
              /\ Forall (fun ev => event_status ev <> value stage) new.

(** The skipped [stage] raises [e] from the state [st], whatever the
    earlier stages hand to it. *)
Definition skipped_stage_raises (env : Env) (c : context) (stage : JobStatus)
    (st : pstate) (e : exn) : Prop :=
  match stage with
  | ASR => exists st', stage_asr env c st = (Throw e, st')
  | TRANSCRIPT_POLISH =>
      forall transcript_raw,
        exists st', stage_transcript_polish env c transcript_raw st = (Throw e, st')
  | SCRIPT_GEN =>
      forall polished_text,
        exists st', stage_script_gen env c polished_text st = (Throw e, st')
  | VIDEO_POLLING =>
      forall task_id, exists st', stage_video_polling env c task_id st = (Throw e, st')
  | _ => False
  end.

End PipelineSpec.

(** ** A parent job, and two reruns of it *)
Module PipelineScenario.
Import Http Stage Repository Media Pipeline.

Definition script : dict :=
  [("hook_title", JStr "title"); ("visual_prompt", JStr "a street at night");
   ("shot_list", JArr [JStr "close-up"]); ("narration", JStr "wait for it");
   ("style_tags", JArr [JStr "neon"]); ("safety_notes", JStr "none")].

(** A toolchain that probes every file that exists as a 720x1280 video
    of nine seconds, and writes [media] for every command. *)
Definition toolchain : Tools :=
  {| ffmpeg_available := true; ffprobe_available := true;
     probe_video := fun f p =>
       match f !! p with
       | Some _ => Ok {| width := 720; height := 1280; fps := 30; duration := 9;
                         has_audio := true |}
       | None => Raise (MediaError "ffprobe failed")
       end;
     run_ffmpeg := fun _ _ => Ok "media" |}.

Definition settings : AppConfig :=
  {| asr := {| ASRClient.base_url := "https://openspeech"; ASRClient.appid := "app";
               ASRClient.access_token := "tok"; ASRClient.resource_id := "";
               ASRClient.boosting_table_name := ""; ASRClient.timeout_s := 120;
               ASRClient.system_prompt := "" |};
     llm := {| LLMClient.base_url := "https://ark"; LLMClient.api_key := "key";
               LLMClient.model := "doubao"; LLMClient.timeout_s := 60;
               LLMClient.temperature := 7 # 10;
               LLMClient.script_system_prompt := "write a hook";
               LLMClient.asr_polish_system_prompt := "fix the transcript" |};
     video := {| VideoClient.base_url := "https://ark"; VideoClient.api_key := "key";
                 VideoClient.model := "seedance"; VideoClient.timeout_s := 600;
                 VideoClient.poll_interval_s := 5; VideoClient.system_prompt := "" |};
     pipeline := {| enable_asr_polish := true |} |}.

Definition surroundings : Env :=
  {| jobs_root := "/data/jobs";
     load_config := Ok settings;
     json_loads := fun s => if String.eqb s "{script}" then Decoded (JObj script)
                            else DecodeError "Expecting value";
     json_dumps := fun _ => "{...}";
     b64encode := fun bytes => bytes;
     tools := toolchain;
     _build_polish_prompt := fun t => t;
     _build_script_prompt := fun t _ => t;
     _build_video_prompt := fun _ _ => Ok "a street at night" |}.

(** The parent, completed, with its artifacts in its own directory. *)
Definition parent : Job :=
  {| id := "j1"; source_path := "/data/jobs/j1/source.mp4";
     asr_clip_seconds := 15; hook_clip_seconds := 5;
     status := "completed"; error_message := None;
     meta := {[ "video_task_id" := JStr "task-1" ]};
     artifacts :=
       {[ "source_video" := "/data/jobs/j1/source.mp4";
          "asr_clip_audio" := "/data/jobs/j1/asr_clip.wav";
          "transcript_raw" := "/data/jobs/j1/transcript_raw.txt";
          "transcript_polished" := "/data/jobs/j1/transcript_polished.txt";
          "hook_script_json" := "/data/jobs/j1/hook_script.json";
          "hook_video_raw" := "/data/jobs/j1/hook_video_raw.mp4";
          "final_video" := "/data/jobs/j1/final_video.mp4" ]} |}.

(** Its rerun from the polling of the video. *)
Definition rerun : Job :=
  {| id := "j2"; source_path := "/data/jobs/j2/source.mp4";
     asr_clip_seconds := 15; hook_clip_seconds := 5;
     status := "queued"; error_message := None;
     meta := {[ "rerun_of_job_id" := JStr "j1";
                "rerun_start_stage" := JStr "video_polling" ]};
     artifacts := ∅ |}.

Definition answer (code : Z) (body : string) (document : decoded) : response :=
  {| status_code := code; text := body; headers := []; json_body := document |}.

Definition queued : system :=
  {| db := {| jobs := {[ "j1" := parent; "j2" := rerun ]}; events := [] |};
     files :=
       {[ "/data/jobs/j1/source.mp4" := "SOURCE";
          "/data/jobs/j1/asr_clip.wav" := "RIFF";
          "/data/jobs/j1/transcript_raw.txt" := "helo world";
          "/data/jobs/j1/transcript_polished.txt" := "hello world";
          "/data/jobs/j1/hook_script.json" := "{script}";
          "/data/jobs/j1/hook_video_raw.mp4" := "HOOK";
          "/data/jobs/j1/final_video.mp4" := "FINAL";
          "/data/jobs/j2/source.mp4" := "SOURCE" ]};
     remote :=
       {| responses :=
            [answer 200 "" (Decoded (JObj [("status", JStr "succeeded");
                                          ("video_url", JStr "https://cdn/hook.mp4")]));
             answer 200 "HOOK2" (DecodeError "Expecting value")];
          clock := [0%Q]; uuids := []; sent := []; slept := [] |} |}.

Definition completed : system := snd (execute_job surroundings "j2" queued).

(** A parent whose transcript is recorded under a path that holds no
    file, and its rerun from the polish of the transcript. *)
Definition stale_parent : Job :=
  {| id := "j1"; source_path := "/data/jobs/j1/source.mp4";
     asr_clip_seconds := 15; hook_clip_seconds := 5;
     status := "completed"; error_message := None;
     meta := ∅;
     artifacts := {[ "transcript_raw" := "/archive/transcript_raw.txt" ]} |}.

Definition stale_rerun : Job :=
  {| id := "j2"; source_path := "/data/jobs/j2/source.mp4";
     asr_clip_seconds := 15; hook_clip_seconds := 5;
     status := "queued"; error_message := None;
     meta := {[ "rerun_of_job_id" := JStr "j1";
                "rerun_start_stage" := JStr "transcript_polish" ]};
     artifacts := ∅ |}.

Definition stale : system :=
  {| db := {| jobs := {[ "j1" := stale_parent; "j2" := stale_rerun ]}; events := [] |};
     files := {[ "/data/jobs/j2/source.mp4" := "SOURCE" ]};
     remote := {| responses := []; clock := []; uuids := []; sent := []; slept := [] |} |}.

End PipelineScenario.

(** ** What a run keeps to itself *)
Module PipelineInvariants.
Import Stage Repository Media Pipeline PipelineSpec.

(** An event of the job [job_id]. *)
Definition own (job_id : string) (ev : JobEvent) : Prop := event_job_id ev = job_id.

(** [path] is below [directory]. *)
Definition inside (directory path : string) : Prop :=
  String.prefix (directory +:+ "/") path = true.

(** The open session of the run of [job_id]: it differs from what is
    committed by the record of the job and by events of the job only. *)
Definition session_of (job_id : string) (st : pstate) : Prop :=
  (forall other, other <> job_id ->
     jobs (session st) !! other = jobs (saved st) !! other)
  /\ (exists pending, events (session st) = events (saved st) ++ pending
                      /\ Forall (own job_id) pending)
  /\ is_Some (jobs (saved st) !! job_id)
  /\ is_Some (jobs (session st) !! job_id).

(** From [st] to [st']: the records of the other jobs are as committed
    before, events of the job were added to the committed ones, and no
    file outside [directory] has changed. *)
Definition confined (job_id directory : string) (st st' : pstate) : Prop :=
  (forall other, other <> job_id ->
     jobs (saved st') !! other = jobs (saved st) !! other)
  /\ (exists new, events (saved st') = events (saved st) ++ new
                  /\ Forall (own job_id) new)
  /\ (forall p, outside directory p -> fs st' !! p = fs st !! p).

(** A computation of the run of [job_id] that keeps to the job, however
    it ends. *)
Definition safe {A : Type} (job_id directory : string) (m : M pstate A) : Prop :=
  forall st r st',
    m st = (r, st') -> session_of job_id st ->
    session_of job_id st' /\ confined job_id directory st st'.

(** The same between two systems. *)
Definition confined_run (job_id directory : string) (s s' : system) : Prop :=
  (forall other, other <> job_id -> jobs (db s') !! other = jobs (db s) !! other)
  /\ (exists new, events (db s') = events (db s) ++ new /\ Forall (own job_id) new)
  /\ (forall p, outside directory p -> files s' !! p = files s !! p).

(** The check that stops a run before its first stage, in the order of
    the source: the parent of a rerun is not stored, the source video is
    not there, a tool is missing. *)
Definition precheck_error (env : Env) (s : system) (j : Job) : option string :=
  let parent_job_id := text_or_empty (meta_get (meta j) "rerun_of_job_id") in
  if PyStr.truthy parent_job_id && negb (bool_decide (is_Some (jobs (db s) !! parent_job_id)))
  then Some ("重跑父任务不存在: " +:+ parent_job_id)
  else if negb (bool_decide (is_Some (files s !! source_path j)))
  then Some ("源视频不存在: " +:+ source_path j)
  else if negb (ffmpeg_available (tools env)) || negb (ffprobe_available (tools env))
  then Some "ffmpeg 或 ffprobe 不可用，请先安装"
  else None.

(** A computation that ends, and leaves the remote world as it is: no
    request, no sleep, no reading of the clock. *)
Definition offline {A : Type} (m : M pstate A) : Prop :=
  forall st r st', m st = (r, st') -> world st' = world st /\ r <> Stuck.

(** The same, of a computation that ends in an exception. *)
Definition halts {A : Type} (m : M pstate A) : Prop :=
  forall st r st', m st = (r, st') -> world st' = world st /\ exists e, r = Throw e.

End PipelineInvariants.

(** ** Further runs of the rerun *)
Module RunScenario.
Import Http Stage Repository Media Pipeline PipelineScenario.

(** The queued rerun, with no file on the disk. *)
Definition unsourced : system :=
  {| db := db queued; files := ∅; remote := remote queued |}.

(** A rerun of the parent from the last stage. *)
Definition last_stage_rerun : Job :=
  {| id := "j2"; source_path := "/data/jobs/j2/source.mp4";
     asr_clip_seconds := 15; hook_clip_seconds := 5;
     status := "queued"; error_message := None;
     meta := {[ "rerun_of_job_id" := JStr "j1";
                "rerun_start_stage" := JStr "postprocess" ]};
     artifacts := ∅ |}.

Definition last_stage : system :=
  {| db := {| jobs := {[ "j1" := parent; "j2" := last_stage_rerun ]}; events := [] |};
     files := files queued; remote := remote queued |}.

(** The rerun from the polling, of a parent that has recorded no task. *)
Definition untracked : system :=
  {| db := {| jobs := {[ "j1" := with_meta parent ∅; "j2" := rerun ]}; events := [] |};
     files := files queued; remote := remote queued |}.

(** The context of the rerun from the polling, as [execute_job] fixes it. *)
Definition polling_context : context :=
  {| job := rerun; config := settings; job_dir := "/data/jobs/j2";
     start_stage := VIDEO_POLLING; parent_job_id := "j1";
     parent_meta := meta parent; parent_artifacts := artifacts parent;
     source_video_path := "/data/jobs/j2/source.mp4" |}.

End RunScenario.

(** ** What the clients read from an answer *)
Module ClientSpec.
Import VolcParsers.

(** A value that [_first_string] passes over: no string, or a blank one. *)
Definition blank (v : json) : Prop :=
  forall raw, v = JStr raw -> PyStr.strip raw = "".

(** The words that make a message read as a permission failure. *)
Definition PERMISSION_WORDS : list string :=
  ["requested grant not found"; "resourceid"; "not allowed"; "not granted"].

(** An answer of the fast path that the client takes as the result: no
    HTTP error, a business status that is absent or the success, a
    document that is an object, and no code in its header other than the
    success. *)
Definition flash_succeeds (resp : Http.response) (payload : dict) : Prop :=
  (Http.status_code resp < 400)%Z
  /\ (ASRClient._extract_status_code resp = Ok ""
      \/ ASRClient._extract_status_code resp = Ok "20000000")
  /\ Http.json_body resp = Decoded (JObj payload)
  /\ match dict_get payload "header" with
     | JObj header => ASRClient.business_code_bad (dict_get header "code") = false
     | _ => True
     end.

End ClientSpec.

(** * Properties *)

(** ** Strings *)
Module PyStrFacts.
Import PyStr.

Lemma append_cons (c : ascii) (s t : string) :
  String c s +:+ t = String c (s +:+ t).
Proof. reflexivity. Qed.

Lemma append_nil_l (s : string) : "" +:+ s = s.
Proof. reflexivity. Qed.

Lemma append_nil_r (s : string) : s +:+ "" = s.
Proof.
  induction s as [|c s IH]; [reflexivity |].
  now rewrite append_cons, IH.
Qed.

Lemma append_assoc (a b c : string) : (a +:+ b) +:+ c = a +:+ (b +:+ c).
Proof.
  induction a as [|x a IH]; [reflexivity |].
  now rewrite !append_cons, IH.
Qed.

Lemma append_inj_l (p a b : string) : p +:+ a = p +:+ b -> a = b.
Proof.
  induction p as [|c p IH]; intros H; [exact H |].
  rewrite !append_cons in H. injection H as H. now apply IH.
Qed.

Lemma prefix_app (p s : string) : String.prefix p (p +:+ s) = true.
Proof.
  induction p as [|c p IH].
  - now destruct s.
  - rewrite append_cons. simpl.
    destruct (ascii_dec c c) as [_|N]; [exact IH | now elim N].
Qed.

Lemma prefix_refl (p : string) : String.prefix p p = true.
Proof. rewrite <- (append_nil_r p) at 2. apply prefix_app. Qed.

Lemma prefix_split (p s : string) :
  String.prefix p s = true -> exists r, s = p +:+ r.
Proof.
  revert s; induction p as [|c p IH]; intros s H.
  - now exists s.
  - destruct s as [|d s]; simpl in H; [discriminate |].
    destruct (ascii_dec c d) as [->|]; [| discriminate].
    destruct (IH _ H) as [r ->]. now exists r.
Qed.

Lemma contains_unfold (n hay : string) :
  contains n hay =
  String.prefix n hay ||
    match hay with EmptyString => false | String _ r => contains n r end.
Proof. now destruct hay. Qed.

Lemma contains_here (n s : string) : contains n (n +:+ s) = true.
Proof. now rewrite contains_unfold, prefix_app. Qed.

Lemma contains_refl (n : string) : contains n n = true.
Proof. rewrite <- (append_nil_r n) at 2. apply contains_here. Qed.

Lemma contains_cons (n : string) (c : ascii) (s : string) :
  contains n s = true -> contains n (String c s) = true.
Proof. intros H. rewrite contains_unfold, H. apply orb_true_r. Qed.

Lemma contains_app_r (n a b : string) :
  contains n b = true -> contains n (a +:+ b) = true.
Proof.
  intros H. induction a as [|c a IH]; [exact H |].
  rewrite append_cons. now apply contains_cons.
Qed.

Lemma prefix_app_l (n a b : string) :
  String.prefix n a = true -> String.prefix n (a +:+ b) = true.
Proof.
  intros H. destruct (prefix_split _ _ H) as [r ->].
  rewrite append_assoc. apply prefix_app.
Qed.

Lemma contains_app_l (n a b : string) :
  contains n a = true -> contains n (a +:+ b) = true.
Proof.
  induction a as [|c a IH]; intros H.
  - simpl in H. rewrite orb_false_r in H.
    destruct n; [destruct b; reflexivity | discriminate].
  - change (String.prefix n (String c a) || contains n a = true) in H.
    apply orb_true_iff in H as [H|H].
    + destruct (prefix_split _ _ H) as [r E]. rewrite E, append_assoc.
      apply contains_here.
    + rewrite append_cons. now apply contains_cons, IH.
Qed.

(** A text that holds [n] is some text around [n], and conversely. *)
Lemma contains_spec (n s : string) :
  contains n s = true <-> exists a b, s = a +:+ n +:+ b.
Proof.
  split.
  - induction s as [|c s IH]; intros H.
    + rewrite contains_unfold, orb_false_r in H.
      destruct (prefix_split _ _ H) as [r E]. now exists "", r.
    + change (String.prefix n (String c s) || contains n s = true) in H.
      apply orb_true_iff in H as [H|H].
      * destruct (prefix_split _ _ H) as [r E]. now exists "", r.
      * destruct (IH H) as (a & b & ->). now exists (String c a), b.
  - intros (a & b & ->). apply contains_app_r, contains_here.
Qed.

Lemma contains_join (sep x : string) (l : list string) :
  In x l -> contains x (join sep l) = true.
Proof.
  induction l as [|y l IH]; intros H; [destruct H |].
  unfold join in *. destruct l as [|z l].
  - destruct H as [->|[]]. apply contains_refl.
  - change (contains x (y +:+ sep +:+ String.concat sep (z :: l)) = true).
    destruct H as [->|H].
    + apply contains_here.
    + apply contains_app_r, contains_app_r, IH, H.
Qed.

Lemma mem_In (x : string) (l : list string) : mem x l = true <-> In x l.
Proof.
  unfold mem. rewrite existsb_exists. split.
  - intros (y & Hy & E). apply String.eqb_eq in E. now subst.
  - intros H. exists x. split; [exact H | apply String.eqb_refl].
Qed.

Lemma mem_false (x : string) (l : list string) : mem x l = false <-> ~ In x l.
Proof.
  rewrite <- mem_In. destruct (mem x l); split; intros H; congruence.
Qed.

Lemma In_insert_sorted (x y : string) (l : list string) :
  In x (insert_sorted y l) <-> x = y \/ In x l.
Proof.
  induction l as [|z l IH]; simpl.
  - intuition.
  - destruct (String.leb y z); simpl; rewrite ?IH; intuition.
Qed.

Lemma In_sorted (x : string) (l : list string) : In x (sorted l) <-> In x l.
Proof.
  induction l as [|y l IH]; simpl; [reflexivity |].
  rewrite In_insert_sorted, IH. intuition.
Qed.

Lemma truthy_true (s : string) : truthy s = true <-> s <> "".
Proof. destruct s; simpl; split; intros; congruence. Qed.

Lemma lower_truthy (s : string) : truthy (lower s) = truthy s.
Proof. now destruct s. Qed.

Lemma lstrip_truthy (s : string) : truthy (lstrip s) = true -> truthy s = true.
Proof. now destruct s. Qed.

Lemma rstrip_truthy (s : string) : truthy (rstrip s) = true -> truthy s = true.
Proof. now destruct s. Qed.

Lemma strip_truthy (s : string) : truthy (strip s) = true -> truthy s = true.
Proof. intros H. apply rstrip_truthy, lstrip_truthy, H. Qed.

End PyStrFacts.

(** ** The start stage of a run *)
Module StageFacts.
Import Stage.

Lemma value_inj (a b : JobStatus) : value a = value b -> a = b.
Proof. destruct a, b; simpl; intros H; first [reflexivity | discriminate H]. Qed.

Lemma JobStatus_eqb_eq (a b : JobStatus) : JobStatus_eqb a b = true <-> a = b.
Proof.
  unfold JobStatus_eqb. rewrite String.eqb_eq. split; [apply value_inj | now intros ->].
Qed.

Lemma find_by_value (st : JobStatus) :
  In st STAGE_SEQUENCE ->
  List.find (fun status => String.eqb (value status) (value st)) STAGE_SEQUENCE = Some st.
Proof.
  intros H. simpl in H.
  repeat (destruct H as [<- | H]; [reflexivity |]). destruct H.
Qed.

Lemma find_unknown (raw : string) :
  (forall st, In st STAGE_SEQUENCE -> value st <> raw) ->
  List.find (fun status => String.eqb (value status) raw) STAGE_SEQUENCE = None.
Proof.
  intros H. generalize STAGE_SEQUENCE H. clear H.
  induction l as [|x l IH]; intros H; [reflexivity |].
  cbn [List.find].
  rewrite (proj2 (String.eqb_neq _ raw)) by (apply H; now left).
  apply IH. intros st Hst. apply H. now right.
Qed.

Lemma normalize_unfold (v : json) :
  _normalize_start_stage v =
  match List.find (fun status => String.eqb (value status) (raw_start_stage v))
          STAGE_SEQUENCE with
  | Some status => status
  | None => PREPROCESSING
  end.
Proof. reflexivity. Qed.

Lemma normalize_falsy (v : json) :
  Json.truthy v = false -> _normalize_start_stage v = PREPROCESSING.
Proof.
  intros H. rewrite normalize_unfold. unfold raw_start_stage. rewrite H. reflexivity.
Qed.



(** The tests of tests/unit/test_pipeline_rerun_stage.py. *)
Example test_normalize_start_stage :
  _normalize_start_stage (JStr "script_gen") = SCRIPT_GEN
  /\ _normalize_start_stage (JStr "VIDEO_SUBMIT") = VIDEO_SUBMIT
  /\ _normalize_start_stage (JStr "unknown") = PREPROCESSING.
Proof. repeat split. Qed.

Example test_should_run_stage_order :
  _should_run_stage SCRIPT_GEN SCRIPT_GEN = Ok true
  /\ _should_run_stage SCRIPT_GEN VIDEO_SUBMIT = Ok true
  /\ _should_run_stage SCRIPT_GEN ASR = Ok false.
Proof. repeat split. Qed.

End StageFacts.

(** ** Script payloads *)
Module ScriptSchemaFacts.
Import ScriptSchema ScriptSchemaSpec.

Lemma missing_fields_In (fields : dict) (k : string) :
  In k (missing_fields fields) <-> In k REQUIRED_FIELDS /\ ~ In k (dict_keys fields).
Proof.
  unfold missing_fields. rewrite PyStrFacts.In_sorted, filter_In.
  rewrite negb_true_iff, PyStrFacts.mem_false. reflexivity.
Qed.

Lemma missing_fields_nil (fields : dict) :
  missing_fields fields = [] <-> has_required_keys fields.
Proof.
  unfold has_required_keys. split.
  - intros E k Hk.
    destruct (in_dec string_dec k (dict_keys fields)) as [Hin|Hout]; [exact Hin |].
    assert (H : In k (missing_fields fields)) by (apply missing_fields_In; tauto).
    rewrite E in H. destruct H.
  - intros H. destruct (missing_fields fields) as [|k l] eqn:E; [reflexivity |].
    assert (Hk : In k (missing_fields fields)) by (rewrite E; now left).
    apply missing_fields_In in Hk as [Hk Hout]. elim Hout. now apply H.
Qed.

Lemma first_bad_text_field_none (fields : dict) (keys : list string) :
  first_bad_text_field fields keys = None <->
  forall k, In k keys -> non_empty_string (dict_get fields k) = true.
Proof.
  induction keys as [|key keys IH]; simpl.
  - split; [intros _ k [] | reflexivity].
  - destruct (non_empty_string (dict_get fields key)) eqn:E.
    + rewrite IH. split.
      * intros H k [<-|Hk]; [exact E | now apply H].
      * intros H k Hk. apply H. now right.
    + split; [discriminate |]. intros H.
      specialize (H key (or_introl eq_refl)). congruence.
Qed.

Lemma validate_ok_iff (fields : dict) (r : json) :
  validate_script_payload (JObj fields) = Ok r <->
  r = JObj fields /\ has_required_keys fields /\ well_typed fields.
Proof.
  unfold validate_script_payload, well_typed.
  rewrite <- missing_fields_nil.
  destruct (missing_fields fields) as [|k l] eqn:Em.
  - destruct (is_list (dict_get fields "shot_list")) eqn:E1; cbn [negb].
    2: { split; [discriminate | intros (_ & _ & H & _); discriminate]. }
    destruct (is_list (dict_get fields "style_tags")) eqn:E2; cbn [negb].
    2: { split; [discriminate | intros (_ & _ & _ & H & _); discriminate]. }
    fold TEXT_FIELDS.
    destruct (first_bad_text_field fields TEXT_FIELDS) as [key|] eqn:E3.
    + split; [discriminate |]. intros (_ & _ & _ & _ & H).
      pose proof (proj2 (first_bad_text_field_none fields TEXT_FIELDS) H). congruence.
    + pose proof (proj1 (first_bad_text_field_none fields TEXT_FIELDS) E3) as E4. split.
      * intros H. injection H as <-. repeat split; try reflexivity. exact E4.
      * intros (-> & _). reflexivity.
  - split; [discriminate | intros (_ & H & _); discriminate].
Qed.




(** The tests of tests/unit/test_script_schema.py. *)
Example test_validate_script_payload_success :
  accepted (JObj [("hook_title", JStr "absurd opening");
                  ("visual_prompt", JStr "a giant orange over the city");
                  ("shot_list", JArr [JStr "shot one"; JStr "shot two"]);
                  ("narration", JStr "the impossible happened today");
                  ("style_tags", JArr [JStr "exaggerated"; JStr "cyber"]);
                  ("safety_notes", JStr "no violence")]).
Proof. reflexivity. Qed.

Example test_validate_script_payload_missing_fields :
  validate_script_payload (JObj [("hook_title", JStr "x"); ("visual_prompt", JStr "y")])
  = Raise (ScriptSchemaError
             "missing fields: narration, safety_notes, shot_list, style_tags").
Proof. reflexivity. Qed.

End ScriptSchemaFacts.

(** ** JSON documents *)
Module JsonFacts.

Section NestedInduction.
Variable P : json -> Prop.
Hypothesis HNull : P JNull.
Hypothesis HBool : forall b, P (JBool b).
Hypothesis HNum : forall n, P (JNum n).
Hypothesis HStr : forall s, P (JStr s).
Hypothesis HArr : forall items, Forall P items -> P (JArr items).
Hypothesis HObj :
  forall fields, Forall (fun kv => P (snd kv)) fields -> P (JObj fields).

(** Induction on a document, with the hypothesis on every item of an
    array and on every value of an object. *)
Fixpoint json_nested_ind (v : json) : P v :=
  match v with
  | JNull => HNull
  | JBool b => HBool b
  | JNum n => HNum n
  | JStr s => HStr s
  | JArr items =>
      HArr items
        ((fix all (l : list json) : Forall P l :=
            match l with
            | [] => @List.Forall_nil _ P
            | x :: r => @List.Forall_cons _ P x r (json_nested_ind x) (all r)
            end) items)
  | JObj fields =>
      HObj fields
        ((fix all (l : list (string * json)) : Forall (fun kv => P (snd kv)) l :=
            match l with
            | [] => @List.Forall_nil _ _
            | kv :: r =>
                @List.Forall_cons _ (fun kv => P (snd kv)) kv r
                  (json_nested_ind (snd kv)) (all r)
            end) fields)
  end.
End NestedInduction.

End JsonFacts.

(** ** Transcript extraction *)
Module TranscriptFacts.
Import VolcParsers TranscriptSpec.

(** [_deep_find] lists the values bound to the keys anywhere in the
    document, in the order of the depth-first walk. *)
Lemma deep_find_found_under (keys : list string) (data : json) :
  _deep_find keys data = found_under keys data.
Proof.
  unfold found_under.
  induction data as [| | | | items IH | fields IH] using JsonFacts.json_nested_ind;
    try reflexivity.
  - induction IH as [|x r Hx _ IHr]; [reflexivity |].
    cbn [_deep_find members] in *.
    rewrite List.filter_app, map_app, <- Hx. f_equal. exact IHr.
  - induction IH as [|[k v] r Hv _ IHr]; [reflexivity |].
    cbn [_deep_find members snd] in *.
    cbn [List.filter fst]. rewrite List.filter_app.
    destruct (PyStr.mem k keys); cbn [map snd app];
      rewrite map_app, <- Hv; repeat f_equal; exact IHr.
Qed.

Lemma block_parts_omap (rows : list json) : block_parts rows = omap row_text rows.
Proof.
  induction rows as [|row rows IH]; [reflexivity |].
  cbn [block_parts omap list_omap]. fold (omap row_text rows). rewrite <- IH.
  destruct row as [| | | | |fields]; try reflexivity.
  cbn [row_text]. destruct (dict_get fields "text"); try reflexivity.
  cbn [non_blank]. now destruct (PyStr.truthy (PyStr.strip s)).
Qed.

Lemma utterance_loop_find (blocks : list json) :
  utterance_loop blocks =
  option_map (fun block => PyStr.join PyStr.nl (block_texts block))
             (List.find has_text blocks).
Proof.
  induction blocks as [|block blocks IH]; [reflexivity |].
  cbn [utterance_loop List.find]. unfold has_text at 1.
  destruct block; cbn [block_texts]; try exact IH.
  rewrite block_parts_omap.
  destruct (omap row_text items) eqn:E; [exact IH |].
  cbn [option_map block_texts]. now rewrite E.
Qed.

Lemma first_string_omap (values : list json) :
  _first_string values = head (omap non_blank values).
Proof.
  induction values as [|v values IH]; [reflexivity |].
  cbn [_first_string omap list_omap]. fold (omap non_blank values).
  destruct v; cbn [non_blank]; try exact IH.
  now destruct (PyStr.truthy (PyStr.strip s)).
Qed.

Lemma first_string_truthy (values : list json) (s : string) :
  _first_string values = Some s -> PyStr.truthy s = true.
Proof.
  induction values as [|v values IH]; [discriminate |].
  cbn [_first_string]. destruct v; try exact IH.
  destruct (PyStr.truthy (PyStr.strip s0)) eqn:E; [| exact IH].
  intros H. injection H as <-. exact E.
Qed.

Lemma direct_text_result_text (payload : dict) :
  direct_text payload = result_text payload.
Proof.
  unfold direct_text, result_text.
  destruct (dict_get payload "result"); reflexivity.
Qed.



(** The tests of tests/unit/test_volc_parsers.py. *)
Example test_parse_asr_text_from_result_text :
  parse_asr_text [("result", JObj [("text", JStr "hello, world")])] = "hello, world".
Proof. reflexivity. Qed.

Example test_parse_asr_text_from_utterances :
  parse_asr_text
    [("result", JObj [("utterances", JArr [JObj [("text", JStr "first")];
                                           JObj [("text", JStr "second")]])])]
  = "first" +:+ PyStr.nl +:+ "second".
Proof. reflexivity. Qed.

End TranscriptFacts.

(** ** JSON extraction *)
Module JsonExtractFacts.
Import JsonExtract JsonExtractSpec PyStrFacts.

Lemma contains_char (x c : ascii) (s : string) :
  PyStr.contains (String x "") (String c s)
  = Ascii.eqb x c || PyStr.contains (String x "") s.
Proof.
  rewrite contains_unfold. f_equal. cbn [String.prefix].
  destruct (ascii_dec x c) as [->|N].
  - rewrite Ascii.eqb_refl. now destruct s.
  - symmetry. now apply Ascii.eqb_neq.
Qed.

Lemma from_first_open_spec (s rest : string) :
  from_first_open s = Some rest <->
  exists before, s = before +:+ "{" +:+ rest /\ PyStr.contains "{" before = false.
Proof.
  split.
  - revert rest. induction s as [|c s IH]; intros rest H; [discriminate |].
    cbn [from_first_open] in H. destruct (Ascii.eqb c "{") eqn:E.
    + apply Ascii.eqb_eq in E as ->. injection H as ->. now exists "".
    + destruct (IH _ H) as (before & -> & Hb). exists (String c before).
      split; [reflexivity |].
      now rewrite contains_char, Ascii.eqb_sym, E, Hb.
  - intros (before & -> & Hb). induction before as [|c before IH]; [reflexivity |].
    rewrite contains_char in Hb. apply orb_false_iff in Hb as [Hc Hb].
    rewrite append_cons. cbn [from_first_open].
    rewrite Ascii.eqb_sym, Hc. now apply IH.
Qed.

Lemma upto_last_close_none (s : string) :
  upto_last_close s = None <-> PyStr.contains "}" s = false.
Proof.
  induction s as [|c s IH]; [now split |].
  cbn [upto_last_close]. rewrite contains_char, (Ascii.eqb_sym "}" c).
  destruct (upto_last_close s) as [p|].
  - split; [discriminate |]. intros H. apply orb_false_iff in H as [_ H].
    now apply IH in H.
  - rewrite (proj1 IH eq_refl), orb_false_r.
    destruct (Ascii.eqb c "}"); now split.
Qed.

Lemma upto_last_close_spec (s p : string) :
  upto_last_close s = Some p <->
  exists body after,
    s = body +:+ "}" +:+ after /\ p = body +:+ "}" /\ PyStr.contains "}" after = false.
Proof.
  split.
  - revert p. induction s as [|c s IH]; intros p H; [discriminate |].
    cbn [upto_last_close] in H.
    destruct (upto_last_close s) as [p'|] eqn:E.
    + injection H as <-. destruct (IH _ eq_refl) as (body & after & -> & -> & Ha).
      now exists (String c body), after.
    + destruct (Ascii.eqb c "}") eqn:Ec; [| discriminate].
      apply Ascii.eqb_eq in Ec as ->. injection H as <-.
      exists "", s. repeat split. now apply upto_last_close_none.
  - intros (body & after & -> & -> & Ha).
    induction body as [|c body IH].
    + change ("" +:+ "}" +:+ after) with (String "}" after).
      cbn [upto_last_close]. now rewrite (proj2 (upto_last_close_none after) Ha).
    + rewrite !(append_cons c body). cbn [upto_last_close]. now rewrite IH.
Qed.

(** [re.search(r"\{.*\}", text, re.DOTALL)] finds the part from the
    first opening brace to the last closing brace, when one follows. *)
Lemma search_braces_spec (text span : string) :
  search_braces text = Some span <-> is_brace_span text span.
Proof.
  unfold search_braces, is_brace_span. split.
  - destruct (from_first_open text) as [rest|] eqn:E1; [| discriminate].
    destruct (upto_last_close rest) as [p|] eqn:E2; [| discriminate].
    intros H. injection H as <-.
    apply from_first_open_spec in E1 as (before & -> & Hb).
    apply upto_last_close_spec in E2 as (body & after & -> & -> & Ha).
    now exists before, body, after.
  - intros (before & body & after & -> & -> & Hb & Ha).
    rewrite (proj2 (from_first_open_spec _ (body +:+ "}" +:+ after)))
      by now exists before.
    rewrite (proj2 (upto_last_close_spec _ (body +:+ "}")))
      by now exists body, after.
    reflexivity.
Qed.

Lemma search_braces_none (text : string) :
  search_braces text = None <-> forall span, ~ is_brace_span text span.
Proof.
  split.
  - intros E span H. apply search_braces_spec in H. congruence.
  - intros H. destruct (search_braces text) as [span|] eqn:E; [| reflexivity].
    apply search_braces_spec in E. now elim (H span).
Qed.

Section WithDecoder.
Variable json_loads : string -> decoded.

Local Abbreviation extract := (extract_first_json_object json_loads).

Lemma extract_blank (text : string) :
  PyStr.strip text = "" -> extract text = Raise (ValueError "empty llm output").
Proof. intros H. unfold extract_first_json_object. now rewrite H. Qed.

Lemma extract_unfold (text : string) :
  PyStr.strip text <> "" ->
  extract text =
  let cleaned := unfence (PyStr.strip text) in
  match json_loads cleaned with
  | Decoded (JObj parsed) => Ok parsed
  | _ =>
      match search_braces cleaned with
      | None => Raise (ValueError "no json object found in llm output")
      | Some span =>
          match json_loads span with
          | DecodeError msg => Raise (JSONDecodeError msg)
          | Decoded (JObj parsed) => Ok parsed
          | Decoded _ => Raise (ValueError "llm output json must be object")
          end
      end
  end.
Proof.
  intros H. unfold extract_first_json_object.
  apply truthy_true in H. now rewrite H.
Qed.

Lemma extract_whole (text : string) (obj : dict) :
  PyStr.strip text <> "" ->
  parses_to json_loads (unfence (PyStr.strip text)) obj ->
  extract text = Ok obj.
Proof. intros Ht H. rewrite extract_unfold by exact Ht. cbv zeta. now rewrite H. Qed.

Lemma extract_span (text span : string) (obj : dict) :
  PyStr.strip text <> "" ->
  no_object json_loads (unfence (PyStr.strip text)) ->
  is_brace_span (unfence (PyStr.strip text)) span ->
  parses_to json_loads span obj ->
  extract text = Ok obj.
Proof.
  intros Ht Hno Hspan Hobj. rewrite extract_unfold by exact Ht. cbv zeta.
  apply search_braces_spec in Hspan. rewrite Hspan, Hobj.
  destruct (json_loads (unfence (PyStr.strip text))) as [[]|] eqn:E;
    try reflexivity.
  now elim (Hno fields).
Qed.

Lemma extract_ok_inv (text : string) (obj : dict) :
  extract text = Ok obj ->
  PyStr.strip text <> ""
  /\ (parses_to json_loads (unfence (PyStr.strip text)) obj
      \/ exists span,
           is_brace_span (unfence (PyStr.strip text)) span
           /\ parses_to json_loads span obj).
Proof.
  intros H. destruct (string_dec (PyStr.strip text) "") as [E|Ht].
  { rewrite (extract_blank _ E) in H. discriminate. }
  split; [exact Ht |]. rewrite extract_unfold in H by exact Ht. cbv zeta in H.
  assert (Hspan :
    match search_braces (unfence (PyStr.strip text)) with
    | None => Raise (ValueError "no json object found in llm output")
    | Some span =>
        match json_loads span with
        | DecodeError msg => Raise (JSONDecodeError msg)
        | Decoded (JObj parsed) => Ok parsed
        | Decoded _ => Raise (ValueError "llm output json must be object")
        end
    end = Ok obj ->
    exists span, is_brace_span (unfence (PyStr.strip text)) span
                 /\ parses_to json_loads span obj).
  { destruct (search_braces _) as [span|] eqn:Es; [| discriminate].
    intros H'. exists span. split; [now apply search_braces_spec |].
    unfold parses_to. destruct (json_loads span) as [[]|]; try discriminate.
    now injection H' as ->. }
  destruct (json_loads (unfence (PyStr.strip text))) as [[]|] eqn:E;
    try (right; now apply Hspan).
  left. injection H as <-. exact E.
Qed.

Lemma extract_fails (text : string) :
  (forall obj, extract text <> Ok obj) ->
  exists e, extract text = Raise e /\ is_parse_error e.
Proof.
  intros Hno. destruct (string_dec (PyStr.strip text) "") as [E|Ht].
  { rewrite (extract_blank _ E). now eexists. }
  rewrite extract_unfold in * by exact Ht. cbv zeta in *.
  destruct (json_loads (unfence (PyStr.strip text))) as [[]|];
    try (now elim (Hno fields));
    (destruct (search_braces _) as [span|]; [| now eexists];
     destruct (json_loads span) as [[]|];
     first [now eexists | now elim (Hno fields)]).
Qed.

End WithDecoder.

(** *** Trimming and the code fence *)

Lemma lstrip_app (a b : string) :
  (forall c r, b = String c r -> PyStr.is_space c = false) ->
  PyStr.lstrip (a +:+ b) = PyStr.lstrip a +:+ b.
Proof.
  intros Hb. induction a as [|x a IH].
  - rewrite !append_nil_l. destruct b as [|c r]; [reflexivity |].
    cbn [PyStr.lstrip]. now rewrite (Hb c r eq_refl).
  - rewrite append_cons. cbn [PyStr.lstrip].
    destruct (PyStr.is_space x); [exact IH | reflexivity].
Qed.

Lemma rstrip_app (a b : string) :
  PyStr.rstrip b <> "" -> PyStr.rstrip (a +:+ b) = a +:+ PyStr.rstrip b.
Proof.
  intros Hb. induction a as [|x a IH]; [reflexivity |].
  rewrite !append_cons. cbn [PyStr.rstrip]. rewrite IH.
  destruct (a +:+ PyStr.rstrip b) eqn:E; [| reflexivity].
  destruct a; [now elim Hb | discriminate E].
Qed.

Lemma rstrip_head (c : ascii) (s : string) :
  PyStr.is_space c = false -> exists r, PyStr.rstrip (String c s) = String c r.
Proof.
  intros Hc. cbn [PyStr.rstrip]. rewrite Hc.
  destruct (PyStr.rstrip s); eauto.
Qed.

Lemma rstrip_lstrip (s : string) :
  PyStr.rstrip (PyStr.lstrip s) = PyStr.lstrip (PyStr.rstrip s).
Proof.
  induction s as [|c s IH]; [reflexivity |].
  cbn [PyStr.lstrip]. destruct (PyStr.is_space c) eqn:Ec.
  - rewrite IH. cbn [PyStr.rstrip]. rewrite Ec.
    destruct (PyStr.rstrip s) as [|d r]; [reflexivity |].
    cbn [PyStr.lstrip]. now rewrite Ec.
  - destruct (rstrip_head c s Ec) as [r ->]. cbn [PyStr.lstrip]. now rewrite Ec.
Qed.

Lemma lstrip_idem (s : string) : PyStr.lstrip (PyStr.lstrip s) = PyStr.lstrip s.
Proof.
  induction s as [|c s IH]; [reflexivity |].
  cbn [PyStr.lstrip]. destruct (PyStr.is_space c) eqn:Ec; [exact IH |].
  cbn [PyStr.lstrip]. now rewrite Ec.
Qed.

Lemma strip_lstrip (s : string) : PyStr.strip (PyStr.lstrip s) = PyStr.strip s.
Proof. unfold PyStr.strip. now rewrite rstrip_lstrip, lstrip_idem. Qed.

Lemma strip_before_fence (s : string) :
  PyStr.strip (s +:+ fence) = PyStr.lstrip s +:+ fence.
Proof.
  unfold PyStr.strip. rewrite rstrip_app by discriminate.
  change (PyStr.rstrip fence) with fence.
  apply lstrip_app. intros c r E. now injection E as <- <-.
Qed.

Lemma sub_trailing_fence_unfold (text : string) :
  sub_trailing_fence text =
  if String.eqb text fence then EmptyString
  else if String.eqb text (fence +:+ PyStr.nl) then PyStr.nl
  else match text with
       | EmptyString => EmptyString
       | String c r => String c (sub_trailing_fence r)
       end.
Proof. now destruct text. Qed.

Lemma length_app (a b : string) :
  String.length (a +:+ b) = (String.length a + String.length b)%nat.
Proof.
  induction a as [|c a IH]; [reflexivity |].
  rewrite append_cons. cbn [String.length]. now rewrite IH.
Qed.

Lemma sub_trailing_fence_app (s : string) : sub_trailing_fence (s +:+ fence) = s.
Proof.
  induction s as [|c s IH]; [reflexivity |].
  rewrite sub_trailing_fence_unfold.
  destruct (String.eqb_spec (String c s +:+ fence) fence) as [E|_].
  { apply (f_equal String.length) in E. rewrite length_app in E.
    change (String.length fence) with 3%nat in E.
    cbn [String.length] in E. lia. }
  destruct (String.eqb_spec (String c s +:+ fence) (fence +:+ PyStr.nl)) as [E|_].
  { destruct s as [|d s].
    - discriminate E.
    - apply (f_equal String.length) in E. rewrite length_app in E.
      change (String.length fence) with 3%nat in E.
      change (String.length (fence +:+ PyStr.nl)) with 4%nat in E.
      cbn [String.length] in E. lia. }
  rewrite append_cons. now rewrite IH.
Qed.

Lemma unfence_plain (text : string) :
  PyStr.startswith fence text = false -> unfence text = text.
Proof. intros H. unfold unfence. now rewrite H. Qed.

Lemma unfence_fenced (body : string) :
  PyStr.startswith "json" body = false ->
  unfence (fence +:+ body +:+ fence) = PyStr.strip body.
Proof.
  intros H. unfold unfence.
  assert (E1 : PyStr.startswith fence (fence +:+ body +:+ fence) = true)
    by apply prefix_app.
  rewrite E1. unfold sub_leading_fence.
  assert (E2 : PyStr.startswith (fence +:+ "json") (fence +:+ body +:+ fence) = false).
  { unfold PyStr.startswith in *.
    destruct (String.prefix (fence +:+ "json") (fence +:+ body +:+ fence)) eqn:E;
      [| reflexivity].
    apply prefix_split in E as [r E]. rewrite append_assoc in E.
    apply append_inj_l in E.
    assert (P : String.prefix "json" (body +:+ fence) = true)
      by (rewrite E; apply prefix_app).
    destruct body as [|c1 [|c2 [|c3 [|c4 body]]]];
      rewrite ?append_cons, ?append_nil_l in P;
      unfold fence in P; cbn [String.prefix] in P, H;
      repeat match type of P with
             | context [ascii_dec ?a ?b] =>
                 destruct (ascii_dec a b); try discriminate P
             end;
      destruct body; discriminate H. }
  rewrite E2, E1.
  change (PyStr.drop 3 (fence +:+ body +:+ fence)) with (body +:+ fence).
  now rewrite strip_before_fence, sub_trailing_fence_app, strip_lstrip.
Qed.

Lemma unfence_fenced_json (body : string) :
  unfence (fence +:+ "json" +:+ body +:+ fence) = PyStr.strip body.
Proof.
  unfold unfence.
  assert (E1 : PyStr.startswith fence (fence +:+ "json" +:+ body +:+ fence) = true)
    by apply prefix_app.
  rewrite E1. unfold sub_leading_fence.
  assert (E2 : PyStr.startswith (fence +:+ "json")
                 (fence +:+ "json" +:+ body +:+ fence) = true).
  { unfold PyStr.startswith. rewrite <- (append_assoc fence "json"). apply prefix_app. }
  rewrite E2.
  change (PyStr.drop 7 (fence +:+ "json" +:+ body +:+ fence)) with (body +:+ fence).
  now rewrite strip_before_fence, sub_trailing_fence_app, strip_lstrip.
Qed.



End JsonExtractFacts.

(** ** The monad of effects *)
Module Effects.

Lemma bind_return {S A B : Type} (m : M S A) (k : A -> M S B) (s s' : S) (a : A) :
  m s = (Return a, s') -> bind m k s = k a s'.
Proof. intros H. unfold bind. now rewrite H. Qed.

Lemma bind_throw {S A B : Type} (m : M S A) (k : A -> M S B) (s s' : S) (e : exn) :
  m s = (Throw e, s') -> bind m k s = (Throw e, s').
Proof. intros H. unfold bind. now rewrite H. Qed.

Lemma bind_stuck {S A B : Type} (m : M S A) (k : A -> M S B) (s s' : S) :
  m s = (Stuck, s') -> bind m k s = (Stuck, s').
Proof. intros H. unfold bind. now rewrite H. Qed.

(** How a sequence ends with a value: both parts did. *)
Lemma bind_return_inv {S A B : Type} (m : M S A) (k : A -> M S B)
    (s s2 : S) (b : B) :
  bind m k s = (Return b, s2) ->
  exists a s1, m s = (Return a, s1) /\ k a s1 = (Return b, s2).
Proof.
  unfold bind. destruct (m s) as [[a|e|] s1]; intros H; try discriminate H.
  now exists a, s1.
Qed.

Lemma of_result_ok {S A : Type} (r : result A) (a : A) (s : S) :
  r = Ok a -> of_result r s = (Return a, s).
Proof. now intros ->. Qed.

End Effects.

(** ** Video generation: submission *)
Module VideoSubmitFacts.
Import Http VolcParsers VideoClient VideoSpec Effects.

Lemma send_next (req : request) (resp : response) (rs : list response)
    (cl : list Q) (us : list string) (st : list request) (sl : list Z) :
  send req (world_of (resp :: rs) cl us st sl)
  = (Return resp, world_of rs cl us (st ++ [req]) sl).
Proof. reflexivity. Qed.

Lemma submit_loop_cons (cfg : VideoConfig) (idx : nat) (payload : json)
    (rest : list json) (errors : list string) :
  submit_loop cfg idx (payload :: rest) errors =
  bind (send (submit_request cfg payload))
    (fun resp =>
       if (400 <=? status_code resp)%Z then
         if (status_code resp =? 400)%Z || (status_code resp =? 422)%Z
         then submit_loop cfg (S idx) rest (errors ++ [http_error_entry idx resp])
         else throw (fatal_error resp)
       else
         match json_body resp with
         | DecodeError msg => throw (JSONDecodeError msg)
         | Decoded data =>
             match _first_string (_deep_find TASK_ID_KEYS data) with
             | Some task_id =>
                 if PyStr.truthy task_id then ret (task_id, data)
                 else submit_loop cfg (S idx) rest
                        (errors ++ [missing_id_entry idx resp])
             | None =>
                 submit_loop cfg (S idx) rest (errors ++ [missing_id_entry idx resp])
             end
         end).
Proof. reflexivity. Qed.

Section OneAttempt.
Variables (cfg : VideoConfig) (idx : nat) (payload : json) (rest : list json).
Variables (errors : list string) (resp : response) (rs : list response).
Variables (cl : list Q) (us : list string) (st : list request) (sl : list Z).

Let before : World := world_of (resp :: rs) cl us st sl.
Let after : World := world_of rs cl us (st ++ [submit_request cfg payload]) sl.

Lemma attempt_advances :
  advances resp ->
  submit_loop cfg idx (payload :: rest) errors before
  = submit_loop cfg (S idx) rest (errors ++ [attempt_entry idx resp]) after.
Proof.
  intros H. rewrite submit_loop_cons. subst before after.
  rewrite (bind_return _ _ _ _ _ (send_next _ _ _ _ _ _ _)).
  unfold attempt_entry. destruct H as [[H|H]|(Hlt & data & Hd & Hnone)].
  - now rewrite H.
  - now rewrite H.
  - rewrite (proj2 (Z.leb_gt _ _) Hlt), Hd, Hnone. reflexivity.
Qed.

Lemma attempt_accepted (task_id : string) (data : json) :
  accepted resp task_id data ->
  submit_loop cfg idx (payload :: rest) errors before
  = (Return (task_id, data), after).
Proof.
  intros (Hlt & Hd & Hid). rewrite submit_loop_cons. subst before after.
  rewrite (bind_return _ _ _ _ _ (send_next _ _ _ _ _ _ _)).
  rewrite (proj2 (Z.leb_gt _ _) Hlt), Hd, Hid.
  now rewrite (TranscriptFacts.first_string_truthy _ _ Hid).
Qed.

Lemma attempt_fatal :
  fatal resp ->
  submit_loop cfg idx (payload :: rest) errors before
  = (Throw (fatal_error resp), after).
Proof.
  intros (Hge & Hshape). rewrite submit_loop_cons. subst before after.
  rewrite (bind_return _ _ _ _ _ (send_next _ _ _ _ _ _ _)).
  rewrite (proj2 (Z.leb_le _ _) Hge).
  destruct (Z.eqb_spec (status_code resp) 400) as [E|_];
    [elim Hshape; now left |].
  destruct (Z.eqb_spec (status_code resp) 422) as [E|_];
    [elim Hshape; now right |].
  reflexivity.
Qed.
End OneAttempt.

(** The loop through a run of answers that all make it advance. *)
Lemma submit_loop_advances (cfg : VideoConfig) (tried : list response) :
  forall (idx : nat) (variants rest : list json) (errors : list string)
         (rs : list response) (cl : list Q) (us : list string)
         (st : list request) (sl : list Z),
    Forall advances tried ->
    length variants = length tried ->
    submit_loop cfg idx (variants ++ rest) errors (world_of (tried ++ rs) cl us st sl)
    = submit_loop cfg (idx + length tried) rest
        (errors ++ attempt_entries idx tried)
        (world_of rs cl us (st ++ map (submit_request cfg) variants) sl).
Proof.
  induction tried as [|resp tried IH]; intros idx variants rest errors rs cl us st sl Hall Hlen.
  - destruct variants; [| discriminate Hlen].
    cbn [length app attempt_entries map]. now rewrite !app_nil_r, Nat.add_0_r.
  - destruct variants as [|payload variants]; [discriminate Hlen |].
    apply Forall_cons in Hall as [Hresp Hall].
    cbn [app]. rewrite attempt_advances by exact Hresp.
    rewrite IH by (auto; now injection Hlen).
    cbn [length attempt_entries map]. rewrite <- !app_assoc.
    now rewrite Nat.add_succ_r.
Qed.

Lemma take_drop_variants {A : Type} (n : nat) (l : list A) :
  n < length l ->
  exists x, l = firstn n l ++ x :: skipn (S n) l /\ firstn (S n) l = firstn n l ++ [x].
Proof.
  revert l. induction n as [|n IH]; intros [|y l] H; cbn in H; try lia.
  - now exists y.
  - destruct (IH l ltac:(lia)) as (x & E1 & E2). exists x. cbn [firstn skipn app].
    split; [now rewrite <- E1 | now rewrite E2].
Qed.

End VideoSubmitFacts.

Module VideoSubmitClaims.
Import Http VolcParsers VideoClient VideoSpec Effects VideoSubmitFacts.

Lemma variants_length (cfg : VideoConfig) (prompt : string) (d w h : Z) :
  length (_submit_payload_candidates cfg prompt d w h) = 5.
Proof. reflexivity. Qed.




(** The tests of tests/unit/test_video_submit_payload.py. *)
Example test_submit_payload_candidates_prefer_content_schema :
  let cfg := {| base_url := ""; api_key := ""; model := "demo-model";
                timeout_s := 600; poll_interval_s := 5; system_prompt := "" |} in
  head (_submit_payload_candidates cfg "test prompt" 5 720 1280)
  = Some (JObj [("model", JStr "demo-model");
                ("content", JArr [JObj [("type", JStr "text");
                                        ("text", JStr "test prompt")]]);
                ("duration", JNum 5); ("width", JNum 720); ("height", JNum 1280)]).
Proof. reflexivity. Qed.

Example test_submit_payload_candidates_keep_legacy_fallback_last :
  let cfg := {| base_url := ""; api_key := ""; model := "demo-model";
                timeout_s := 600; poll_interval_s := 5; system_prompt := "" |} in
  last (_submit_payload_candidates cfg "legacy test" 5 1080 1920)
  = Some (JObj [("model", JStr "demo-model"); ("prompt", JStr "legacy test");
                ("duration", JNum 5); ("resolution", JStr "1080x1920")]).
Proof. reflexivity. Qed.

End VideoSubmitClaims.

(** ** Video generation: polling *)
Module VideoPollFacts.
Import Http VolcParsers VideoClient VideoSpec Effects.

Lemma payload_status_status_of (payload : json) :
  payload_status payload = status_of payload.
Proof.
  unfold payload_status, status_of. fold STATUS_KEYS.
  destruct (_first_string (_deep_find STATUS_KEYS payload)) as [s|] eqn:E.
  - rewrite (TranscriptFacts.first_string_truthy _ _ E).
    rewrite TranscriptFacts.first_string_omap,
      TranscriptFacts.deep_find_found_under in E.
    destruct (omap _ _); [discriminate E | now injection E as ->].
  - rewrite TranscriptFacts.first_string_omap,
      TranscriptFacts.deep_find_found_under in E.
    now destruct (omap _ _).
Qed.

Lemma poll_loop_succ (fuel : nat) (cfg : VideoConfig) (task_id : string)
    (deadline : Q) (interval : Z) :
  poll_loop (S fuel) cfg task_id deadline interval =
  bind (send (poll_request cfg task_id))
    (fun resp =>
       if (400 <=? status_code resp)%Z
       then throw (VolcAPIError ("Video polling failed: "
                     +:+ PyStr.of_int (status_code resp) +:+ " "
                     +:+ PyStr.take 500 (text resp)))
       else
         match json_body resp with
         | DecodeError msg => throw (JSONDecodeError msg)
         | Decoded payload =>
             let status := payload_status payload in
             if PyStr.mem status SUCCESS_STATUS then ret payload
             else if PyStr.mem status FAILURE_STATUS
             then throw (VolcAPIError ("Video generation failed: status=" +:+ status))
             else
               bind time_time
                 (fun now =>
                    if Qle_bool now deadline
                    then bind (time_sleep interval)
                           (fun _ => poll_loop fuel cfg task_id deadline interval)
                    else throw (VolcAPIError "Video generation timed out"))
         end).
Proof. reflexivity. Qed.

Section OnePoll.
Variables (fuel : nat) (cfg : VideoConfig) (task_id : string).
Variables (deadline : Q) (interval : Z).
Variables (resp : response) (payload : json) (rs : list response).
Variables (us : list string) (st : list request) (sl : list Z).
Hypothesis Hanswer : answers resp payload.

Let polled : list request := st ++ [poll_request cfg task_id].

Lemma poll_head (cl : list Q) (k : response -> M World json) :
  bind (send (poll_request cfg task_id)) k (world_of (resp :: rs) cl us st sl)
  = k resp (world_of rs cl us polled sl).
Proof. reflexivity. Qed.

Lemma poll_succeeded (cl : list Q) :
  succeeded payload ->
  poll_loop (S fuel) cfg task_id deadline interval (world_of (resp :: rs) cl us st sl)
  = (Return payload, world_of rs cl us polled sl).
Proof.
  intros H. destruct Hanswer as [Hlt Hd].
  rewrite poll_loop_succ, poll_head.
  rewrite (proj2 (Z.leb_gt _ _) Hlt), Hd. cbv zeta.
  rewrite payload_status_status_of.
  now rewrite (proj2 (PyStrFacts.mem_In _ _) H).
Qed.

Lemma poll_failed (cl : list Q) :
  ~ succeeded payload -> failed payload ->
  poll_loop (S fuel) cfg task_id deadline interval (world_of (resp :: rs) cl us st sl)
  = (Throw (VolcAPIError ("Video generation failed: status=" +:+ status_of payload)),
     world_of rs cl us polled sl).
Proof.
  intros Hs Hf. destruct Hanswer as [Hlt Hd].
  rewrite poll_loop_succ, poll_head.
  rewrite (proj2 (Z.leb_gt _ _) Hlt), Hd. cbv zeta.
  rewrite payload_status_status_of.
  rewrite (proj2 (PyStrFacts.mem_false _ _) Hs).
  now rewrite (proj2 (PyStrFacts.mem_In _ _) Hf).
Qed.

Lemma poll_pending (now : Q) (cl : list Q) :
  pending payload ->
  poll_loop (S fuel) cfg task_id deadline interval
    (world_of (resp :: rs) (now :: cl) us st sl)
  = if Qle_bool now deadline
    then poll_loop fuel cfg task_id deadline interval
           (world_of rs cl us polled (sl ++ [interval]))
    else (Throw (VolcAPIError "Video generation timed out"),
          world_of rs cl us polled sl).
Proof.
  intros [Hs Hf]. destruct Hanswer as [Hlt Hd].
  rewrite poll_loop_succ, poll_head.
  rewrite (proj2 (Z.leb_gt _ _) Hlt), Hd. cbv zeta.
  rewrite payload_status_status_of.
  rewrite (proj2 (PyStrFacts.mem_false _ _) Hs).
  rewrite (proj2 (PyStrFacts.mem_false _ _) Hf).
  unfold bind at 1. cbn [time_time clock world_of].
  now destruct (Qle_bool now deadline).
Qed.
End OnePoll.

(** The loop through polls that all leave it running: as many requests
    and as many sleeps of [interval] seconds. *)
Lemma poll_loop_running (cfg : VideoConfig) (task_id : string)
    (deadline : Q) (interval : Z) (turns : list (response * Q)) :
  forall (fuel : nat) (rs : list response) (cl : list Q) (us : list string)
         (st : list request) (sl : list Z),
    Forall (still_running deadline) turns ->
    poll_loop (length turns + fuel) cfg task_id deadline interval
      (world_of (map fst turns ++ rs) (map snd turns ++ cl) us st sl)
    = poll_loop fuel cfg task_id deadline interval
        (world_of rs cl us
           (st ++ repeat (poll_request cfg task_id) (length turns))
           (sl ++ repeat interval (length turns))).
Proof.
  induction turns as [|[resp now] turns IH]; intros fuel rs cl us st sl Hall.
  - cbn [length map app repeat]. now rewrite !app_nil_r.
  - apply Forall_cons in Hall as [[(payload & Hans & Hpend) Hnow] Hall].
    cbn [fst snd] in *. cbn [length map app fst snd Nat.add].
    rewrite (poll_pending _ _ _ _ _ _ _ _ _ _ _ Hans) by exact Hpend.
    rewrite (proj2 (Qle_bool_iff _ _) Hnow).
    rewrite IH by exact Hall. cbn [repeat]. now rewrite <- !app_assoc.
Qed.

Lemma repeat_snoc {A : Type} (x : A) (n : nat) : repeat x n ++ [x] = repeat x (S n).
Proof. induction n as [|n IH]; [reflexivity |]. cbn [repeat app]. now rewrite IH. Qed.

Lemma poll_until_done_unfold (cfg : VideoConfig) (task_id : string) (timeout : option Z)
    (start : Q) (rs : list response) (cl : list Q) (us : list string)
    (st : list request) (sl : list Z) :
  poll_until_done cfg task_id timeout (world_of rs (start :: cl) us st sl)
  = poll_loop (length rs) cfg task_id
      (start + inject_Z (effective_timeout cfg timeout))%Q
      (Z.max 1 (poll_interval_s cfg)) (world_of rs cl us st sl).
Proof. reflexivity. Qed.



End VideoPollFacts.

(** ** Speech recognition: the candidate identifiers *)
Module ASRCandidateFacts.
Import Http ASRClient ASRSpec PyStrFacts.

Lemma append_fallbacks_unique (fallbacks : list string) :
  forall candidates,
    append_fallbacks candidates fallbacks
    = candidates ++ unique_from candidates fallbacks.
Proof.
  induction fallbacks as [|f r IH]; intros candidates.
  - cbn. now rewrite app_nil_r.
  - cbn [append_fallbacks unique_from]. destruct (PyStr.mem f candidates).
    + apply IH.
    + rewrite IH, <- app_assoc. reflexivity.
Qed.

Lemma candidate_ids_unique (cfg : ASRConfig) :
  _candidate_resource_ids cfg
  = unique_from [] (configured cfg ++ _RESOURCE_FALLBACKS).
Proof.
  unfold _candidate_resource_ids, configured.
  rewrite append_fallbacks_unique.
  now destruct (PyStr.truthy (PyStr.strip (resource_id cfg))).
Qed.

Lemma unique_from_In (l : list string) :
  forall seen x, In x (unique_from seen l) <-> In x l /\ ~ In x seen.
Proof.
  induction l as [|y l IH]; intros seen x; cbn [unique_from].
  - cbn. tauto.
  - destruct (PyStr.mem y seen) eqn:E.
    + apply mem_In in E. rewrite IH. cbn [In]. split.
      * tauto.
      * intros [[<-|H] Hs]; tauto.
    + apply mem_false in E. cbn [In]. rewrite IH, in_app_iff. cbn [In].
      destruct (string_dec y x) as [<-|N]; tauto.
Qed.

Lemma unique_from_NoDup (l : list string) :
  forall seen, NoDup (unique_from seen l).
Proof.
  induction l as [|y l IH]; intros seen; cbn [unique_from].
  - constructor.
  - destruct (PyStr.mem y seen); [apply IH |].
    constructor; [| apply IH].
    rewrite list_elem_of_In, unique_from_In, in_app_iff. cbn [In]. tauto.
Qed.

(** The candidates: the configured identifier first (trimmed, when it is
    not blank), then the fallbacks in their order, nothing twice. *)
Lemma candidate_ids_spec (cfg : ASRConfig) :
  let candidates := _candidate_resource_ids cfg in
  candidates = unique_from [] (configured cfg ++ _RESOURCE_FALLBACKS)
  /\ NoDup candidates
  /\ (forall x, In x candidates <-> In x (configured cfg ++ _RESOURCE_FALLBACKS))
  /\ (forall c, configured cfg = [c] -> head candidates = Some c).
Proof.
  cbv zeta. rewrite candidate_ids_unique. repeat apply conj.
  - reflexivity.
  - apply unique_from_NoDup.
  - intros x. rewrite unique_from_In. cbn [In]. tauto.
  - intros c ->. reflexivity.
Qed.

Lemma resource_of_headers (cfg : ASRConfig) (resource request_id : string) :
  header_get (_build_headers cfg resource request_id) "X-Api-Resource-Id" = Some resource
  /\ header_get (_build_headers cfg resource request_id) "X-Api-Request-Id"
     = Some request_id.
Proof. split; reflexivity. Qed.

End ASRCandidateFacts.

(** ** Speech recognition: the two paths *)
Module ASRLoopFacts.
Import Http ASRClient ASRSpec Effects PyStrFacts.

Lemma bind_of_result {S A B : Type} (r : result A) (k : A -> M S B) (s : S) :
  bind (of_result r) k s
  = match r with Ok a => k a s | Raise e => (Throw e, s) end.
Proof. now destruct r. Qed.

Lemma truthy_false (s : string) : PyStr.truthy s = false <-> s = "".
Proof. destruct s; cbn; split; congruence. Qed.

(** The test [status and status != "20000000"]. *)
Lemma business_test (s : string) :
  PyStr.truthy s && negb (String.eqb s "20000000") = true
  <-> s <> "" /\ s <> "20000000".
Proof.
  rewrite andb_true_iff, negb_true_iff, String.eqb_neq, truthy_true. tauto.
Qed.

Lemma business_test_false (s : string) :
  PyStr.truthy s && negb (String.eqb s "20000000") = false
  <-> s = "" \/ s = "20000000".
Proof.
  rewrite andb_false_iff, negb_false_iff, String.eqb_eq, truthy_false. tauto.
Qed.

(** *** The fast path *)

Section FlashAnswer.
Variables (cfg : ASRConfig) (resource : string) (resp : response).
Variables (errors : list string).
Variable continue_ : list string -> M World (option json * list string).

Let recorded : list string := errors ++ [try_error_entry "flash" resource resp].

Lemma flash_answer_denied (w : World) :
  denied resp ->
  flash_answer cfg resource resp errors continue_ w = continue_ recorded w.
Proof.
  intros [Hge Hperm]. unfold flash_answer.
  rewrite (proj2 (Z.leb_le _ _) Hge), bind_of_result, Hperm. reflexivity.
Qed.

Lemma flash_answer_none (w w' : World) (errors' : list string) :
  flash_answer cfg resource resp errors continue_ w = (Return (None, errors'), w') ->
  flash_refused resp /\ continue_ recorded w = (Return (None, errors'), w').
Proof.
  unfold flash_answer, flash_refused, denied, business_refused, header_refused.
  destruct (Z.leb_spec 400 (status_code resp)) as [Hge|Hlt].
  - rewrite bind_of_result.
    destruct (_is_permission_response resp) as [[|]|e]; try discriminate.
    intros H. split; [left; now split | exact H].
  - rewrite bind_of_result.
    destruct (_extract_status_code resp) as [s|e]; [| discriminate].
    destruct (PyStr.truthy s && negb (String.eqb s "20000000")) eqn:Et.
    + rewrite bind_of_result.
      destruct (_extract_status_message resp) as [m|e]; [| discriminate].
      destruct (_is_permission_message m) eqn:Em; [| discriminate].
      intros H. split; [| exact H]. right; left. split; [exact Hlt |].
      apply business_test in Et as [? ?]. now exists s, m.
    + apply business_test_false in Et.
      destruct (json_body resp) as [[| | | | |payload]|]; try discriminate.
      destruct (dict_get payload "header") as [| | | | |header] eqn:Eh;
        try discriminate.
      destruct (business_code_bad (dict_get header "code")) eqn:Eb;
        [| discriminate].
      destruct (_is_permission_message _) eqn:Em; [| discriminate].
      intros H. split; [| exact H]. right; right.
      split; [exact Hlt |]. split; [destruct Et as [->| ->]; tauto |].
      now exists payload, header.
Qed.
End FlashAnswer.

Lemma post_flash_sent (cfg : ASRConfig) (audio_b64 resource : string)
    (w w1 : World) (resp : response) :
  _post_flash_once cfg (flash_url cfg) audio_b64 resource w = (Return resp, w1) ->
  exists u rest_u rest_r,
    uuids w = u :: rest_u /\ responses w = resp :: rest_r
    /\ w1 = {| responses := rest_r; clock := clock w; uuids := rest_u;
               sent := sent w ++ [flash_request cfg audio_b64 resource u];
               slept := slept w |}.
Proof.
  unfold _post_flash_once, bind, uuid4, send.
  destruct (uuids w) as [|u us]; [discriminate |]. cbn [responses sent clock uuids slept].
  destruct (responses w) as [|r rs]; [discriminate |].
  intros H. injection H as <- <-. now exists u, us, rs.
Qed.

Lemma resource_of_flash (cfg : ASRConfig) (audio_b64 resource u : string) :
  resource_of (flash_request cfg audio_b64 resource u) = resource.
Proof. reflexivity. Qed.

(** The fast path gives up ([None]) only after a permission-class
    failure of every candidate, one request each, in their order. *)
Lemma flash_loop_none (cfg : ASRConfig) (audio_b64 : string)
    (candidates : list string) :
  forall (errors errors' : list string) (w w' : World),
    flash_loop cfg audio_b64 candidates errors w = (Return (None, errors'), w') ->
    exists attempts,
      map attempt_resource attempts = candidates
      /\ Forall flash_attempt_refused attempts
      /\ errors' = errors ++ trace attempts
      /\ map resource_of (sent w') = map resource_of (sent w) ++ candidates.
Proof.
  induction candidates as [|c rest IH]; intros errors errors' w w' H.
  - injection H as <- <-. exists []. cbn. now rewrite !app_nil_r.
  - cbn [flash_loop] in H.
    apply bind_return_inv in H as (resp & w1 & Hpost & H).
    apply flash_answer_none in H as [Href H].
    apply IH in H as (attempts & Hres & Hall & -> & Hsent).
    apply post_flash_sent in Hpost as (u & us & rs & _ & _ & ->).
    exists (("flash", c, resp) :: attempts). repeat apply conj.
    + cbn. now rewrite Hres.
    + apply List.Forall_cons; [now split | exact Hall].
    + cbn [trace map fst snd]. now rewrite <- app_assoc.
    + rewrite Hsent. cbn [sent]. rewrite map_app. cbn [map].
      rewrite resource_of_flash, <- app_assoc. reflexivity.
Qed.

(** Answers that all deny the resource carry the fast path through
    every candidate; an attempt is a candidate, the request id drawn for
    it, and the answer. *)
Lemma flash_loop_denied (cfg : ASRConfig) (audio_b64 : string)
    (attempts : list (string * string * response)) :
  forall (errors : list string) (rs : list response) (cl : list Q)
         (us : list string) (st : list request) (sl : list Z),
    Forall (fun a => denied (snd a)) attempts ->
    flash_loop cfg audio_b64 (map attempt_resource attempts) errors
      (VideoSpec.world_of (map snd attempts ++ rs) cl
         (map attempt_request_id attempts ++ us) st sl)
    = (Return (None,
               errors ++ trace (map (fun a => ("flash", attempt_resource a, snd a))
                                    attempts)),
       VideoSpec.world_of rs cl us
         (st ++ map (fun a => flash_request cfg audio_b64 (attempt_resource a)
                                (attempt_request_id a)) attempts)
         sl).
Proof.
  induction attempts as [|[[u c] resp] attempts IH]; intros errors rs cl us st sl Hall.
  - cbn. now rewrite !app_nil_r.
  - apply Forall_cons in Hall as [Hd Hall].
    cbn [map fst snd app flash_loop attempt_resource attempt_request_id] in *.
    unfold _post_flash_once at 1, bind at 1 2.
    cbn [uuid4 send VideoSpec.world_of uuids responses clock sent slept].
    rewrite flash_answer_denied by exact Hd.
    rewrite IH by exact Hall. cbn [trace map fst snd]. now rewrite <- !app_assoc.
Qed.

(** *** The standard path: one query *)

Section QueryAnswer.
Variables (cfg : ASRConfig) (resource : string) (resp : response).
Variables (errors : list string).
Variable again : M World (query_exit * list string).

Let recorded : list string := errors ++ [try_error_entry "query" resource resp].

Lemma query_answer_processing (rs : list response) (cl : list Q)
    (us : list string) (st : list request) (sl : list Z) :
  processing resp ->
  query_answer cfg resource resp errors again (VideoSpec.world_of rs cl us st sl)
  = again (VideoSpec.world_of rs cl us st (sl ++ [1%Z])).
Proof.
  intros [Hlt Hs]. unfold query_answer.
  rewrite (proj2 (Z.leb_gt _ _) Hlt), bind_of_result, Hs. reflexivity.
Qed.

Lemma query_answer_terminal (payload : json) (w : World) :
  terminal resp payload ->
  query_answer cfg resource resp errors again w
  = (Return (QueryReturn payload, errors), w).
Proof.
  intros (Hlt & (s & Hs & Hterm) & Hd). unfold query_answer.
  rewrite (proj2 (Z.leb_gt _ _) Hlt), bind_of_result, Hs.
  destruct Hterm as [Hin| ->].
  - cbn in Hin. destruct Hin as [<-|[<-|[]]]; cbn; now rewrite Hd.
  - cbn. now rewrite Hd.
Qed.

Lemma query_answer_denied (w : World) :
  denied resp ->
  query_answer cfg resource resp errors again w = (Return (QueryBreak, recorded), w).
Proof.
  intros [Hge Hperm]. unfold query_answer.
  rewrite (proj2 (Z.leb_le _ _) Hge), bind_of_result, Hperm. reflexivity.
Qed.

(** A query ends the polling of the candidate by [break] only on a
    permission-class failure, which it records. *)
Lemma query_answer_break (w w' : World) (errors' : list string) :
  query_answer cfg resource resp errors again w
    = (Return (QueryBreak, errors'), w') ->
  (query_refused resp /\ errors' = recorded /\ w' = w)
  \/ (processing resp
      /\ again {| responses := responses w; clock := clock w; uuids := uuids w;
                  sent := sent w; slept := slept w ++ [1%Z] |}
         = (Return (QueryBreak, errors'), w')).
Proof.
  unfold query_answer, query_refused, denied, processing.
  destruct (Z.leb_spec 400 (status_code resp)) as [Hge|Hlt].
  - rewrite bind_of_result.
    destruct (_is_permission_response resp) as [[|]|e]; try discriminate.
    intros H. injection H as <- <-. left. tauto.
  - rewrite bind_of_result.
    destruct (_extract_status_code resp) as [s|e] eqn:Es; [| discriminate].
    destruct (PyStr.mem s _STANDARD_PROCESSING_STATUS) eqn:Ep.
    + intros H. right. split; [| exact H].
      apply mem_In in Ep. cbn in Ep. destruct Ep as [<-|[]]. tauto.
    + destruct (PyStr.mem s _STANDARD_TERMINAL_STATUS || negb (PyStr.truthy s))
        eqn:Et.
      * destruct (json_body resp); discriminate.
      * rewrite bind_of_result.
        destruct (_extract_status_message resp) as [m|e]; [| discriminate].
        destruct (_is_permission_message m) eqn:Em; [| discriminate].
        intros H. injection H as <- <-. left. repeat split. right.
        split; [exact Hlt |]. exists s, m.
        apply orb_false_iff in Et as [Et1 Et2].
        apply negb_false_iff, truthy_true in Et2.
        apply mem_false in Ep, Et1. tauto.
Qed.
End QueryAnswer.

(** *** The standard path: the polling of a candidate *)

Lemma query_loop_succ (fuel : nat) (cfg : ASRConfig) (resource request_id : string)
    (deadline : Q) (errors : list string) :
  query_loop (S fuel) cfg resource request_id deadline errors
  = bind time_time
      (fun now =>
         if negb (Qle_bool deadline now) then
           bind (send (query_request cfg resource request_id))
             (fun query_resp =>
                query_answer cfg resource query_resp errors
                  (query_loop fuel cfg resource request_id deadline errors))
         else throw (VolcAPIError (timeout_message cfg resource))).
Proof. reflexivity. Qed.

Lemma before_deadline (deadline now : Q) :
  (now < deadline)%Q -> negb (Qle_bool deadline now) = true.
Proof.
  intros H. apply negb_true_iff. destruct (Qle_bool deadline now) eqn:E; [| reflexivity].
  apply Qle_bool_iff in E. now apply Qlt_not_le in H.
Qed.

Lemma at_deadline (deadline now : Q) :
  (deadline <= now)%Q -> negb (Qle_bool deadline now) = false.
Proof. intros H. apply negb_false_iff. now apply Qle_bool_iff. Qed.

Section Polling.
Variables (cfg : ASRConfig) (resource request_id : string).
Variables (deadline : Q) (errors : list string).

Let query : request := query_request cfg resource request_id.

(** The deadline has come: the [else] of the [while] raises. *)
Lemma query_loop_timeout (fuel : nat) (now : Q) (rs : list response) (cl : list Q)
    (us : list string) (st : list request) (sl : list Z) :
  (deadline <= now)%Q ->
  query_loop (S fuel) cfg resource request_id deadline errors
    (VideoSpec.world_of rs (now :: cl) us st sl)
  = (Throw (VolcAPIError (timeout_message cfg resource)),
     VideoSpec.world_of rs cl us st sl).
Proof.
  intros H. rewrite query_loop_succ. unfold bind at 1.
  cbn [time_time VideoSpec.world_of clock]. now rewrite (at_deadline _ _ H).
Qed.

Lemma query_loop_turn (fuel : nat) (now : Q) (resp : response)
    (rs : list response) (cl : list Q)
    (us : list string) (st : list request) (sl : list Z) :
  (now < deadline)%Q ->
  query_loop (S fuel) cfg resource request_id deadline errors
    (VideoSpec.world_of (resp :: rs) (now :: cl) us st sl)
  = query_answer cfg resource resp errors
      (query_loop fuel cfg resource request_id deadline errors)
      (VideoSpec.world_of rs cl us (st ++ [query]) sl).
Proof.
  intros H. rewrite query_loop_succ. unfold bind at 1.
  cbn [time_time VideoSpec.world_of clock]. now rewrite (before_deadline _ _ H).
Qed.

(** The loop through turns that all find the task processed before
    the deadline: as many queries, each followed by a sleep of one
    second. *)
Lemma query_loop_processing (turns : list (Q * response)) :
  forall (fuel : nat) (rs : list response) (cl : list Q)
         (us : list string) (st : list request) (sl : list Z),
    Forall (keeps_polling deadline) turns ->
    query_loop (length turns + fuel) cfg resource request_id deadline errors
      (VideoSpec.world_of (map snd turns ++ rs) (map fst turns ++ cl) us st sl)
    = query_loop fuel cfg resource request_id deadline errors
        (VideoSpec.world_of rs cl us
           (st ++ repeat query (length turns))
           (sl ++ repeat 1%Z (length turns))).
Proof.
  induction turns as [|[now resp] turns IH]; intros fuel rs cl us st sl Hall.
  - cbn. now rewrite !app_nil_r.
  - apply Forall_cons in Hall as [[Hnow Hproc] Hall]. cbn [fst snd] in *.
    cbn [length map app fst snd Nat.add].
    rewrite query_loop_turn by exact Hnow.
    rewrite query_answer_processing by exact Hproc.
    rewrite IH by exact Hall. cbn [repeat]. now rewrite <- !app_assoc.
Qed.

(** When the polling ends by [break], a permission-class failure of a
    query was recorded, and every request on the way was a query for
    this candidate with this request id. *)
Lemma query_loop_break (fuel : nat) :
  forall (w w' : World) (errors' : list string),
    query_loop fuel cfg resource request_id deadline errors w
      = (Return (QueryBreak, errors'), w') ->
    exists resp n,
      query_refused resp
      /\ errors' = errors ++ [try_error_entry "query" resource resp]
      /\ sent w' = sent w ++ repeat query (S n).
Proof.
  induction fuel as [|fuel IH]; intros w w' errors' H; [discriminate H |].
  rewrite query_loop_succ in H.
  apply bind_return_inv in H as (now & w1 & Htime & H).
  unfold time_time in Htime. destruct (clock w) as [|t cl] eqn:Ec; [discriminate |].
  injection Htime as <- <-.
  destruct (negb (Qle_bool deadline t)); [| discriminate H].
  apply bind_return_inv in H as (resp & w2 & Hsend & H).
  unfold send in Hsend. cbn [responses] in Hsend.
  destruct (responses w) as [|r rs]; [discriminate |].
  injection Hsend as <- <-.
  apply query_answer_break in H as [(Href & -> & Hw)|[_ H]].
  - subst w'. exists r, 0. split; [exact Href |]. split; reflexivity.
  - cbn [responses clock uuids sent slept] in H.
    apply IH in H as (resp' & n & Href & -> & Hsent).
    exists resp', (S n). split; [exact Href |]. split; [reflexivity |].
    rewrite Hsent. cbn [sent repeat]. now rewrite <- app_assoc.
Qed.
End Polling.

(** *** The standard path: the loop over the candidates *)

Section SubmitAnswer.
Variables (cfg : ASRConfig) (resource : string) (resp : response).
Variables (errors : list string).
Variables continue_ poll : list string -> M World (option json * list string).

Let recorded : list string := errors ++ [try_error_entry "submit" resource resp].

Lemma submit_answer_denied (w : World) :
  denied resp ->
  submit_answer cfg resource resp errors continue_ poll w = continue_ recorded w.
Proof.
  intros [Hge Hperm]. unfold submit_answer.
  rewrite (proj2 (Z.leb_le _ _) Hge), bind_of_result, Hperm. reflexivity.
Qed.

Lemma submit_answer_accepted (w : World) :
  submit_accepted resp ->
  submit_answer cfg resource resp errors continue_ poll w = poll errors w.
Proof.
  intros [Hlt Hs]. unfold submit_answer.
  rewrite (proj2 (Z.leb_gt _ _) Hlt), bind_of_result.
  destruct Hs as [-> | ->]; reflexivity.
Qed.

Lemma submit_answer_return (w w' : World) (r : option json * list string) :
  submit_answer cfg resource resp errors continue_ poll w = (Return r, w') ->
  (submit_refused resp /\ continue_ recorded w = (Return r, w'))
  \/ (submit_accepted resp /\ poll errors w = (Return r, w')).
Proof.
  unfold submit_answer, submit_refused, submit_accepted, denied, business_refused.
  destruct (Z.leb_spec 400 (status_code resp)) as [Hge|Hlt].
  - rewrite bind_of_result.
    destruct (_is_permission_response resp) as [[|]|e]; try discriminate.
    intros H. left. tauto.
  - rewrite bind_of_result.
    destruct (_extract_status_code resp) as [s|e]; [| discriminate].
    destruct (PyStr.truthy s && negb (String.eqb s "20000000")) eqn:Et.
    + rewrite bind_of_result.
      destruct (_extract_status_message resp) as [m|e]; [| discriminate].
      destruct (_is_permission_message m) eqn:Em; [| discriminate].
      intros H. left. split; [| exact H]. right. split; [exact Hlt |].
      apply business_test in Et as [? ?]. now exists s, m.
    + apply business_test_false in Et. intros H. right.
      split; [| exact H]. split; [exact Hlt |]. destruct Et as [-> | ->]; tauto.
Qed.
End SubmitAnswer.

Lemma standard_loop_cons (cfg : ASRConfig) (audio_b64 audio_format resource : string)
    (rest errors : list string) :
  standard_loop cfg audio_b64 audio_format (resource :: rest) errors
  = bind uuid4
      (fun request_id =>
         bind (send (ASRSpec.submit_request cfg audio_b64 audio_format resource
                       request_id))
           (fun submit_resp =>
              submit_answer cfg resource submit_resp errors
                (standard_loop cfg audio_b64 audio_format rest)
                (fun tried_errors =>
                   bind (poll_candidate cfg resource request_id tried_errors)
                     (fun exit =>
                        match exit with
                        | (QueryReturn payload, tried_errors) =>
                            ret (Some payload, tried_errors)
                        | (QueryBreak, tried_errors) =>
                            standard_loop cfg audio_b64 audio_format rest tried_errors
                        end)))).
Proof. reflexivity. Qed.

Lemma map_repeat {A B : Type} (f : A -> B) (x : A) (n : nat) :
  map f (repeat x n) = repeat (f x) n.
Proof. induction n as [|n IH]; [reflexivity |]. cbn. now rewrite IH. Qed.

Lemma poll_candidate_break (cfg : ASRConfig) (resource request_id : string)
    (errors errors' : list string) (w w' : World) :
  poll_candidate cfg resource request_id errors w = (Return (QueryBreak, errors'), w') ->
  exists resp n,
    query_refused resp
    /\ errors' = errors ++ [try_error_entry "query" resource resp]
    /\ sent w' = sent w ++ repeat (query_request cfg resource request_id) (S n).
Proof.
  unfold poll_candidate. intros H.
  apply bind_return_inv in H as (start & w1 & Htime & H).
  unfold time_time in Htime. destruct (clock w) as [|t cl]; [discriminate |].
  injection Htime as <- <-.
  apply bind_return_inv in H as (fuel & w2 & Hfuel & H).
  injection Hfuel as <- <-.
  apply query_loop_break in H. exact H.
Qed.

(** The standard path gives up ([None]) only after a permission-class
    failure of every candidate, at its submission or at one of its
    queries; the requests go candidate by candidate, in their order. *)
Lemma standard_loop_none (cfg : ASRConfig) (audio_b64 audio_format : string)
    (candidates : list string) :
  forall (errors errors' : list string) (w w' : World),
    standard_loop cfg audio_b64 audio_format candidates errors w
      = (Return (None, errors'), w') ->
    exists attempts groups,
      map attempt_resource attempts = candidates
      /\ Forall standard_refused attempts
      /\ errors' = errors ++ trace attempts
      /\ map fst groups = candidates
      /\ Forall (fun g => 1 <= snd g) groups
      /\ map resource_of (sent w') = map resource_of (sent w) ++ grouped groups.
Proof.
  induction candidates as [|c rest IH]; intros errors errors' w w' H.
  - injection H as <- <-. exists [], []. cbn. rewrite !app_nil_r. now repeat split.
  - rewrite standard_loop_cons in H.
    apply bind_return_inv in H as (rid & w1 & Hid & H).
    unfold uuid4 in Hid. destruct (uuids w) as [|u us]; [discriminate |].
    injection Hid as <- <-.
    apply bind_return_inv in H as (resp & w2 & Hsend & H).
    unfold send in Hsend. cbn [responses sent clock uuids slept] in Hsend.
    destruct (responses w) as [|r rs]; [discriminate |].
    injection Hsend as <- <-.
    apply submit_answer_return in H as [[Href H]|[_ H]].
    + apply IH in H as (attempts & groups & Hres & Hall & -> & Hg & Hpos & Hsent).
      exists (("submit", c, r) :: attempts), ((c, 1) :: groups).
      repeat apply conj.
      * cbn. now rewrite Hres.
      * apply List.Forall_cons; [left; now split | exact Hall].
      * cbn [trace map fst snd]. now rewrite <- app_assoc.
      * cbn. now rewrite Hg.
      * apply List.Forall_cons; [cbn; lia | exact Hpos].
      * rewrite Hsent. cbn [sent]. rewrite map_app, <- app_assoc. reflexivity.
    + apply bind_return_inv in H as ([exit errors2] & w3 & Hpoll & H).
      destruct exit as [payload|]; [discriminate H |].
      apply poll_candidate_break in Hpoll as (resp' & n & Href & -> & Hs3).
      apply IH in H as (attempts & groups & Hres & Hall & -> & Hg & Hpos & Hsent).
      exists (("query", c, resp') :: attempts), ((c, S (S n)) :: groups).
      repeat apply conj.
      * cbn. now rewrite Hres.
      * apply List.Forall_cons; [right; now split | exact Hall].
      * cbn [trace map fst snd]. now rewrite <- app_assoc.
      * cbn. now rewrite Hg.
      * apply List.Forall_cons; [cbn; lia | exact Hpos].
      * rewrite Hsent, Hs3. cbn [sent].
        rewrite !map_app, map_repeat, <- !app_assoc. reflexivity.
Qed.

(** Answers that all deny the resource carry the standard path through
    every candidate. *)
Lemma standard_loop_denied (cfg : ASRConfig) (audio_b64 audio_format : string)
    (attempts : list (string * string * response)) :
  forall (errors : list string) (rs : list response) (cl : list Q)
         (us : list string) (st : list request) (sl : list Z),
    Forall (fun a => denied (snd a)) attempts ->
    standard_loop cfg audio_b64 audio_format (map attempt_resource attempts) errors
      (VideoSpec.world_of (map snd attempts ++ rs) cl
         (map attempt_request_id attempts ++ us) st sl)
    = (Return (None,
               errors ++ trace (map (fun a => ("submit", attempt_resource a, snd a))
                                    attempts)),
       VideoSpec.world_of rs cl us
         (st ++ map (fun a => ASRSpec.submit_request cfg audio_b64 audio_format
                                (attempt_resource a) (attempt_request_id a))
                    attempts)
         sl).
Proof.
  induction attempts as [|[[u c] resp] attempts IH]; intros errors rs cl us st sl Hall.
  - cbn. now rewrite !app_nil_r.
  - apply Forall_cons in Hall as [Hd Hall].
    cbn [map fst snd app attempt_resource attempt_request_id] in *.
    rewrite standard_loop_cons. unfold bind at 1 2.
    cbn [uuid4 send VideoSpec.world_of uuids responses clock sent slept].
    rewrite submit_answer_denied by exact Hd.
    rewrite IH by exact Hall. cbn [trace map fst snd]. now rewrite <- !app_assoc.
Qed.

(** An accepted submission starts the polling of the candidate. *)
Lemma standard_loop_accepted (cfg : ASRConfig) (audio_b64 audio_format : string)
    (c : string) (rest errors : list string) (resp : response) (start : Q)
    (rs : list response) (cl : list Q) (rid : string) (us : list string)
    (st : list request) (sl : list Z) :
  submit_accepted resp ->
  standard_loop cfg audio_b64 audio_format (c :: rest) errors
    (VideoSpec.world_of (resp :: rs) (start :: cl) (rid :: us) st sl)
  = bind (query_loop (length cl) cfg c rid (deadline_from cfg start) errors)
      (fun exit =>
         match exit with
         | (QueryReturn payload, tried_errors) => ret (Some payload, tried_errors)
         | (QueryBreak, tried_errors) =>
             standard_loop cfg audio_b64 audio_format rest tried_errors
         end)
      (VideoSpec.world_of rs cl us
         (st ++ [ASRSpec.submit_request cfg audio_b64 audio_format c rid]) sl).
Proof.
  intros Hacc. rewrite standard_loop_cons. unfold bind at 1 2.
  cbn [uuid4 send VideoSpec.world_of uuids responses clock sent slept].
  rewrite submit_answer_accepted by exact Hacc. reflexivity.
Qed.

End ASRLoopFacts.

(** ** Speech recognition: the claims *)
Module ASRClaims.
Import Http ASRClient ASRSpec Effects PyStrFacts ASRCandidateFacts ASRLoopFacts.
Import VideoSpec (world_of).

Lemma credentials_test (cfg : ASRConfig) :
  has_credentials cfg ->
  negb (PyStr.truthy (appid cfg)) || negb (PyStr.truthy (access_token cfg)) = false.
Proof.
  intros [Ha Ht]. apply truthy_true in Ha, Ht. now rewrite Ha, Ht.
Qed.

Lemma message_names_candidates (candidates errors : list string) (c : string) :
  In c candidates ->
  PyStr.contains c (not_granted_message candidates errors) = true.
Proof.
  intros H. unfold not_granted_message.
  apply contains_app_r, contains_app_r, contains_app_l.
  now apply contains_join.
Qed.

Lemma message_holds_details (candidates errors : list string) :
  PyStr.contains (PyStr.take 1400 (PyStr.join " | " errors))
    (not_granted_message candidates errors) = true.
Proof.
  unfold not_granted_message.
  do 5 apply contains_app_r. apply contains_here.
Qed.

Lemma asked_snoc {A : Type} (l : list A) (x y : A) (n : nat) :
  (l ++ x :: repeat y n) ++ [y] = l ++ x :: repeat y (S n).
Proof.
  rewrite <- app_assoc. f_equal. cbn [app]. f_equal.
  apply VideoPollFacts.repeat_snoc.
Qed.

Section Recognize.
Variable b64encode : string -> string.
Variables (cfg : ASRConfig) (audio_file data : string).

Let candidates : list string := _candidate_resource_ids cfg.
Let audio_b64 : string := b64encode data.

Lemma recognize_unfold (w : World) :
  has_credentials cfg ->
  recognize b64encode cfg audio_file (Some data) w
  = bind (_recognize_flash cfg candidates audio_b64 [])
      (fun flash =>
         match flash with
         | (Some flash_payload, _) => ret flash_payload
         | (None, tried_errors) =>
             bind (_recognize_standard cfg audio_file audio_b64 candidates
                     tried_errors)
               (fun standard =>
                  match standard with
                  | (Some standard_payload, _) => ret standard_payload
                  | (None, tried_errors) =>
                      throw (VolcAPIError
                               (not_granted_message candidates tried_errors))
                  end)
         end) w.
Proof. intros H. unfold recognize. now rewrite (credentials_test _ H). Qed.

Lemma recognize_not_granted (w w1 w2 : World) (e1 e2 : list string) :
  has_credentials cfg ->
  _recognize_flash cfg candidates audio_b64 [] w = (Return (None, e1), w1) ->
  _recognize_standard cfg audio_file audio_b64 candidates e1 w1
    = (Return (None, e2), w2) ->
  recognize b64encode cfg audio_file (Some data) w
  = (Throw (VolcAPIError (not_granted_message candidates e2)), w2).
Proof.
  intros Hc Hf Hs. rewrite recognize_unfold by exact Hc.
  rewrite (bind_return _ _ _ _ _ Hf). cbv beta iota.
  now rewrite (bind_return _ _ _ _ _ Hs).
Qed.
End Recognize.



(** *** The deadline of the standard path *)

(** C2, as worded, fails: when the deadline of a candidate passes, the
    timeout error ends the whole client. Here the three fast-path requests
    are denied, the first submission of the standard path is accepted, and
    the clock then reads the deadline: [recognize] raises the timeout
    error after that single submission, and the answers that the other
    two candidates would have received stay unread. *)
Lemma recognize_timeout_is_fatal :
  let cfg := {| base_url := "https://openspeech"; appid := "app"; access_token := "tok";
                resource_id := ""; boosting_table_name := "";
                timeout_s := 1; system_prompt := "" |} in
  let no_grant := {| status_code := 403; text := "requested resource not granted";
                     headers := []; json_body := DecodeError "no json" |} in
  let accepted := {| status_code := 200; text := "{}";
                     headers := [("X-Api-Status-Code", "20000000")];
                     json_body := Decoded (JObj []) |} in
  let done := {| status_code := 200; text := "";
                 headers := [("X-Api-Status-Code", "20000000")];
                 json_body := Decoded (JObj [("result", JObj [("text", JStr "hi")])]) |} in
  let run :=
    recognize (fun bytes => bytes) cfg "/jobs/j1/asr_clip.wav" (Some "RIFF")
      (world_of [no_grant; no_grant; no_grant; accepted; accepted; done]
         [0; 5; 6; 7]%Q ["u1"; "u2"; "u3"; "u4"; "u5"; "u6"] [] []) in
  _candidate_resource_ids cfg
    = ["volc.bigasr.auc_turbo"; "volc.seedasr.auc"; "volc.bigasr.auc"]
  /\ fst run
     = Throw (VolcAPIError
                "ASR standard query timed out after 1s (resource_id=volc.bigasr.auc_turbo)")
  /\ map resource_of (sent (snd run))
     = ["volc.bigasr.auc_turbo"; "volc.seedasr.auc"; "volc.bigasr.auc";
        "volc.bigasr.auc_turbo"]
  /\ responses (snd run) = [accepted; done]
  /\ fst (_recognize_standard cfg "/jobs/j1/asr_clip.wav" "RIFF"
            ["volc.seedasr.auc"; "volc.bigasr.auc"] []
            (world_of [accepted; done] [6; 7]%Q ["u5"; "u6"] [] []))
     = Return (Some (JObj [("result", JObj [("text", JStr "hi")])]), []).
Proof. cbv zeta. repeat split. Qed.

(** C2, amended. On the standard path, once the submission of a candidate
    is accepted, the request id of that submission is queried again and
    again while the clock reads less than the deadline (the start of the
    polling plus max(5, timeout_s) seconds), with a sleep of one second
    after each answer that says processing. A terminal business status
    (or none) returns the document of the answer. When the clock reaches
    the deadline, a timeout error is raised; it is not caught: it ends the
    standard path and the whole client, and no later candidate is tried. *)
Theorem standard_path_polling
    (cfg : ASRConfig) (audio_file audio_b64 c : string) (rest errors : list string)
    (rid : string) (submit_resp : response) (start : Q) (turns : list (Q * response))
    (us : list string) (st : list request) (sl : list Z) :
  let deadline := deadline_from cfg start in
  let before rs cl :=
    world_of (submit_resp :: map snd turns ++ rs) (start :: map fst turns ++ cl)
      (rid :: us) st sl in
  let run rs cl :=
    _recognize_standard cfg audio_file audio_b64 (c :: rest) errors (before rs cl) in
  let asked k :=
    st ++ ASRSpec.submit_request cfg audio_b64 (_guess_audio_format audio_file) c rid
       :: repeat (query_request cfg c rid) k in
  let rested := sl ++ repeat 1%Z (length turns) in
  submit_accepted submit_resp ->
  Forall (keeps_polling deadline) turns ->
  (forall now resp payload rs cl,
      (now < deadline)%Q -> terminal resp payload ->
      run (resp :: rs) (now :: cl)
      = (Return (Some payload, errors),
         world_of rs cl us (asked (S (length turns))) rested))
  /\ (forall now rs cl,
        (deadline <= now)%Q ->
        run rs (now :: cl)
        = (Throw (VolcAPIError (timeout_message cfg c)),
           world_of rs cl us (asked (length turns)) rested))
  /\ (forall (b64encode : string -> string) (data : string) (w0 : World) now rs cl,
        has_credentials cfg ->
        _candidate_resource_ids cfg = c :: rest ->
        audio_b64 = b64encode data ->
        _recognize_flash cfg (c :: rest) audio_b64 [] w0
          = (Return (None, errors), before rs (now :: cl)) ->
        (deadline <= now)%Q ->
        recognize b64encode cfg audio_file (Some data) w0
        = (Throw (VolcAPIError (timeout_message cfg c)),
           world_of rs cl us (asked (length turns)) rested)).
Proof.
  intros deadline before run asked rested Hacc Hall.
  assert (Hpoll : forall rs cl,
    run rs cl
    = bind (query_loop (length cl) cfg c rid deadline errors)
        (fun exit =>
           match exit with
           | (QueryReturn payload, tried_errors) => ret (Some payload, tried_errors)
           | (QueryBreak, tried_errors) =>
               standard_loop cfg audio_b64 (_guess_audio_format audio_file) rest
                 tried_errors
           end)
        (world_of rs cl us (asked (length turns)) rested)).
  { intros rs cl. subst run before. cbv beta. unfold _recognize_standard.
    rewrite standard_loop_accepted by exact Hacc.
    unfold bind. rewrite length_app, length_map.
    fold deadline. rewrite query_loop_processing by exact Hall.
    subst asked rested. cbv beta.
    now rewrite <- app_assoc. }
  assert (Htimeout : forall now rs cl,
    (deadline <= now)%Q ->
    run rs (now :: cl)
    = (Throw (VolcAPIError (timeout_message cfg c)),
       world_of rs cl us (asked (length turns)) rested)).
  { intros now rs cl Hlate. rewrite Hpoll. cbn [length].
    erewrite bind_throw by (apply query_loop_timeout; exact Hlate). reflexivity. }
  split; [| split].
  - intros now resp payload rs cl Hnow Hterm. rewrite Hpoll. cbn [length].
    erewrite bind_return.
    2: { rewrite query_loop_turn by exact Hnow.
         apply query_answer_terminal. exact Hterm. }
    cbv beta iota. subst asked. cbv beta. unfold ret.
    rewrite <- asked_snoc. reflexivity.
  - exact Htimeout.
  - intros b64encode data w0 now rs cl Hc Hcands -> Hflash Hlate.
    rewrite recognize_unfold by exact Hc. rewrite Hcands.
    rewrite (bind_return _ _ _ _ _ Hflash). cbv beta iota.
    erewrite bind_throw by (apply Htimeout; exact Hlate). reflexivity.
Qed.

(** A submission is accepted, one query finds the task processed, and
    the next reading of the clock is the deadline (five seconds after the
    start, the configured timeout being one second). *)
Lemma standard_path_polling_witness :
  let cfg := {| base_url := "https://openspeech"; appid := "app"; access_token := "tok";
                resource_id := ""; boosting_table_name := "";
                timeout_s := 1; system_prompt := "" |} in
  let accepted := {| status_code := 200; text := "{}";
                     headers := [("X-Api-Status-Code", "20000000")];
                     json_body := Decoded (JObj []) |} in
  let busy := {| status_code := 200; text := "{}";
                 headers := [("X-Api-Status-Code", "20000001")];
                 json_body := Decoded (JObj []) |} in
  _recognize_standard cfg "/jobs/j1/asr_clip.wav" "UklGRg==" ["a"; "b"] []
    (world_of [accepted; busy; accepted] [0; 1; 5; 6]%Q ["u1"; "u2"] [] [])
  = (Throw (VolcAPIError "ASR standard query timed out after 1s (resource_id=a)"),
     world_of [accepted] [6%Q] ["u2"]
       [ASRSpec.submit_request cfg "UklGRg==" "wav" "a" "u1";
        query_request cfg "a" "u1"] [1%Z]).
Proof.
  cbv zeta.
  refine (proj1 (proj2 (standard_path_polling _ "/jobs/j1/asr_clip.wav" "UklGRg=="
                          "a" ["b"] [] "u1" _ 0%Q [(1%Q, _)] ["u2"] [] [] _ _))
            5%Q [_] [6%Q] _).
  - split; [reflexivity | right; reflexivity].
  - apply List.Forall_cons; [| apply List.Forall_nil].
    split; [reflexivity | split; reflexivity].
  - vm_compute. discriminate.
Defined.

End ASRClaims.

(** ** The pipeline: what each statement does to the job *)
Module PipelineFacts.
Import Stage Repository Media Pipeline PipelineSpec Effects PyStrFacts.

Lemma close_open (s : system) : close_session (open_session s) = s.
Proof. now destruct s. Qed.

Lemma join_inj (d n n' : string) : Path.join d n = Path.join d n' -> n = n'.
Proof.
  unfold Path.join. intros H. apply append_inj_l in H. apply (append_inj_l "/") in H.
  exact H.
Qed.

Lemma outside_ne (d p n : string) : outside d p -> p <> Path.join d n.
Proof.
  unfold outside, Path.join. intros H ->.
  rewrite <- append_assoc, prefix_app in H. discriminate H.
Qed.

Lemma parent_join (d n : string) :
  PyStr.contains "/" n = false -> Path.parent (Path.join d n) = d.
Proof.
  intros Hn. unfold Path.join. induction d as [|c d IH].
  - rewrite append_nil_l. change ("/" +:+ n) with (String "/" n).
    cbn [Path.parent]. now rewrite Hn.
  - rewrite append_cons. cbn [Path.parent].
    rewrite contains_app_r by apply contains_here.
    now rewrite IH.
Qed.

Lemma should_run_spec (s stage : JobStatus) (run : bool) :
  _should_run_stage s stage = Ok run -> run = negb (before stage s).
Proof. destruct s, stage; vm_compute; intros H; congruence. Qed.

Lemma should_run_total (s stage : JobStatus) :
  In s STAGE_SEQUENCE -> In stage STAGE_SEQUENCE ->
  _should_run_stage s stage = Ok (negb (before stage s)).
Proof.
  intros Hs Hst. simpl in Hs, Hst.
  repeat (destruct Hs as [<- | Hs]); try destruct Hs;
    repeat (destruct Hst as [<- | Hst]); try destruct Hst; reflexivity.
Qed.

Lemma touches_refl (d : string) (names : list string) (f : gmap string string) :
  touches d names f f.
Proof. now intros p _. Qed.

Lemma touches_insert (d : string) (names : list string) (f f1 : gmap string string)
    (n c : string) :
  In n names -> touches d names f f1 -> touches d names f (<[Path.join d n := c]> f1).
Proof.
  intros Hn H p Hp. rewrite lookup_insert_ne; [now apply H |].
  intros <-. now apply (Hp n).
Qed.

Lemma touches_trans (d : string) (names : list string) (f f1 f2 : gmap string string) :
  touches d names f f1 -> touches d names f1 f2 -> touches d names f f2.
Proof. intros H1 H2 p Hp. now rewrite H2, H1. Qed.

Lemma touches_outside (d : string) (names : list string) (f f1 : gmap string string)
    (p : string) :
  touches d names f f1 -> outside d p -> f1 !! p = f !! p.
Proof. intros H Hp. apply H. intros n _. now apply outside_ne. Qed.

(** A file of the directory that is none of the [names]. *)
Lemma touches_other (d : string) (names : list string) (f f1 : gmap string string)
    (n : string) :
  touches d names f f1 -> ~ In n names -> f1 !! Path.join d n = f !! Path.join d n.
Proof.
  intros H Hn. apply H. intros n' Hn' Heq. apply join_inj in Heq. now subst.
Qed.

Lemma touches_mono (d : string) (names names' : list string)
    (f f1 : gmap string string) :
  (forall n, In n names -> In n names') ->
  touches d names f f1 -> touches d names' f f1.
Proof. intros Hi H p Hp. apply H. intros n Hn. apply Hp, Hi, Hn. Qed.

Lemma sets_mono (kinds kinds' : list string) (a a1 : gmap string string) :
  (forall k, In k kinds -> In k kinds') -> sets kinds a a1 -> sets kinds' a a1.
Proof. intros Hi H k Hk. apply H. intros Hin. apply Hk, Hi, Hin. Qed.

Lemma sets_trans (kinds : list string) (a a1 a2 : gmap string string) :
  sets kinds a a1 -> sets kinds a1 a2 -> sets kinds a a2.
Proof. intros H1 H2 k Hk. now rewrite H2, H1. Qed.

Lemma stage_files_job (stage : JobStatus) (n : string) :
  In n (stage_files stage) -> In n JOB_FILES.
Proof.
  intros H. destruct stage; simpl in H; try contradiction;
    unfold JOB_FILES; simpl; tauto.
Qed.

Lemma stage_kinds_job (stage : JobStatus) (k : string) :
  In k (stage_kinds stage) -> In k JOB_KINDS.
Proof.
  intros H. destruct stage; simpl in H; try contradiction;
    unfold JOB_KINDS; simpl; tauto.
Qed.

(** The files read from the parent are the files of the start. *)
Lemma taken_before (pa : gmap string string) (d : string) (names : list string)
    (f f' f1 a1 : gmap string string) (kind name : string) :
  (forall k p, pa !! k = Some p -> outside d p) ->
  touches d names f f' ->
  taken pa d f' f1 a1 kind name -> taken pa d f f1 a1 kind name.
Proof.
  intros Hout Ht (p & content & Hp & Hne & Hf & Hf1 & Ha). exists p, content.
  repeat split; try assumption.
  rewrite <- Hf. symmetry. eapply touches_outside; [exact Ht | eapply Hout, Hp].
Qed.

(** What a stage takes stays under the stages that write elsewhere. *)
Lemma taken_after (pa : gmap string string) (d : string) (names kinds : list string)
    (f f1 f2 a1 a2 : gmap string string) (kind name : string) :
  taken pa d f f1 a1 kind name ->
  touches d names f1 f2 -> sets kinds a1 a2 ->
  ~ In name names -> ~ In kind kinds ->
  taken pa d f f2 a2 kind name.
Proof.
  intros (p & content & Hp & Hne & Hf & Hf1 & Ha) Ht Hs Hn Hk. exists p, content.
  repeat split; try assumption.
  - now rewrite (touches_other _ _ _ _ _ Ht Hn).
  - now rewrite (Hs _ Hk).
Qed.

Lemma taken_if_there_before (pa : gmap string string) (d : string)
    (names : list string) (f f' f1 a1 : gmap string string) (kind name : string) :
  (forall k p, pa !! k = Some p -> outside d p) ->
  touches d names f f' ->
  taken_if_there pa d f' f1 a1 kind name -> taken_if_there pa d f f1 a1 kind name.
Proof.
  intros Hout Ht H p content Hp Hne Hf. apply (H p content Hp Hne).
  rewrite <- Hf. eapply touches_outside; [exact Ht | eapply Hout, Hp].
Qed.

Lemma taken_if_there_after (pa : gmap string string) (d : string)
    (names kinds : list string) (f f1 f2 a1 a2 : gmap string string)
    (kind name : string) :
  taken_if_there pa d f f1 a1 kind name ->
  touches d names f1 f2 -> sets kinds a1 a2 ->
  ~ In name names -> ~ In kind kinds ->
  taken_if_there pa d f f2 a2 kind name.
Proof.
  intros H Ht Hs Hn Hk p content Hp Hne Hf.
  destruct (H p content Hp Hne Hf) as (Hf1 & Ha). split.
  - now rewrite (touches_other _ _ _ _ _ Ht Hn).
  - now rewrite (Hs _ Hk).
Qed.

Lemma normalize_in_sequence (v : json) : In (_normalize_start_stage v) STAGE_SEQUENCE.
Proof.
  unfold _normalize_start_stage.
  destruct (List.find _ STAGE_SEQUENCE) as [x|] eqn:Hfind.
  - now apply List.find_some in Hfind as (Hin & _).
  - now left.
Qed.

Lemma expected_postprocess (s : JobStatus) :
  In s STAGE_SEQUENCE -> expected s POSTPROCESS = Ran.
Proof.
  intros H. simpl in H. repeat (destruct H as [<- | H]; [reflexivity |]). destruct H.
Qed.

Lemma sets_refl (kinds : list string) (a : gmap string string) : sets kinds a a.
Proof. now intros k _. Qed.

Lemma sets_insert (kinds : list string) (a a1 : gmap string string) (k v : string) :
  In k kinds -> sets kinds a a1 -> sets kinds a (<[k := v]> a1).
Proof.
  intros Hk H k' Hk'. rewrite lookup_insert_ne; [now apply H |].
  now intros <-.
Qed.

Lemma bind_assoc {S A B C : Type} (m : M S A) (k1 : A -> M S B) (k2 : B -> M S C)
    (s : S) :
  bind (bind m k1) k2 s = bind m (fun x => bind (k1 x) k2) s.
Proof. unfold bind. now destruct (m s) as [[x|err|] s1]. Qed.

Lemma step_ret {S B : Type} (x b : B) (st st2 : S) :
  ret x st = (Return b, st2) -> x = b /\ st = st2.
Proof. intros H. injection H as -> ->. now split. Qed.

Lemma of_result_state {S A : Type} (r : result A) (x : A) (st st1 : S) :
  of_result r st = (Return x, st1) -> r = Ok x /\ st1 = st.
Proof. destruct r as [y|err]; intros H; [| discriminate H]. now injection H as -> ->. Qed.

Lemma read_text_state (path msg t : string) (st st1 : pstate) :
  _read_text_or_fail path msg st = (Return t, st1) -> st1 = st.
Proof.
  cbv [bind _read_text_or_fail gets]. destruct (fs st !! path) as [text|];
    [| discriminate].
  destruct (PyStr.truthy (PyStr.strip text)); [| discriminate].
  intros H. now injection H as _ ->.
Qed.

Lemma join_ne (d n n' : string) : n <> n' -> Path.join d n <> Path.join d n'.
Proof. intros Hn H. now apply join_inj in H. Qed.

Lemma gets_bind {S A B : Type} (g : S -> A) (k : A -> M S B) (s : S) :
  bind (gets g) k s = k (g s) s.
Proof. reflexivity. Qed.

Lemma ret_bind {S A B : Type} (x : A) (k : A -> M S B) (s : S) :
  bind (ret x) k s = k x s.
Proof. reflexivity. Qed.

Lemma session_ok_bind {B : Type} (g : database -> database) (k : unit -> M pstate B)
    (st : pstate) :
  bind (on_session (fun db => Ok (g db))) k st = k tt (set_session st (g (session st))).
Proof. reflexivity. Qed.

Lemma commit_bind {B : Type} (k : unit -> M pstate B) (st : pstate) :
  bind commit k st
  = k tt {| saved := session st; session := session st; fs := fs st;
            world := world st |}.
Proof. reflexivity. Qed.

(** *** One statement at a time *)
Section Steps.
Variable J : string.
Context {B : Type}.
Variables (st st2 : pstate) (b : B).
Variables (a : gmap string string) (e : list JobEvent) (f : gmap string string).
Hypothesis Hs : snap J st a e f.

Lemma step_set_stage (status : JobStatus) (msg : string) (k : unit -> M pstate B) :
  PyStr.truthy msg = true ->
  bind (_set_stage J status msg) k st = (Return b, st2) ->
  exists st1, snap J st1 a (e ++ [event J status msg]) f
              /\ k tt st1 = (Return b, st2).
Proof.
  destruct Hs as ((j & Hj & Ha) & He & Hf).
  cbv [bind _set_stage on_session set_job_status get_job commit modify].
  rewrite Hj. intros Hm H. rewrite Hm in H. eexists. split; [| exact H].
  repeat split; cbn; [| now rewrite He | exact Hf].
  eexists. rewrite lookup_insert_eq. split; [reflexivity | exact Ha].
Qed.

Lemma end_set_stage (status : JobStatus) (msg : string) (u : unit) (st1 : pstate) :
  PyStr.truthy msg = true ->
  _set_stage J status msg st = (Return u, st1) ->
  snap J st1 a (e ++ [event J status msg]) f /\ saved st1 = session st1.
Proof.
  destruct Hs as ((j & Hj & Ha) & He & Hf).
  cbv [bind _set_stage on_session set_job_status get_job commit modify].
  rewrite Hj. intros Hm H. rewrite Hm in H. destruct u. injection H as <-.
  repeat split; cbn; [| now rewrite He | exact Hf].
  eexists. rewrite lookup_insert_eq. split; [reflexivity | exact Ha].
Qed.

Lemma step_save_artifact (kind path : string) (k : unit -> M pstate B) :
  bind (_save_artifact J kind path) k st = (Return b, st2) ->
  exists st1, snap J st1 (<[kind := path]> a) e f /\ k tt st1 = (Return b, st2).
Proof.
  destruct Hs as ((j & Hj & Ha) & He & Hf).
  cbv [bind _save_artifact on_session put_artifact get_job commit modify].
  rewrite Hj. cbn. intros H. eexists. split; [| exact H].
  repeat split; cbn; [| exact He | exact Hf].
  eexists. rewrite lookup_insert_eq. split; [reflexivity |]. cbn. now rewrite Ha.
Qed.

Lemma step_patch_meta (kw : list (string * json)) (k : unit -> M pstate B) :
  bind (on_session (fun db => patch_meta db J kw)) k st = (Return b, st2) ->
  exists st1, snap J st1 a e f /\ k tt st1 = (Return b, st2).
Proof.
  destruct Hs as ((j & Hj & Ha) & He & Hf).
  cbv [bind on_session patch_meta get_job].
  rewrite Hj. cbn. intros H. eexists. split; [| exact H].
  repeat split; cbn; [| exact He | exact Hf].
  eexists. rewrite lookup_insert_eq. split; [reflexivity | exact Ha].
Qed.

Lemma step_commit (k : unit -> M pstate B) :
  bind commit k st = (Return b, st2) ->
  exists st1, snap J st1 a e f /\ saved st1 = session st1
              /\ k tt st1 = (Return b, st2).
Proof.
  unfold bind, commit, modify. intros H. eexists. split; [| split; [| exact H]].
  - exact Hs.
  - reflexivity.
Qed.

Lemma step_write_file (path content : string) (k : unit -> M pstate B) :
  bind (write_file path content) k st = (Return b, st2) ->
  exists st1, snap J st1 a e (<[path := content]> f) /\ k tt st1 = (Return b, st2).
Proof.
  destruct Hs as (Hj & He & Hf).
  unfold bind, write_file, modify. intros H. eexists. split; [| exact H].
  repeat split; cbn; [exact Hj | exact He | now rewrite Hf].
Qed.

Lemma step_on_world {A : Type} (m : M Http.World A) (k : A -> M pstate B) :
  bind (on_world m) k st = (Return b, st2) ->
  exists x st1, snap J st1 a e f /\ k x st1 = (Return b, st2).
Proof.
  unfold bind, on_world. destruct (m (world st)) as [[x|err|] w]; intros H;
    try discriminate H.
  exists x. eexists. split; [| exact H]. exact Hs.
Qed.

Lemma step_of_result {A : Type} (r : result A) (k : A -> M pstate B) :
  bind (of_result r) k st = (Return b, st2) ->
  exists x, r = Ok x /\ k x st = (Return b, st2).
Proof.
  destruct r as [x|err]; intros H; [| discriminate H]. now exists x.
Qed.

Lemma step_gets {A : Type} (g : pstate -> A) (k : A -> M pstate B) :
  bind (gets g) k st = (Return b, st2) -> k (g st) st = (Return b, st2).
Proof. intros H. exact H. Qed.

Lemma step_copy2 (source target : string) (k : unit -> M pstate B) :
  bind (copy2 source target) k st = (Return b, st2) ->
  exists content st1,
    f !! source = Some content /\ source <> target
    /\ snap J st1 a e (<[target := content]> f) /\ k tt st1 = (Return b, st2).
Proof.
  destruct Hs as (Hj & He & Hf).
  cbv [bind copy2]. rewrite Hf. destruct (f !! source) as [content|]; [| discriminate].
  destruct (String.eqb_spec source target) as [| Hne]; [discriminate |].
  intros H. exists content, (set_fs st (<[target := content]> f)).
  repeat split; [exact Hne | exact Hj | exact He | exact H].
Qed.

Lemma step_read_text (path msg : string) (k : string -> M pstate B) :
  bind (_read_text_or_fail path msg) k st = (Return b, st2) ->
  exists t, k t st = (Return b, st2).
Proof.
  cbv [bind _read_text_or_fail gets]. destruct (fs st !! path) as [text|];
    [| discriminate].
  destruct (PyStr.truthy (PyStr.strip text)); [| discriminate].
  intros H. now exists (PyStr.strip text).
Qed.

End Steps.

(** *** The same statements, forward *)
Section Forward.
Variable J : string.
Variables (st : pstate).
Variables (a : gmap string string) (e : list JobEvent) (f : gmap string string).
Hypothesis Hs : snap J st a e f.

Lemma set_stage_returns (status : JobStatus) (msg : string) :
  PyStr.truthy msg = true ->
  exists st1, _set_stage J status msg st = (Return tt, st1)
              /\ snap J st1 a (e ++ [event J status msg]) f.
Proof.
  intros Hm. destruct (_set_stage J status msg st) as [r st1] eqn:H.
  assert (r = Return tt) as ->.
  { revert H. destruct Hs as ((j & Hj & _) & _).
    cbv [bind _set_stage on_session set_job_status get_job commit modify].
    rewrite Hj. now intros [= <- _]. }
  exists st1. split; [reflexivity |].
  now apply (end_set_stage J st a e f Hs status msg tt st1 Hm).
Qed.

Lemma save_artifact_returns (kind path : string) :
  exists st1, _save_artifact J kind path st = (Return tt, st1)
              /\ snap J st1 (<[kind := path]> a) e f.
Proof.
  destruct Hs as ((j & Hj & Ha) & He & Hf).
  cbv [bind _save_artifact on_session put_artifact get_job commit modify].
  rewrite Hj. eexists. split; [reflexivity |].
  repeat split; cbn; [| exact He | exact Hf].
  eexists. rewrite lookup_insert_eq. split; [reflexivity |]. cbn. now rewrite Ha.
Qed.

End Forward.

Section ForwardReuse.
Variable J : string.
Variables (st : pstate).
Variables (a : gmap string string) (e : list JobEvent) (f : gmap string string).
Hypothesis Hs : snap J st a e f.

(** The reuse of an artifact that is not required returns. *)
Lemma reuse_optional_returns (P : string) (pa : gmap string string)
    (kind target : string) :
  (forall p, pa !! kind = Some p -> p <> target) ->
  exists r st1 a1 f1,
    _reuse_parent_artifact J P pa kind target false st = (Return r, st1)
    /\ snap J st1 a1 e f1
    /\ (forall q, q <> target -> f1 !! q = f !! q).
Proof.
  intros Hne. unfold _reuse_parent_artifact.
  destruct (pa !! kind) as [[|c p]|] eqn:Hk;
    try (exists None, st, a, f; split; [reflexivity | split; [exact Hs | now intros]]).
  pose proof Hs as (Hj & He & Hf).
  rewrite (bind_return _ _ st st (bool_decide (is_Some (f !! String c p))))
    by (unfold gets; now rewrite Hf).
  destruct (f !! String c p) as [content|] eqn:Hfile.
  - rewrite bool_decide_eq_true_2 by eauto.
    assert (Hs1 : snap J (set_fs st (<[target := content]> f)) a e
                    (<[target := content]> f)) by now repeat split.
    destruct (save_artifact_returns _ _ _ _ _ Hs1 kind target) as (st1 & Hsave & Hs1').
    rewrite (bind_return _ _ st (set_fs st (<[target := content]> f)) tt).
    2:{ unfold copy2. rewrite Hf, Hfile.
        now rewrite (proj2 (String.eqb_neq _ _) (Hne _ eq_refl)). }
    rewrite (bind_return _ _ _ _ _ Hsave).
    exists (Some target), st1. eexists _, _. split; [reflexivity |].
    split; [exact Hs1' |]. intros q Hq. now rewrite lookup_insert_ne.
  - rewrite bool_decide_eq_false_2 by (intros [? ?]; discriminate).
    exists None, st, a, f. split; [reflexivity | split; [exact Hs | now intros]].
Qed.

End ForwardReuse.

Section Reuse.
Variable J : string.
Context {B : Type}.
Variables (st st2 : pstate) (b : B).
Variables (a : gmap string string) (e : list JobEvent) (f : gmap string string).
Hypothesis Hs : snap J st a e f.

Lemma step_reuse (P : string) (pa : gmap string string) (kind target : string)
    (required : bool) (k : option string -> M pstate B) :
  bind (_reuse_parent_artifact J P pa kind target required) k st = (Return b, st2) ->
  (exists p content st1,
      pa !! kind = Some p /\ p <> "" /\ f !! p = Some content /\ p <> target
      /\ snap J st1 (<[kind := target]> a) e (<[target := content]> f)
      /\ k (Some target) st1 = (Return b, st2))
  \/ (required = false
      /\ (forall p, pa !! kind = Some p -> p <> "" -> f !! p = None)
      /\ k None st = (Return b, st2)).
Proof.
  unfold _reuse_parent_artifact.
  destruct (pa !! kind) as [[|c p]|] eqn:Hk.
  - destruct required; [discriminate |]. intros H. right.
    repeat split; [| exact H]. intros p Hp Hne. now injection Hp as <-.
  - rewrite bind_assoc. intros H. apply step_gets in H.
    pose proof Hs as (_ & _ & Hf). rewrite Hf in H.
    destruct (f !! String c p) as [content|] eqn:Hfile.
    + rewrite bool_decide_eq_true_2 in H by eauto.
      rewrite bind_assoc in H.
      eapply step_copy2 in H; [| exact Hs].
      destruct H as (content' & st1 & Hc & Hne & Hs1 & H).
      rewrite bind_assoc in H.
      eapply step_save_artifact in H; [| exact Hs1].
      destruct H as (st1' & Hs1' & H).
      left. exists (String c p), content', st1'.
      repeat split; [discriminate | congruence | exact Hne | apply Hs1' ..| exact H].
    + rewrite bool_decide_eq_false_2 in H by (intros [? ?]; discriminate).
      destruct required; [discriminate H |]. right.
      repeat split; [| exact H]. intros p' Hp' _. now injection Hp' as <-.
  - destruct required; [discriminate |]. intros H. right.
    repeat split; [| exact H]. intros p Hp. discriminate Hp.
Qed.

End Reuse.

Section Tools.
Variable env : Env.
Variable J : string.
Context {B : Type}.
Variables (st st2 : pstate) (b : B).
Variables (a : gmap string string) (e : list JobEvent) (f : gmap string string).
Hypothesis Hs : snap J st a e f.

Lemma step_run_tool (cmd : ffmpeg_cmd) (out : string) (k : unit -> M pstate B) :
  bind (run_tool env cmd out) k st = (Return b, st2) ->
  exists content st1,
    snap J st1 a e (<[out := content]> f) /\ k tt st1 = (Return b, st2).
Proof.
  unfold run_tool. rewrite bind_assoc. intros H. apply step_gets in H.
  rewrite bind_assoc in H. apply step_of_result in H as (content & _ & H).
  eapply step_write_file in H; [| exact Hs]. destruct H as (st1 & Hs1 & H).
  now exists content, st1.
Qed.

Lemma step_probe (path : string) (k : VideoMeta -> M pstate B) :
  bind (probe env path) k st = (Return b, st2) ->
  exists m, k m st = (Return b, st2).
Proof.
  unfold probe. rewrite bind_assoc. intros H. apply step_gets in H.
  change (bind (of_result ?r) ?k0) with (bind (of_result r) (fun x => k0 x)) in H.
  destruct (probe_video (tools env) (fs st) path) as [m|err]; [| discriminate H].
  now exists m.
Qed.

End Tools.

(** *** Computations that write no event *)
Section Quiet.
Variable J : string.

Lemma quiet_ret {A : Type} (x : A) : quiet J (ret x).
Proof. intros st r st' [= <- <-] H. now split. Qed.

Lemma quiet_throw {A : Type} (e : exn) : quiet J (@throw pstate A e).
Proof. intros st r st' [= <- <-] H. now split. Qed.

Lemma quiet_gets {A : Type} (g : pstate -> A) : quiet J (gets g).
Proof. intros st r st' [= <- <-] H. now split. Qed.

Lemma quiet_of_result {A : Type} (x : result A) : quiet J (of_result x).
Proof. destruct x; [apply quiet_ret | apply quiet_throw]. Qed.

Lemma quiet_bind {A B : Type} (m : M pstate A) (k : A -> M pstate B) :
  quiet J m -> (forall x, quiet J (k x)) -> quiet J (bind m k).
Proof.
  intros Hm Hk st r st' H Hst. unfold bind in H.
  destruct (m st) as [[x|e|] st1] eqn:Hst1.
  - destruct (Hm _ _ _ Hst1 Hst) as (Hst1' & He1).
    destruct (Hk x _ _ _ H Hst1') as (Hst' & He'). split; [exact Hst' | congruence].
  - injection H as <- <-. exact (Hm _ _ _ Hst1 Hst).
  - injection H as <- <-. exact (Hm _ _ _ Hst1 Hst).
Qed.

Lemma quiet_write_file (path content : string) : quiet J (write_file path content).
Proof. intros st r st' [= <- <-] H. now split. Qed.

Lemma quiet_on_world {A : Type} (m : M Http.World A) : quiet J (on_world m).
Proof.
  intros st r st' H Hst. unfold on_world in H.
  destruct (m (world st)) as [r' w]. injection H as <- <-. now split.
Qed.

Lemma quiet_commit : quiet J commit.
Proof.
  intros st r st' [= <- <-] (He & Hsaved & Hsession). repeat split; assumption.
Qed.

Lemma quiet_patch_meta (kw : list (string * json)) :
  quiet J (on_session (fun db => patch_meta db J kw)).
Proof.
  intros st r st' H (He & Hsaved & [j Hj]). revert H.
  cbv [on_session patch_meta get_job]. rewrite Hj. intros [= <- <-].
  repeat split; cbn; try assumption. rewrite lookup_insert_eq. eauto.
Qed.

Lemma quiet_save_artifact (kind path : string) : quiet J (_save_artifact J kind path).
Proof.
  intros st r st' H (He & Hsaved & [j Hj]). revert H.
  cbv [bind _save_artifact on_session put_artifact get_job commit modify].
  rewrite Hj. intros [= <- <-].
  repeat split; cbn; try assumption; rewrite lookup_insert_eq; eauto.
Qed.

Lemma quiet_copy2 (source target : string) : quiet J (copy2 source target).
Proof.
  intros st r st' H Hst. unfold copy2 in H.
  destruct (fs st !! source); [destruct (String.eqb source target) |];
    injection H as <- <-; now split.
Qed.

Lemma quiet_reuse (P : string) (pa : gmap string string) (kind target : string)
    (required : bool) :
  quiet J (_reuse_parent_artifact J P pa kind target required).
Proof.
  unfold _reuse_parent_artifact.
  destruct (pa !! kind) as [[|c p]|]; try destruct required;
    try apply quiet_ret; try apply quiet_throw.
  all: apply quiet_bind; [apply quiet_gets |]; intros [|];
    try apply quiet_ret; try apply quiet_throw.
  all: apply quiet_bind; [apply quiet_copy2 | intros _].
  all: apply quiet_bind; [apply quiet_save_artifact | intros _; apply quiet_ret].
Qed.

Lemma quiet_read_text (path msg : string) : quiet J (_read_text_or_fail path msg).
Proof.
  unfold _read_text_or_fail. apply quiet_bind; [apply quiet_gets |].
  intros [text|]; [| apply quiet_throw].
  destruct (PyStr.truthy _); [apply quiet_ret | apply quiet_throw].
Qed.

Lemma quiet_probe (env : Env) (path : string) : quiet J (probe env path).
Proof.
  unfold probe. apply quiet_bind; [apply quiet_gets | intros files].
  apply quiet_of_result.
Qed.

(** The first statement of a stage. *)
Lemma set_stage_settled (status : JobStatus) (msg : string) (st : pstate) :
  settled J st -> PyStr.truthy msg = true ->
  exists st1, _set_stage J status msg st = (Return tt, st1)
              /\ settled J st1
              /\ events (session st1) = events (session st) ++ [event J status msg].
Proof.
  intros (He & Hsaved & [j Hj]) Hm.
  cbv [bind _set_stage on_session set_job_status get_job commit modify].
  rewrite Hj, Hm. eexists. split; [reflexivity |].
  repeat split; cbn; rewrite lookup_insert_eq; eauto.
Qed.

End Quiet.

Lemma reuse_not_in_map (job_id parent_job_id : string) (pa : gmap string string)
    (kind target : string) (st : pstate) :
  not_in_map pa kind ->
  _reuse_parent_artifact job_id parent_job_id pa kind target true st
  = (Throw (PipelineError (missing_in_parent kind parent_job_id)), st)
  /\ names (PipelineError (missing_in_parent kind parent_job_id)) kind parent_job_id.
Proof.
  intros H. split.
  - unfold _reuse_parent_artifact. now destruct H as [-> | ->].
  - eexists. split; [reflexivity |]. unfold missing_in_parent. split.
    + apply contains_app_r, contains_here.
    + do 3 apply contains_app_r. apply contains_here.
Qed.

Lemma reuse_not_on_disk (job_id parent_job_id : string) (pa : gmap string string)
    (kind target parent_path : string) (st : pstate) :
  not_on_disk pa (fs st) kind parent_path ->
  _reuse_parent_artifact job_id parent_job_id pa kind target true st
  = (Throw (PipelineError (missing_on_disk kind parent_path)), st)
  /\ names (PipelineError (missing_on_disk kind parent_path)) kind parent_path.
Proof.
  intros (Hk & Hne & Hf). split.
  - unfold _reuse_parent_artifact. rewrite Hk.
    destruct parent_path as [|c p]; [now destruct Hne |].
    cbv [bind gets]. rewrite Hf. now rewrite bool_decide_eq_false_2 by (intros [? ?]; discriminate).
  - eexists. split; [reflexivity |]. unfold missing_on_disk. split.
    + apply contains_app_r, contains_here.
    + do 3 apply contains_app_r. apply contains_refl.
Qed.

End PipelineFacts.

(** ** The pipeline: what each stage does to the job *)
Module PipelineStages.
Import Stage Repository Media Pipeline PipelineSpec Effects PyStrFacts PipelineFacts.

(** One statement of the computation [H], seen from the job's side [Hs]. *)
Ltac step H Hs :=
  first
    [ rewrite bind_assoc in H
    | eapply step_set_stage in H; [| exact Hs | reflexivity];
      clear Hs; destruct H as (? & Hs & H)
    | eapply step_save_artifact in H; [| exact Hs];
      clear Hs; destruct H as (? & Hs & H)
    | eapply step_patch_meta in H; [| exact Hs];
      clear Hs; destruct H as (? & Hs & H)
    | eapply step_commit in H; [| exact Hs];
      clear Hs; destruct H as (? & Hs & _ & H)
    | eapply step_write_file in H; [| exact Hs];
      clear Hs; destruct H as (? & Hs & H)
    | eapply step_run_tool in H; [| exact Hs];
      clear Hs; destruct H as (? & ? & Hs & H)
    | eapply step_on_world in H; [| exact Hs];
      clear Hs; destruct H as (? & ? & Hs & H)
    | eapply step_probe in H; destruct H as (? & H)
    | eapply step_read_text in H; destruct H as (? & H)
    | apply step_of_result in H as (? & ? & H)
    | apply step_gets in H; cbv beta in H ].

Ltac in_list := simpl; tauto.

Ltac frame :=
  first
    [ apply touches_refl
    | apply sets_refl
    | apply touches_insert; [in_list | frame]
    | apply sets_insert; [in_list | frame] ].

(** The entry of a table of reuse that [Hin] speaks of. *)
Ltac entry Hin :=
  simpl in Hin;
  repeat (destruct Hin as [Hin | Hin]; [try discriminate Hin |]);
  try (exfalso; exact Hin); injection Hin as <- <-.

(** A file or an artifact under the updates of a stage. *)
Ltac lookup :=
  repeat first
    [ rewrite lookup_insert_eq
    | rewrite lookup_insert_ne by (first [apply join_ne | idtac]; discriminate) ];
  try reflexivity.

Ltac not_in := simpl; intuition discriminate.

Ltac no_reuse :=
  let Hin := fresh in
  intros _; split; intros ? ? Hin; simpl in Hin;
  repeat (destruct Hin as [Hin | Hin]; [discriminate Hin |]); destruct Hin.

(** What is taken stays under a stage that writes the files of [Ht] and
    sets the kinds of [Hk]. *)
Ltac after Ht Hk := eapply taken_after; [| exact Ht | exact Hk | not_in | not_in].
Ltac after_if_there Ht Hk :=
  eapply taken_if_there_after; [| exact Ht | exact Hk | not_in | not_in].

(** The stage of the entry [Hentry] is not the one of the goal. *)
Ltac other_stage Hentry :=
  let Hv := fresh in
  intros Hv; apply StageFacts.value_inj in Hv; rewrite <- Hv in Hentry;
  simpl in Hentry; intuition discriminate.

(** A computation that writes no event. *)
Ltac quiet :=
  unfold reuse, dump_meta, _write_json, _write_text;
  repeat first
    [ apply quiet_ret | apply quiet_throw | apply quiet_gets | apply quiet_of_result
    | apply quiet_write_file | apply quiet_on_world | apply quiet_commit
    | apply quiet_patch_meta | apply quiet_save_artifact | apply quiet_reuse
    | apply quiet_read_text | apply quiet_probe
    | apply quiet_bind; [| intros ?]
    | match goal with
      | |- quiet _ (match ?x with _ => _ end) => destruct x
      end ].

Section WithEnv.
Variable env : Env.
Variable c : context.

Local Abbreviation J := (id (job c)).
Local Abbreviation D := (job_dir c).
Local Abbreviation s := (start_stage c).
Local Abbreviation pa := (parent_artifacts c).

(** The artifacts of the parent are not in the directory of the job. *)
Hypothesis parent_outside :
  forall kind p, parent_artifacts c !! kind = Some p -> outside D p.

Lemma stage_preprocessing_outcome (st st1 : pstate) (m : VideoMeta) :
  stage_preprocessing env c st = (Return m, st1) ->
  stage_outcome J D (parent_artifacts c) PREPROCESSING
    (expected (start_stage c) PREPROCESSING) st st1.
Proof.
  intros H a e f Hs. unfold stage_preprocessing in H.
  apply step_of_result in H as (run & Hrun & H). apply should_run_spec in Hrun.
  unfold expected. destruct (before PREPROCESSING (start_stage c)); subst run;
    cbn [negb] in H.
  - do 2 step H Hs.
    assert (exists sm, bind (dump_meta env sm (Path.join D "source_meta.json"))
                (fun _ => bind (on_session (fun db => patch_meta db J
                                               [("source_meta", meta_dict sm)]))
                            (fun _ => bind commit (fun _ => ret sm))) x
              = (Return m, st1)) as (sm & H').
    { destruct (_video_meta_from_dict _) as [sm|]; [now exists sm |].
      step H Hs. now exists x0. }
    clear H. do 3 step H' Hs. apply step_ret in H' as (_ & <-).
    eexists _, _, _. split; [exact Hs |].
    split; [now repeat split |]. split; [frame |]. split; [frame |]. no_reuse.
  - do 3 step H Hs. do 3 step H Hs. apply step_ret in H as (_ & <-).
    eexists _, _, _. split; [exact Hs |].
    split; [now repeat split |]. split; [frame |]. split; [frame |].
    intros Hm; discriminate Hm.
Qed.

Lemma stage_asr_outcome (st st1 : pstate) (t : string) :
  stage_asr env c st = (Return t, st1) ->
  stage_outcome J D (parent_artifacts c) ASR (expected (start_stage c) ASR) st st1.
Proof.
  intros H a e f Hs. unfold stage_asr in H.
  apply step_of_result in H as (run & Hrun & H). apply should_run_spec in Hrun.
  unfold expected. destruct (before ASR (start_stage c)); subst run; cbn [negb] in H.
  - step H Hs. unfold reuse in H.
    eapply step_reuse in H; [| exact Hs].
    destruct H as [(p1 & c1 & st' & Hk1 & Hne1 & Hf1 & _ & Hs' & H) | (_ & Hnone & H)].
    + clear Hs. rename Hs' into Hs. eapply step_reuse in H; [| exact Hs]. clear Hs.
      destruct H as [(p2 & c2 & st2 & Hk2 & Hne2 & Hf2 & _ & Hs & H) | (Hreq & _)];
        [| discriminate Hreq].
      cbv beta iota in H. apply read_text_state in H as ->.
      rewrite lookup_insert_ne in Hf2
        by (apply not_eq_sym, outside_ne, (parent_outside _ _ Hk2)).
      eexists _, _, _. split; [exact Hs |].
      split; [now repeat split |]. split; [frame |]. split; [frame |].
      intros _. split; intros kind name Hin; entry Hin.
      * exists p2, c2. rewrite !lookup_insert_eq. now repeat split.
      * intros p content Hp _ Hc. rewrite Hk1 in Hp. injection Hp as <-.
        rewrite Hf1 in Hc. injection Hc as <-.
        split; lookup.
    + eapply step_reuse in H; [| exact Hs]. clear Hs.
      destruct H as [(p2 & c2 & st2 & Hk2 & Hne2 & Hf2 & _ & Hs & H) | (Hreq & _)];
        [| discriminate Hreq].
      cbv beta iota in H. apply read_text_state in H as ->.
      eexists _, _, _. split; [exact Hs |].
      split; [now repeat split |]. split; [frame |]. split; [frame |].
      intros _. split; intros kind name Hin; entry Hin.
      * exists p2, c2. rewrite !lookup_insert_eq. now repeat split.
      * intros p content Hp Hne Hc. rewrite (Hnone p Hp Hne) in Hc. discriminate Hc.
  - do 5 step H Hs.
    destruct x3 as [| | | | |payload]; try discriminate H.
    destruct (negb (PyStr.truthy _)); [discriminate H |].
    do 2 step H Hs. apply step_ret in H as (_ & <-).
    eexists _, _, _. split; [exact Hs |].
    split; [now repeat split |]. split; [frame |]. split; [frame |].
    intros Hm; discriminate Hm.
Qed.

Lemma stage_transcript_polish_outcome (st st1 : pstate) (raw t : string) :
  stage_transcript_polish env c raw st = (Return t, st1) ->
  stage_outcome J D (parent_artifacts c) TRANSCRIPT_POLISH
    (expected (start_stage c) TRANSCRIPT_POLISH) st st1.
Proof.
  intros H a e f Hs. unfold stage_transcript_polish in H.
  apply step_of_result in H as (run & Hrun & H). apply should_run_spec in Hrun.
  unfold expected. destruct (before TRANSCRIPT_POLISH (start_stage c)); subst run;
    cbn [negb] in H.
  - step H Hs. unfold reuse in H.
    eapply step_reuse in H; [| exact Hs]. clear Hs.
    destruct H as [(p2 & c2 & st2 & Hk2 & Hne2 & Hf2 & _ & Hs & H) | (Hreq & _)];
      [| discriminate Hreq].
    cbv beta iota in H. apply read_text_state in H as ->.
    eexists _, _, _. split; [exact Hs |].
    split; [now repeat split |]. split; [frame |]. split; [frame |].
    intros _. split; intros kind name Hin; entry Hin.
    exists p2, c2. rewrite !lookup_insert_eq. now repeat split.
  - destruct (enable_asr_polish (pipeline (config c))).
    + repeat step H Hs. apply step_ret in H as (_ & <-).
      eexists _, _, _. split; [exact Hs |].
      split; [repeat split; cbn; eauto |]. split; [frame |]. split; [frame |].
      intros Hm; discriminate Hm.
    + repeat step H Hs. apply step_ret in H as (_ & <-).
      eexists _, _, _. split; [exact Hs |].
      split; [repeat split; cbn; eauto |]. split; [frame |]. split; [frame |].
      intros Hm; discriminate Hm.
Qed.

Lemma stage_script_gen_outcome (st st1 : pstate) (polished : string) (script : json) :
  stage_script_gen env c polished st = (Return script, st1) ->
  stage_outcome J D (parent_artifacts c) SCRIPT_GEN
    (expected (start_stage c) SCRIPT_GEN) st st1.
Proof.
  intros H a e f Hs. unfold stage_script_gen in H.
  apply step_of_result in H as (run & Hrun & H). apply should_run_spec in Hrun.
  unfold expected. destruct (before SCRIPT_GEN (start_stage c)); subst run;
    cbn [negb] in H.
  - step H Hs. unfold reuse in H.
    eapply step_reuse in H; [| exact Hs]. clear Hs.
    destruct H as [(p2 & c2 & st2 & Hk2 & Hne2 & Hf2 & _ & Hs & H) | (Hreq & _)];
      [| discriminate Hreq].
    cbv beta iota in H. apply step_gets in H. cbv beta in H.
    destruct (fs st2 !! _) as [text|]; [| discriminate H].
    destruct (json_loads env text) as [payload|]; [| discriminate H].
    apply of_result_state in H as (_ & ->).
    eexists _, _, _. split; [exact Hs |].
    split; [now repeat split |]. split; [frame |]. split; [frame |].
    intros _. split; intros kind name Hin; entry Hin.
    exists p2, c2. rewrite !lookup_insert_eq. now repeat split.
  - repeat step H Hs. apply step_ret in H as (_ & <-).
    eexists _, _, _. split; [exact Hs |].
    split; [repeat split; cbn; eauto |]. split; [frame |]. split; [frame |].
    intros Hm; discriminate Hm.
Qed.

Lemma stage_video_submit_outcome (st st1 : pstate) (script : json) (sm : VideoMeta)
    (task_id : string) :
  stage_video_submit env c script sm st = (Return task_id, st1) ->
  stage_outcome J D (parent_artifacts c) VIDEO_SUBMIT
    (expected (start_stage c) VIDEO_SUBMIT) st st1.
Proof.
  intros H a e f Hs. unfold stage_video_submit in H.
  apply step_of_result in H as (run & Hrun & H). apply should_run_spec in Hrun.
  unfold expected. destruct (before VIDEO_SUBMIT (start_stage c)); subst run;
    cbn [negb] in H.
  - step H Hs. destruct (negb (PyStr.truthy _)); [discriminate H |].
    repeat step H Hs. apply step_ret in H as (_ & <-).
    eexists _, _, _. split; [exact Hs |].
    split; [now repeat split |]. split; [frame |]. split; [frame |]. no_reuse.
  - repeat step H Hs. apply step_ret in H as (_ & <-).
    eexists _, _, _. split; [exact Hs |].
    split; [repeat split; cbn; eauto |]. split; [frame |]. split; [frame |].
    intros Hm; discriminate Hm.
Qed.

Lemma stage_video_polling_outcome (st st1 : pstate) (task_id path : string) :
  stage_video_polling env c task_id st = (Return path, st1) ->
  stage_outcome J D (parent_artifacts c) VIDEO_POLLING
    (expected (start_stage c) VIDEO_POLLING) st st1.
Proof.
  intros H a e f Hs. unfold stage_video_polling in H.
  apply step_of_result in H as (run & Hrun & H). apply should_run_spec in Hrun.
  unfold expected. destruct (before VIDEO_POLLING (start_stage c)); subst run;
    cbn [negb] in H.
  - step H Hs. unfold reuse in H.
    eapply step_reuse in H; [| exact Hs]. clear Hs.
    destruct H as [(p2 & c2 & st2 & Hk2 & Hne2 & Hf2 & _ & Hs & H) | (Hreq & _)];
      [| discriminate Hreq].
    apply step_ret in H as (_ & <-).
    eexists _, _, _. split; [exact Hs |].
    split; [now repeat split |]. split; [frame |]. split; [frame |].
    intros _. split; intros kind name Hin; entry Hin.
    exists p2, c2. rewrite !lookup_insert_eq. now repeat split.
  - repeat step H Hs. apply step_ret in H as (_ & <-).
    eexists _, _, _. split; [exact Hs |].
    split; [repeat split; cbn; eauto |]. split; [frame |]. split; [frame |].
    intros Hm; discriminate Hm.
Qed.

(** The last stage runs in every job; it ends with the event of the
    completed job, and with everything committed. *)
Lemma stage_postprocess_outcome (st st1 : pstate) (sm : VideoMeta) (raw : string)
    (a : gmap string string) (e : list JobEvent) (f : gmap string string) :
  stage_postprocess env c sm raw st = (Return tt, st1) ->
  snap J st a e f ->
  exists a1 f1 ev,
    snap J st1 a1 (e ++ [ev; event J COMPLETED "任务完成，成片已输出"]) f1
    /\ announces J Ran POSTPROCESS ev
    /\ touches D (stage_files POSTPROCESS) f f1
    /\ sets (stage_kinds POSTPROCESS) a a1
    /\ saved st1 = session st1.
Proof.
  intros H Hs. unfold stage_postprocess in H.
  do 2 step H Hs. unfold normalize_hook_video, concat_with_source in H.
  rewrite !parent_join in H by reflexivity.
  repeat step H Hs.
  match type of H with context [if ?b then _ else _] => destruct b end;
    repeat step H Hs.
  all: eapply end_set_stage in H; [| exact Hs | reflexivity];
    destruct H as (Hs1 & Hsaved); rewrite <- app_assoc in Hs1;
    eexists _, _, _; split; [exact Hs1 |];
    split; [now repeat split |]; split; [frame |]; split; [frame | exact Hsaved].
Qed.

(** *** The seven stages in a row *)

Lemma run_stages_outcome (st st1 : pstate)
    (a : gmap string string) (e : list JobEvent) (f : gmap string string) :
  In s STAGE_SEQUENCE ->
  run_stages env c st = (Return tt, st1) ->
  snap J st a e f ->
  exists a1 f1 evs,
    snap J st1 a1 (e ++ evs ++ [event J COMPLETED "任务完成，成片已输出"]) f1
    /\ saved st1 = session st1
    /\ Forall2 (fun stage ev => announces J (expected s stage) stage ev)
         STAGE_SEQUENCE evs
    /\ touches D JOB_FILES f f1
    /\ sets JOB_KINDS a a1
    /\ (forall stage kind name,
          In (stage, kind, name) REQUIRED_REUSE -> before stage s = true ->
          taken pa D f f1 a1 kind name)
    /\ (forall stage kind name,
          In (stage, kind, name) OPTIONAL_REUSE -> before stage s = true ->
          taken_if_there pa D f f1 a1 kind name).
Proof.
  intros Hin H Hs0. unfold run_stages in H.
  apply bind_return_inv in H as (sm & s1 & H1 & H).
  apply stage_preprocessing_outcome in H1.
  destruct (H1 _ _ _ Hs0) as (a1 & f1 & ev1 & Hs1 & He1 & Ht1 & Hk1 & Hr1).
  apply bind_return_inv in H as (raw & s2 & H2 & H).
  apply stage_asr_outcome in H2.
  destruct (H2 _ _ _ Hs1) as (a2 & f2 & ev2 & Hs2 & He2 & Ht2 & Hk2 & Hr2).
  apply bind_return_inv in H as (polished & s3 & H3 & H).
  apply stage_transcript_polish_outcome in H3.
  destruct (H3 _ _ _ Hs2) as (a3 & f3 & ev3 & Hs3 & He3 & Ht3 & Hk3 & Hr3).
  apply bind_return_inv in H as (script & s4 & H4 & H).
  apply stage_script_gen_outcome in H4.
  destruct (H4 _ _ _ Hs3) as (a4 & f4 & ev4 & Hs4 & He4 & Ht4 & Hk4 & Hr4).
  apply bind_return_inv in H as (task_id & s5 & H5 & H).
  apply stage_video_submit_outcome in H5.
  destruct (H5 _ _ _ Hs4) as (a5 & f5 & ev5 & Hs5 & He5 & Ht5 & Hk5 & Hr5).
  apply bind_return_inv in H as (hook_raw & s6 & H6 & H).
  apply stage_video_polling_outcome in H6.
  destruct (H6 _ _ _ Hs5) as (a6 & f6 & ev6 & Hs6 & He6 & Ht6 & Hk6 & Hr6).
  destruct (stage_postprocess_outcome _ _ _ _ _ _ _ H Hs6)
    as (a7 & f7 & ev7 & Hs7 & He7 & Ht7 & Hk7 & Hsaved).
  clear H H1 H2 H3 H4 H5 H6.
  assert (Ht1' := touches_mono _ _ _ _ _ (stage_files_job _) Ht1).
  assert (Ht2' := touches_trans _ _ _ _ _ Ht1'
                    (touches_mono _ _ _ _ _ (stage_files_job _) Ht2)).
  assert (Ht3' := touches_trans _ _ _ _ _ Ht2'
                    (touches_mono _ _ _ _ _ (stage_files_job _) Ht3)).
  assert (Ht4' := touches_trans _ _ _ _ _ Ht3'
                    (touches_mono _ _ _ _ _ (stage_files_job _) Ht4)).
  assert (Ht5' := touches_trans _ _ _ _ _ Ht4'
                    (touches_mono _ _ _ _ _ (stage_files_job _) Ht5)).
  assert (Ht6' := touches_trans _ _ _ _ _ Ht5'
                    (touches_mono _ _ _ _ _ (stage_files_job _) Ht6)).
  assert (Ht7' := touches_trans _ _ _ _ _ Ht6'
                    (touches_mono _ _ _ _ _ (stage_files_job _) Ht7)).
  assert (Hk7' : sets JOB_KINDS a a7).
  { repeat (eapply sets_trans;
            [| eapply sets_mono; [apply stage_kinds_job | eassumption]]).
    apply sets_refl. }
  exists a7, f7, [ev1; ev2; ev3; ev4; ev5; ev6; ev7].
  split; [| split; [exact Hsaved | split; [| split; [exact Ht7' | split;
    [exact Hk7' | split]]]]].
  - rewrite <- !app_assoc in Hs7. exact Hs7.
  - rewrite <- (expected_postprocess _ Hin) in He7.
    repeat (constructor; [assumption |]). constructor.
  - intros stage kind name Hentry Hb. simpl in Hentry.
    assert (Hm : expected s stage = Skipped) by (unfold expected; now rewrite Hb).
    repeat (destruct Hentry as [Hentry | Hentry];
            [injection Hentry as <- <- <- |]); [.. | contradiction].
    + destruct (Hr2 Hm) as (Hreq & _).
      specialize (Hreq "transcript_raw" "transcript_raw.txt" ltac:(simpl; tauto)).
      after Ht7 Hk7. after Ht6 Hk6. after Ht5 Hk5. after Ht4 Hk4. after Ht3 Hk3.
      exact (taken_before _ _ _ _ _ _ _ _ _ parent_outside Ht1' Hreq).
    + destruct (Hr3 Hm) as (Hreq & _).
      specialize (Hreq "transcript_polished" "transcript_polished.txt"
                    ltac:(simpl; tauto)).
      after Ht7 Hk7. after Ht6 Hk6. after Ht5 Hk5. after Ht4 Hk4.
      exact (taken_before _ _ _ _ _ _ _ _ _ parent_outside Ht2' Hreq).
    + destruct (Hr4 Hm) as (Hreq & _).
      specialize (Hreq "hook_script_json" "hook_script.json" ltac:(simpl; tauto)).
      after Ht7 Hk7. after Ht6 Hk6. after Ht5 Hk5.
      exact (taken_before _ _ _ _ _ _ _ _ _ parent_outside Ht3' Hreq).
    + destruct (Hr6 Hm) as (Hreq & _).
      specialize (Hreq "hook_video_raw" "hook_video_raw.mp4" ltac:(simpl; tauto)).
      after Ht7 Hk7.
      exact (taken_before _ _ _ _ _ _ _ _ _ parent_outside Ht5' Hreq).
  - intros stage kind name Hentry Hb. simpl in Hentry.
    assert (Hm : expected s stage = Skipped) by (unfold expected; now rewrite Hb).
    destruct Hentry as [Hentry | []]. injection Hentry as <- <- <-.
    destruct (Hr2 Hm) as (_ & Hopt).
    specialize (Hopt "asr_clip_audio" "asr_clip.wav" ltac:(simpl; tauto)).
    after_if_there Ht7 Hk7. after_if_there Ht6 Hk6. after_if_there Ht5 Hk5.
    after_if_there Ht4 Hk4. after_if_there Ht3 Hk3.
    exact (taken_if_there_before _ _ _ _ _ _ _ _ _ parent_outside Ht1' Hopt).
Qed.

(** *** A skipped stage, however it ends *)

Lemma skip_branch {A : Type} (stage : JobStatus) (msg : string) (tail : M pstate A)
    (st st' : pstate) (r : outcome A) :
  settled J st -> PyStr.truthy msg = true -> quiet J tail ->
  bind (_set_stage J stage msg) (fun _ => tail) st = (r, st') ->
  settled J st' /\ events (session st') = events (session st) ++ [event J stage msg].
Proof.
  intros Hst Hm Hq H.
  destruct (set_stage_settled J stage msg st Hst Hm) as (st1 & Hset & Hst1 & He1).
  rewrite (bind_return _ _ _ _ _ Hset) in H.
  destruct (Hq _ _ _ H Hst1) as (Hst' & He'). split; [exact Hst' | congruence].
Qed.

Section Skipped.
Hypothesis start_in_sequence : In s STAGE_SEQUENCE.
Variables (st st' : pstate).
Hypothesis Hst : settled J st.

Lemma stage_preprocessing_skipped (r : outcome VideoMeta) :
  before PREPROCESSING s = true ->
  stage_preprocessing env c st = (r, st') ->
  settled J st'
  /\ events (session st')
     = events (session st) ++ [event J PREPROCESSING (skip_message PREPROCESSING)].
Proof.
  intros Hb. unfold stage_preprocessing.
  rewrite (should_run_total s PREPROCESSING start_in_sequence ltac:(simpl; tauto)), Hb.
  cbn [negb of_result]. rewrite ret_bind, bind_assoc. intros H.
  eapply skip_branch in H; [exact H | exact Hst | reflexivity |]. quiet.
Qed.

Lemma stage_asr_skipped (r : outcome string) :
  before ASR s = true ->
  stage_asr env c st = (r, st') ->
  settled J st'
  /\ events (session st') = events (session st) ++ [event J ASR (skip_message ASR)].
Proof.
  intros Hb. unfold stage_asr.
  rewrite (should_run_total s ASR start_in_sequence ltac:(simpl; tauto)), Hb.
  cbn [negb of_result]. rewrite ret_bind. intros H.
  eapply skip_branch in H; [exact H | exact Hst | reflexivity |]. quiet.
Qed.

Lemma stage_transcript_polish_skipped (raw : string) (r : outcome string) :
  before TRANSCRIPT_POLISH s = true ->
  stage_transcript_polish env c raw st = (r, st') ->
  settled J st'
  /\ events (session st')
     = events (session st)
         ++ [event J TRANSCRIPT_POLISH (skip_message TRANSCRIPT_POLISH)].
Proof.
  intros Hb. unfold stage_transcript_polish.
  rewrite (should_run_total s TRANSCRIPT_POLISH start_in_sequence
             ltac:(simpl; tauto)), Hb.
  cbn [negb of_result]. rewrite ret_bind. intros H.
  eapply skip_branch in H; [exact H | exact Hst | reflexivity |]. quiet.
Qed.

Lemma stage_script_gen_skipped (polished : string) (r : outcome json) :
  before SCRIPT_GEN s = true ->
  stage_script_gen env c polished st = (r, st') ->
  settled J st'
  /\ events (session st')
     = events (session st) ++ [event J SCRIPT_GEN (skip_message SCRIPT_GEN)].
Proof.
  intros Hb. unfold stage_script_gen.
  rewrite (should_run_total s SCRIPT_GEN start_in_sequence ltac:(simpl; tauto)), Hb.
  cbn [negb of_result]. rewrite ret_bind. intros H.
  eapply skip_branch in H; [exact H | exact Hst | reflexivity |]. quiet.
Qed.

Lemma stage_video_submit_skipped (script : json) (sm : VideoMeta)
    (r : outcome string) :
  before VIDEO_SUBMIT s = true ->
  stage_video_submit env c script sm st = (r, st') ->
  settled J st'
  /\ events (session st')
     = events (session st) ++ [event J VIDEO_SUBMIT (skip_message VIDEO_SUBMIT)].
Proof.
  intros Hb. unfold stage_video_submit.
  rewrite (should_run_total s VIDEO_SUBMIT start_in_sequence ltac:(simpl; tauto)), Hb.
  cbn [negb of_result]. rewrite ret_bind. intros H.
  eapply skip_branch in H; [exact H | exact Hst | reflexivity |]. quiet.
Qed.

Lemma stage_video_polling_skipped (task_id : string) (r : outcome string) :
  before VIDEO_POLLING s = true ->
  stage_video_polling env c task_id st = (r, st') ->
  settled J st'
  /\ events (session st')
     = events (session st) ++ [event J VIDEO_POLLING (skip_message VIDEO_POLLING)].
Proof.
  intros Hb. unfold stage_video_polling.
  rewrite (should_run_total s VIDEO_POLLING start_in_sequence ltac:(simpl; tauto)), Hb.
  cbn [negb of_result]. rewrite ret_bind. intros H.
  eapply skip_branch in H; [exact H | exact Hst | reflexivity |]. quiet.
Qed.

End Skipped.

(** *** A skipped stage without its artifact *)

Lemma skipped_stage_throws (st : pstate) (a : gmap string string)
    (e : list JobEvent) (f : gmap string string) (stage : JobStatus)
    (kind name : string) (err : exn) :
  snap J st a e f ->
  In s STAGE_SEQUENCE ->
  In (stage, kind, name) REQUIRED_REUSE ->
  before stage s = true ->
  (forall st1 target,
      (forall q, outside D q -> fs st1 !! q = f !! q) ->
      _reuse_parent_artifact J (parent_job_id c) pa kind target true st1
      = (Throw err, st1)) ->
  skipped_stage_raises env c stage st err.
Proof.
  intros Hs Hin Hentry Hb Hthrow. simpl in Hentry.
  repeat (destruct Hentry as [Hentry | Hentry];
          [injection Hentry as <- <- <- |]); [.. | contradiction].
  - unfold skipped_stage_raises, stage_asr.
    rewrite (should_run_total s ASR Hin ltac:(simpl; tauto)), Hb.
    cbn [negb of_result]. rewrite ret_bind.
    destruct (set_stage_returns _ _ _ _ _ Hs ASR "跳过ASR，复用父任务转写产物" eq_refl)
      as (st1 & Hset & Hs1).
    rewrite (bind_return _ _ _ _ _ Hset).
    destruct (reuse_optional_returns J st1 a _ f Hs1 (parent_job_id c) pa
                "asr_clip_audio" (Path.join D "asr_clip.wav"))
      as (r & st2 & a2 & f2 & Hopt & Hs2 & Hf2).
    { intros p Hp. apply outside_ne, (parent_outside _ _ Hp). }
    unfold reuse. rewrite (bind_return _ _ _ _ _ Hopt).
    erewrite bind_throw; [eexists; reflexivity |].
    apply Hthrow. intros q Hq. destruct Hs2 as (_ & _ & ->).
    apply Hf2. now apply outside_ne.
  - unfold skipped_stage_raises, stage_transcript_polish. intros raw.
    rewrite (should_run_total s TRANSCRIPT_POLISH Hin ltac:(simpl; tauto)), Hb.
    cbn [negb of_result]. rewrite ret_bind.
    destruct (set_stage_returns _ _ _ _ _ Hs TRANSCRIPT_POLISH
                "跳过纠错，复用父任务文本" eq_refl) as (st1 & Hset & Hs1).
    rewrite (bind_return _ _ _ _ _ Hset). unfold reuse.
    erewrite bind_throw; [eexists; reflexivity |].
    apply Hthrow. intros q _. now destruct Hs1 as (_ & _ & ->).
  - unfold skipped_stage_raises, stage_script_gen. intros polished.
    rewrite (should_run_total s SCRIPT_GEN Hin ltac:(simpl; tauto)), Hb.
    cbn [negb of_result]. rewrite ret_bind.
    destruct (set_stage_returns _ _ _ _ _ Hs SCRIPT_GEN
                "跳过脚本生成，复用父任务脚本" eq_refl) as (st1 & Hset & Hs1).
    rewrite (bind_return _ _ _ _ _ Hset). unfold reuse.
    erewrite bind_throw; [eexists; reflexivity |].
    apply Hthrow. intros q _. now destruct Hs1 as (_ & _ & ->).
  - unfold skipped_stage_raises, stage_video_polling. intros task_id.
    rewrite (should_run_total s VIDEO_POLLING Hin ltac:(simpl; tauto)), Hb.
    cbn [negb of_result]. rewrite ret_bind.
    destruct (set_stage_returns _ _ _ _ _ Hs VIDEO_POLLING
                "跳过视频轮询，复用父任务前贴视频" eq_refl) as (st1 & Hset & Hs1).
    rewrite (bind_return _ _ _ _ _ Hset). unfold reuse.
    erewrite bind_throw; [eexists; reflexivity |].
    apply Hthrow. intros q _. now destruct Hs1 as (_ & _ & ->).
Qed.

(** *** The run up to the stage that fails *)

Lemma before_earlier (stage X : JobStatus) :
  before X s = true -> rank stage <= rank X -> before stage s = true.
Proof.
  unfold before. rewrite !Nat.ltb_lt. intros H1 H2.
  exact (Nat.le_lt_trans _ _ _ H2 H1).
Qed.

(** A skipped stage on the way to the stage [X]. *)
Lemma pass_stage {A B : Type} (m : M pstate A) (k : A -> M pstate B)
    (stage X : JobStatus) (md : mode) (st st' : pstate) (r : outcome B)
    (a f f0 : gmap string string) (e e0 new0 : list JobEvent) :
  (forall r1 st1, m st = (r1, st1) ->
     settled J st1
     /\ events (session st1)
        = events (session st) ++ [event J stage (skip_message stage)]) ->
  (forall x st1, m st = (Return x, st1) -> stage_outcome J D pa stage md st st1) ->
  value stage <> value X ->
  snap J st a e f ->
  (forall q, outside D q -> f !! q = f0 !! q) ->
  events (session st) = e0 ++ new0 ->
  Forall (fun ev => event_status ev <> value X) new0 ->
  bind m k st = (r, st') ->
  (exists x st1 a1 e1 f1 new1,
      k x st1 = (r, st') /\ settled J st1 /\ snap J st1 a1 e1 f1
      /\ (forall q, outside D q -> f1 !! q = f0 !! q)
      /\ events (session st1) = e0 ++ new1
      /\ Forall (fun ev => event_status ev <> value X) new1)
  \/ (settled J st'
      /\ exists new, events (session st') = e0 ++ new
                     /\ Forall (fun ev => event_status ev <> value X) new).
Proof.
  intros Hskipped Houtcome Hne Hs Hagree He HF H.
  assert (HF1 : Forall (fun ev => event_status ev <> value X)
                  (new0 ++ [event J stage (skip_message stage)])).
  { apply Forall_app. split; [exact HF |]. now repeat constructor. }
  destruct (m st) as [[x|err|] st1] eqn:Hm.
  - destruct (Hskipped _ _ eq_refl) as (Hst1 & He1).
    destruct (Houtcome _ _ eq_refl _ _ _ Hs) as (a1 & f1 & ev & Hs1 & _ & Ht & _).
    rewrite (bind_return _ _ _ _ _ Hm) in H. left.
    exists x, st1, a1, (e ++ [ev]), f1, (new0 ++ [event J stage (skip_message stage)]).
    split; [exact H |]. split; [exact Hst1 |]. split; [exact Hs1 |].
    split; [| split; [| exact HF1]].
    + intros q Hq. rewrite (touches_outside _ _ _ _ _ Ht Hq). now apply Hagree.
    + now rewrite He1, He, <- app_assoc.
  - destruct (Hskipped _ _ eq_refl) as (Hst1 & He1).
    rewrite (bind_throw _ _ _ _ _ Hm) in H. injection H as <- <-. right.
    split; [exact Hst1 |]. eexists. split; [| exact HF1].
    now rewrite He1, He, <- app_assoc.
  - destruct (Hskipped _ _ eq_refl) as (Hst1 & He1).
    rewrite (bind_stuck _ _ _ _ Hm) in H. injection H as <- <-. right.
    split; [exact Hst1 |]. eexists. split; [| exact HF1].
    now rewrite He1, He, <- app_assoc.
Qed.

Lemma run_stages_missing (st st' : pstate) (r : outcome unit)
    (a : gmap string string) (e : list JobEvent) (f : gmap string string)
    (stage : JobStatus) (kind name : string) (err : exn) :
  In s STAGE_SEQUENCE ->
  snap J st a e f ->
  settled J st ->
  In (stage, kind, name) REQUIRED_REUSE ->
  before stage s = true ->
  (forall st1 target,
      (forall q, outside D q -> fs st1 !! q = f !! q) ->
      _reuse_parent_artifact J (parent_job_id c) pa kind target true st1
      = (Throw err, st1)) ->
  run_stages env c st = (r, st') ->
  settled J st'
  /\ (r = Throw err
      \/ exists new, events (session st') = e ++ new
                     /\ Forall (fun ev => event_status ev <> value stage) new).
Proof.
  intros Hin Hs Hst Hentry Hb Hthrow H. unfold run_stages in H.
  assert (He : events (session st) = e ++ []) by (rewrite app_nil_r; apply Hs).
  assert (Hb0 : before PREPROCESSING s = true).
  { eapply before_earlier; [exact Hb |]. simpl in Hentry.
    repeat (destruct Hentry as [Hentry | Hentry];
            [injection Hentry as <- _ _; cbn; lia |]). contradiction. }
  eapply (pass_stage _ _ PREPROCESSING stage) in H;
    [| intros r1 st1 Hm; exact (stage_preprocessing_skipped Hin _ _ Hst _ Hb0 Hm)
     | intros x st1 Hm; exact (stage_preprocessing_outcome _ _ _ Hm)
     | other_stage Hentry
     | exact Hs | reflexivity | exact He | constructor].
  clear Hs Hst He.
  destruct H as [(sm & st1 & a1 & e1 & f1 & new1 & H & Hst & Hs & Hag & He & HF) | Hend];
    [| split; [apply Hend | right; apply Hend]].
  simpl in Hentry. destruct Hentry as [Hentry | Hentry].
  { injection Hentry as <- <- <-.
    destruct (skipped_stage_throws st1 a1 e1 f1 ASR _ _ err Hs Hin
                ltac:(simpl; tauto) Hb) as (stX & HX).
    { intros st2 target Hq. apply Hthrow. intros q Hout.
      rewrite Hq by exact Hout. now apply Hag. }
    destruct (stage_asr_skipped Hin _ _ Hst _ Hb HX) as (HstX & _).
    rewrite (bind_throw _ _ _ _ _ HX) in H. injection H as <- <-.
    split; [exact HstX | now left]. }
  assert (Hb1 : before ASR s = true).
  { eapply before_earlier; [exact Hb |].
    repeat (destruct Hentry as [Hentry | Hentry];
            [injection Hentry as <- _ _; cbn; lia |]). contradiction. }
  eapply (pass_stage _ _ ASR stage) in H;
    [| intros r1 st2 Hm; exact (stage_asr_skipped Hin _ _ Hst _ Hb1 Hm)
     | intros x st2 Hm; exact (stage_asr_outcome _ _ _ Hm)
     | other_stage Hentry
     | exact Hs | exact Hag | exact He | exact HF].
  clear Hs Hst He HF Hag.
  destruct H as [(raw & st2 & a2 & e2 & f2 & new2 & H & Hst & Hs & Hag & He & HF) | Hend];
    [| split; [apply Hend | right; apply Hend]].
  destruct Hentry as [Hentry | Hentry].
  { injection Hentry as <- <- <-.
    destruct (skipped_stage_throws st2 a2 e2 f2 TRANSCRIPT_POLISH _ _ err Hs Hin
                ltac:(simpl; tauto) Hb ltac:(intros st3 target Hq; apply Hthrow;
                  intros q Hout; rewrite Hq by exact Hout; now apply Hag) raw)
      as (stX & HX).
    destruct (stage_transcript_polish_skipped Hin _ _ Hst _ _ Hb HX) as (HstX & _).
    rewrite (bind_throw _ _ _ _ _ HX) in H. injection H as <- <-.
    split; [exact HstX | now left]. }
  assert (Hb2 : before TRANSCRIPT_POLISH s = true).
  { eapply before_earlier; [exact Hb |].
    repeat (destruct Hentry as [Hentry | Hentry];
            [injection Hentry as <- _ _; cbn; lia |]). contradiction. }
  eapply (pass_stage _ _ TRANSCRIPT_POLISH stage) in H;
    [| intros r1 st3 Hm; exact (stage_transcript_polish_skipped Hin _ _ Hst _ _ Hb2 Hm)
     | intros x st3 Hm; exact (stage_transcript_polish_outcome _ _ _ _ Hm)
     | other_stage Hentry
     | exact Hs | exact Hag | exact He | exact HF].
  clear Hs Hst He HF Hag.
  destruct H as [(polished & st3 & a3 & e3 & f3 & new3 & H & Hst & Hs & Hag & He & HF)
                | Hend];
    [| split; [apply Hend | right; apply Hend]].
  destruct Hentry as [Hentry | Hentry].
  { injection Hentry as <- <- <-.
    destruct (skipped_stage_throws st3 a3 e3 f3 SCRIPT_GEN _ _ err Hs Hin
                ltac:(simpl; tauto) Hb ltac:(intros st4 target Hq; apply Hthrow;
                  intros q Hout; rewrite Hq by exact Hout; now apply Hag) polished)
      as (stX & HX).
    destruct (stage_script_gen_skipped Hin _ _ Hst _ _ Hb HX) as (HstX & _).
    rewrite (bind_throw _ _ _ _ _ HX) in H. injection H as <- <-.
    split; [exact HstX | now left]. }
  destruct Hentry as [Hentry | []]. injection Hentry as <- <- <-.
  assert (Hb3 : before SCRIPT_GEN s = true)
    by (eapply before_earlier; [exact Hb | cbn; lia]).
  assert (Hb4 : before VIDEO_SUBMIT s = true)
    by (eapply before_earlier; [exact Hb | cbn; lia]).
  eapply (pass_stage _ _ SCRIPT_GEN VIDEO_POLLING) in H;
    [| intros r1 st4 Hm; exact (stage_script_gen_skipped Hin _ _ Hst _ _ Hb3 Hm)
     | intros x st4 Hm; exact (stage_script_gen_outcome _ _ _ _ Hm)
     | discriminate
     | exact Hs | exact Hag | exact He | exact HF].
  clear Hs Hst He HF Hag.
  destruct H as [(script & st4 & a4 & e4 & f4 & new4 & H & Hst & Hs & Hag & He & HF)
                | Hend];
    [| split; [apply Hend | right; apply Hend]].
  eapply (pass_stage _ _ VIDEO_SUBMIT VIDEO_POLLING) in H;
    [| intros r1 st5 Hm; exact (stage_video_submit_skipped Hin _ _ Hst _ _ _ Hb4 Hm)
     | intros x st5 Hm; exact (stage_video_submit_outcome _ _ _ _ _ Hm)
     | discriminate
     | exact Hs | exact Hag | exact He | exact HF].
  clear Hs Hst He HF Hag.
  destruct H as [(task_id & st5 & a5 & e5 & f5 & new5 & H & Hst & Hs & Hag & He & HF)
                | Hend];
    [| split; [apply Hend | right; apply Hend]].
  destruct (skipped_stage_throws st5 a5 e5 f5 VIDEO_POLLING _ _ err Hs Hin
              ltac:(simpl; tauto) Hb ltac:(intros st6 target Hq; apply Hthrow;
                intros q Hout; rewrite Hq by exact Hout; now apply Hag) task_id)
    as (stX & HX).
  destruct (stage_video_polling_skipped Hin _ _ Hst _ _ Hb HX) as (HstX & _).
  rewrite (bind_throw _ _ _ _ _ HX) in H. injection H as <- <-.
  split; [exact HstX | now left].
Qed.

End WithEnv.

End PipelineStages.

(** ** The job as a whole *)
Module PipelineClaims.
Import Stage Repository Media Pipeline PipelineSpec Effects PyStrFacts PipelineFacts
  PipelineStages.

Lemma run_message_not_skip (stage : JobStatus) (message : string) :
  run_message stage message -> message <> skip_message stage.
Proof.
  destruct stage; cbn; try contradiction; intros H; try (subst; discriminate).
  - destruct H as [-> | ->]; discriminate.
  - destruct H as (task_id & ->). discriminate.
Qed.

Section WithEnv.
Variable env : Env.

(** The start of a rerun: the job is found with its parent, the notice
    of the rerun is written, and the source is recorded. *)
Lemma prepare_outcome (loaded : Job) (st st1 : pstate) (c : context) :
  prepare env loaded st = (Return c, st1) ->
  jobs (session st) !! id loaded = Some loaded ->
  PyStr.truthy (parent_of loaded) = true ->
  exists parent,
    jobs (session st) !! parent_of loaded = Some parent
    /\ job c = loaded
    /\ job_dir c = Path.join (jobs_root env) (id loaded)
    /\ start_stage c = start_of loaded
    /\ parent_job_id c = parent_of loaded
    /\ parent_artifacts c = artifacts parent
    /\ snap (id loaded) st1
         (<["source_video" := source_path loaded]> (artifacts loaded))
         (events (session st)
            ++ [event (id loaded) QUEUED
                  (rerun_notice (start_of loaded) (parent_of loaded))])
         (fs st).
Proof.
  intros H Hjob Hparent. unfold prepare in H.
  apply step_of_result in H as (cfg & _ & H).
  fold (parent_of loaded) in H. fold (start_of loaded) in H.
  rewrite Hparent in H.
  rewrite session_ok_bind, commit_bind, bind_assoc in H.
  apply step_gets in H. cbv beta in H. cbn [session set_session] in H.
  unfold get_job in H. cbn [jobs put_job] in H.
  destruct (<[id loaded := with_error loaded None]> (jobs (session st))
              !! parent_of loaded) as [parent'|] eqn:Hp; [| discriminate H].
  rewrite bind_assoc, session_ok_bind, bind_assoc, commit_bind, ret_bind in H.
  apply step_gets in H. cbv beta in H.
  destruct (negb _); [discriminate H |].
  destruct (negb _ || negb _); [discriminate H |].
  eapply step_save_artifact
    with (a := artifacts loaded)
         (e := events (session st)
                 ++ [event (id loaded) QUEUED
                       (rerun_notice (start_of loaded) (parent_of loaded))])
         (f := fs st) in H.
  2:{ repeat split. exists (with_error loaded None). cbn.
      now rewrite lookup_insert_eq. }
  destruct H as (st' & Hs & H). apply step_ret in H as (<- & <-).
  assert (exists parent, jobs (session st) !! parent_of loaded = Some parent
                         /\ artifacts parent' = artifacts parent) as (parent & Hpar & Ha).
  { destruct (decide (id loaded = parent_of loaded)) as [Heq | Hne].
    - rewrite Heq, lookup_insert_eq in Hp. injection Hp as <-.
      exists loaded. now rewrite <- Heq.
    - rewrite lookup_insert_ne in Hp by exact Hne. now exists parent'. }
  exists parent. cbn. repeat split; try assumption; apply Hs.
Qed.

(** The start of a job, however it ends: at most the notice of the
    rerun is written. *)
Lemma prepare_events (loaded : Job) (st st' : pstate) (r : outcome context)
    (X : JobStatus) :
  value QUEUED <> value X ->
  settled (id loaded) st ->
  prepare env loaded st = (r, st') ->
  settled (id loaded) st'
  /\ exists new, events (session st') = events (session st) ++ new
                 /\ Forall (fun ev => event_status ev <> value X) new.
Proof.
  intros HX Hst H. unfold prepare in H.
  destruct (load_config env) as [cfg|err].
  2:{ injection H as <- <-. split; [exact Hst |]. exists []. now rewrite app_nil_r. }
  cbn [of_result] in H. rewrite ret_bind, session_ok_bind, commit_bind in H.
  destruct Hst as (He & Hsaved & Hsession).
  match type of H with
  | bind ?m ?k ?sa = _ =>
      assert (Hsa : settled (id loaded) sa)
        by (repeat split; cbn; rewrite lookup_insert_eq; eauto);
      assert (Hea : events (session sa) = events (session st)) by reflexivity;
      destruct (m sa) as [[lineage|err|] sb] eqn:Hm
  end.
  - rewrite (bind_return _ _ _ _ _ Hm) in H.
    assert (settled (id loaded) sb
            /\ exists new, events (session sb) = events (session st) ++ new
                           /\ Forall (fun ev => event_status ev <> value X) new)
      as (Hsb & new & Heb & HF).
    { destruct (PyStr.truthy _).
      - rewrite gets_bind in Hm.
        destruct (get_job _ _) as [parent|]; [| discriminate Hm].
        rewrite session_ok_bind, commit_bind in Hm. injection Hm as _ <-.
        split.
        + repeat split; cbn; rewrite lookup_insert_eq; eauto.
        + eexists. split; [reflexivity |]. now repeat constructor.
      - injection Hm as _ <-. split; [exact Hsa |]. exists [].
        now rewrite app_nil_r. }
    match type of H with
    | ?tail sb = _ => assert (Hq : quiet (id loaded) tail) by quiet
    end.
    destruct (Hq _ _ _ H Hsb) as (Hst' & He'). split; [exact Hst' |].
    exists new. split; [congruence | exact HF].
  - rewrite (bind_throw _ _ _ _ _ Hm) in H. injection H as <- <-.
    destruct (PyStr.truthy _); [| discriminate Hm].
    rewrite gets_bind in Hm.
    destruct (get_job _ _) as [parent|].
    + rewrite session_ok_bind, commit_bind in Hm. discriminate Hm.
    + injection Hm as _ <-. split; [exact Hsa |]. exists []. now rewrite app_nil_r.
  - rewrite (bind_stuck _ _ _ _ Hm) in H. injection H as <- <-.
    destruct (PyStr.truthy _); [| discriminate Hm].
    rewrite gets_bind in Hm.
    destruct (get_job _ _) as [parent|]; [| discriminate Hm].
    rewrite session_ok_bind, commit_bind in Hm. discriminate Hm.
Qed.

(** A rerun that completes. *)
Lemma rerun_completes (s0 s1 : system) (job_id : string) (loaded : Job) :
  jobs (db s0) !! job_id = Some loaded ->
  id loaded = job_id ->
  PyStr.truthy (parent_of loaded) = true ->
  (forall parent kind p,
      jobs (db s0) !! parent_of loaded = Some parent ->
      artifacts parent !! kind = Some p ->
      outside (Path.join (jobs_root env) job_id) p) ->
  execute_job env job_id s0 = (Return tt, s1) ->
  exists parent evs,
    jobs (db s0) !! parent_of loaded = Some parent
    /\ rerun_events s0 s1 loaded evs
    /\ (forall stage kind name,
          In (stage, kind, name) REQUIRED_REUSE ->
          before stage (start_of loaded) = true ->
          copied s0 s1 parent job_id (Path.join (jobs_root env) job_id) kind name)
    /\ (forall stage kind name,
          In (stage, kind, name) OPTIONAL_REUSE ->
          before stage (start_of loaded) = true ->
          copied_if_there s0 s1 parent job_id (Path.join (jobs_root env) job_id)
            kind name)
    /\ (forall p, outside (Path.join (jobs_root env) job_id) p ->
                  files s1 !! p = files s0 !! p).
Proof.
  intros Hjob Hid Hparent Hout H. subst job_id. unfold execute_job in H.
  destruct (execute_job_body env (id loaded) (open_session s0)) as [[[]|err|] p]
    eqn:Hbody; try discriminate H.
  injection H as <-. unfold execute_job_body in Hbody.
  apply step_gets in Hbody. cbv beta in Hbody. unfold get_job in Hbody.
  cbn [session open_session] in Hbody. rewrite Hjob in Hbody.
  apply bind_return_inv in Hbody as (c & st1 & Hprep & Hrun).
  apply prepare_outcome in Hprep; [| exact Hjob | exact Hparent].
  destruct Hprep as (parent & Hpar & Hc & Hdir & Hstart & _ & Hpa & Hs).
  cbn [session open_session fs] in Hpar, Hs.
  assert (Houtside : forall kind q, parent_artifacts c !! kind = Some q ->
                                    outside (job_dir c) q).
  { intros kind q Hq. rewrite Hdir. rewrite Hpa in Hq. exact (Hout _ _ _ Hpar Hq). }
  rewrite <- Hc in Hs at 1.
  eapply (run_stages_outcome env c Houtside) in Hrun;
    [| rewrite Hstart; apply normalize_in_sequence | exact Hs].
  destruct Hrun as (a1 & f1 & evs & Hs1 & Hsaved & Hevs & Ht & _ & Hreq & Hopt).
  rewrite Hc, Hstart in Hevs. rewrite Hc in Hs1. rewrite Hdir in Ht.
  destruct Hs1 as ((j & Hj & Ha) & He & Hf).
  exists parent, evs. split; [exact Hpar |]. split; [| split; [| split]].
  - split; [| exact Hevs]. cbn [db close_session]. rewrite Hsaved, He.
    now rewrite <- app_assoc.
  - intros stage kind name Hin Hb. rewrite <- Hstart in Hb.
    destruct (Hreq stage kind name Hin Hb)
      as (q & content & Hq & Hne & Hf0 & Hf1 & Ha1).
    rewrite Hpa in Hq. rewrite Hdir in Hf1, Ha1.
    exists q, content. repeat split; [exact Hq | exact Hne | exact Hf0 | |].
    + cbn [files close_session]. now rewrite Hf.
    + unfold artifact_of. cbn [db close_session]. now rewrite Hsaved, Hj, Ha.
  - intros stage kind name Hin Hb q content Hq Hne Hf0. rewrite <- Hstart in Hb.
    rewrite <- Hpa in Hq.
    destruct (Hopt stage kind name Hin Hb q content Hq Hne Hf0) as (Hf1 & Ha1).
    rewrite Hdir in Hf1, Ha1. split.
    + cbn [files close_session]. now rewrite Hf.
    + unfold artifact_of. cbn [db close_session]. now rewrite Hsaved, Hj, Ha.
  - intros q Hq. cbn [files close_session]. rewrite Hf.
    exact (touches_outside _ _ _ _ _ Ht Hq).
Qed.

Lemma rerun_cannot_complete (s0 s1 : system) (job_id : string) (loaded parent : Job)
    (stage : JobStatus) (kind name : string) :
  jobs (db s0) !! job_id = Some loaded ->
  id loaded = job_id ->
  PyStr.truthy (parent_of loaded) = true ->
  (forall parent kind p,
      jobs (db s0) !! parent_of loaded = Some parent ->
      artifacts parent !! kind = Some p ->
      outside (Path.join (jobs_root env) job_id) p) ->
  jobs (db s0) !! parent_of loaded = Some parent ->
  In (stage, kind, name) REQUIRED_REUSE ->
  before stage (start_of loaded) = true ->
  missing parent (files s0) kind ->
  execute_job env job_id s0 <> (Return tt, s1).
Proof.
  intros Hjob Hid Hparent Hout Hpar Hin Hb Hmiss H.
  destruct (rerun_completes s0 s1 job_id loaded Hjob Hid Hparent Hout H)
    as (parent' & evs & Hpar' & _ & Hreq & _).
  rewrite Hpar in Hpar'. injection Hpar' as <-.
  destruct (Hreq stage kind name Hin Hb) as (q & content & Hq & Hne & Hf0 & _).
  destruct Hmiss as [[Hnone | Hempty] | (q' & Hq' & _ & Hf')]; congruence.
Qed.

(** The [except] block records the failure. *)
Lemma on_exception_records (job_id : string) (e : exn) (p : pstate) :
  settled job_id p ->
  events (saved (on_exception job_id e p))
  = events (saved p) ++ [event job_id FAILED (exn_message e)]
  /\ failed_with (saved (on_exception job_id e p)) job_id e.
Proof.
  intros (_ & [j Hj] & _).
  cbv [on_exception rollback modify bind on_session set_job_error get_job commit].
  cbn [snd session saved]. rewrite Hj. cbn. split; [reflexivity |].
  eexists. cbn. rewrite lookup_insert_eq. now repeat split.
Qed.

(** A rerun without a required artifact: the run fails with the error
    of the artifact, if it gets to the stage at all. *)
Lemma rerun_missing_fails (s0 s1 : system) (r : outcome unit) (job_id : string)
    (loaded parent : Job) (stage : JobStatus) (kind name : string) (err : exn) :
  jobs (db s0) !! job_id = Some loaded ->
  id loaded = job_id ->
  PyStr.truthy (parent_of loaded) = true ->
  (forall parent kind p,
      jobs (db s0) !! parent_of loaded = Some parent ->
      artifacts parent !! kind = Some p ->
      outside (Path.join (jobs_root env) job_id) p) ->
  jobs (db s0) !! parent_of loaded = Some parent ->
  In (stage, kind, name) REQUIRED_REUSE ->
  before stage (start_of loaded) = true ->
  missing_error (artifacts parent) (files s0) kind (parent_of loaded) err ->
  execute_job env job_id s0 = (r, s1) ->
  (r = Throw err /\ failed_with (db s1) job_id err)
  \/ (r <> Return tt /\ ended_before s0 s1 stage).
Proof.
  intros Hjob Hid Hparent Hout Hpar Hentry Hb Hmiss H.
  assert (Hnot_return : r <> Return tt).
  { intros ->. revert H.
    eapply (rerun_cannot_complete s0 s1 job_id loaded parent stage kind name);
      try eassumption.
    destruct Hmiss as [(Hm & _) | (q & Hq & _)]; [now left | right; now exists q]. }
  subst job_id. unfold execute_job in H.
  destruct (execute_job_body env (id loaded) (open_session s0)) as [rb p] eqn:Hbody.
  assert (Hqueued : value QUEUED <> value stage) by other_stage Hentry.
  assert (Hfailed : value FAILED <> value stage) by other_stage Hentry.
  assert (Hcore : settled (id loaded) p
                  /\ (rb = Throw err
                      \/ exists new, events (session p) = events (db s0) ++ new
                                     /\ Forall (fun ev => event_status ev <> value stage)
                                          new)).
  { unfold execute_job_body in Hbody. rewrite gets_bind in Hbody.
    unfold get_job in Hbody. cbn [session open_session] in Hbody.
    rewrite Hjob in Hbody.
    assert (Hst0 : settled (id loaded) (open_session s0))
      by (repeat split; cbn; eauto).
    destruct (prepare env loaded (open_session s0)) as [[c|e1|] st1] eqn:Hprep.
    - rewrite (bind_return _ _ _ _ _ Hprep) in Hbody.
      destruct (prepare_events _ _ _ _ stage Hqueued Hst0 Hprep) as (Hst1 & _).
      destruct (prepare_outcome _ _ _ _ Hprep Hjob Hparent)
        as (parent' & Hpar' & Hc & Hdir & Hstart & Hpid & Hpa & Hs).
      cbn [session open_session fs] in Hpar', Hs.
      rewrite Hpar in Hpar'. injection Hpar' as <-.
      assert (Houtside : forall kind q, parent_artifacts c !! kind = Some q ->
                                        outside (job_dir c) q).
      { intros k q Hq. rewrite Hdir. rewrite Hpa in Hq. exact (Hout _ _ _ Hpar Hq). }
      rewrite <- Hc in Hs at 1. rewrite <- Hc in Hst1.
      eapply (run_stages_missing env c Houtside) with (err := err) in Hbody;
        [| rewrite Hstart; apply normalize_in_sequence | exact Hs | exact Hst1
         | exact Hentry | rewrite Hstart; exact Hb |].
      + rewrite Hc in Hbody. destruct Hbody as (Hstp & [-> | (new & He & HF)]).
        * split; [exact Hstp | now left].
        * split; [exact Hstp | right]. eexists. rewrite He, <- app_assoc.
          split; [reflexivity |]. apply List.Forall_cons; [exact Hqueued | exact HF].
      + intros st2 target Hfs. rewrite Hc, Hpid, Hpa.
        destruct Hmiss as [(Hm & ->) | (q & (Hk & Hne & Hf) & ->)].
        * now apply reuse_not_in_map.
        * apply reuse_not_on_disk. repeat split; [exact Hk | exact Hne |].
          rewrite Hfs; [exact Hf |]. rewrite Hdir. exact (Hout _ _ _ Hpar Hk).
    - rewrite (bind_throw _ _ _ _ _ Hprep) in Hbody. injection Hbody as <- <-.
      destruct (prepare_events _ _ _ _ stage Hqueued Hst0 Hprep) as (Hst1 & Hnew).
      split; [exact Hst1 | right; exact Hnew].
    - rewrite (bind_stuck _ _ _ _ Hprep) in Hbody. injection Hbody as <- <-.
      destruct (prepare_events _ _ _ _ stage Hqueued Hst0 Hprep) as (Hst1 & Hnew).
      split; [exact Hst1 | right; exact Hnew]. }
  destruct Hcore as (Hstp & Hcore).
  destruct (on_exception_records (id loaded) err p Hstp) as (_ & Hrec).
  destruct rb as [[]|e'|].
  - now injection H as <- _.
  - injection H as <- <-.
    destruct Hcore as [[= ->] | (new & He & HF)]; [left; now split | right].
    split; [discriminate |].
    destruct (on_exception_records (id loaded) e' p Hstp) as (He' & _).
    exists (new ++ [event (id loaded) FAILED (exn_message e')]).
    cbn [db close_session]. rewrite He'. destruct Hstp as (-> & _).
    rewrite He, <- app_assoc. split; [reflexivity |].
    apply Forall_app. split; [exact HF |]. now repeat constructor.
  - injection H as <- <-. destruct Hcore as [[=] | (new & He & HF)]. right.
    split; [discriminate |]. exists new. cbn [db close_session].
    destruct Hstp as (-> & _). now split.
Qed.

End WithEnv.




(** C10. A job id with no stored job: [execute_job] returns, raises
    nothing, and leaves the database (statuses, artifacts, metadata,
    events), the files and the remote world as they were. *)
Theorem execute_job_without_record_is_noop (env : Env) (s : system) (job_id : string) :
  get_job (db s) job_id = None ->
  execute_job env job_id s = (Return tt, s).
Proof.
  intros H. unfold execute_job, execute_job_body.
  rewrite (bind_return _ _ _ _ _ (eq_refl : gets _ (open_session s) = (_, _))).
  cbn [session open_session]. rewrite H. cbn. now rewrite close_open.
Qed.

Lemma execute_job_without_record_witness :
  get_job (db PipelineScenario.queued) "j3" = None
  /\ execute_job PipelineScenario.surroundings "j3" PipelineScenario.queued
     = (Return tt, PipelineScenario.queued).
Proof.
  split; [reflexivity |].
  apply (execute_job_without_record_is_noop PipelineScenario.surroundings). reflexivity.
Defined.

End PipelineClaims.

(** ** The pipeline: what a run never touches *)
Module PipelineSafety.
Import Stage Repository Media Pipeline PipelineSpec PipelineInvariants Effects
  PyStrFacts PipelineFacts.

Lemma inside_join (d n : string) : inside d (Path.join d n).
Proof. unfold inside, Path.join. rewrite <- append_assoc. apply prefix_app. Qed.

Lemma inside_outside (d p q : string) : inside d p -> outside d q -> q <> p.
Proof. unfold inside, outside. intros Hp Hq ->. congruence. Qed.

Section Confined.
Variables J D : string.

Lemma confined_refl (st : pstate) : confined J D st st.
Proof.
  repeat split; try reflexivity. exists []. now rewrite app_nil_r.
Qed.

Lemma confined_trans (st st1 st2 : pstate) :
  confined J D st st1 -> confined J D st1 st2 -> confined J D st st2.
Proof.
  intros (Hj1 & (n1 & He1 & Hn1) & Hf1) (Hj2 & (n2 & He2 & Hn2) & Hf2).
  repeat split.
  - intros other Ho. now rewrite Hj2, Hj1.
  - exists (n1 ++ n2). split; [now rewrite He2, He1, <- app_assoc |].
    apply Forall_app. now split.
  - intros p Hp. now rewrite Hf2, Hf1.
Qed.

(** A step that leaves the database alone. *)
Lemma same_database (st st' : pstate) :
  saved st' = saved st -> session st' = session st ->
  (forall p, outside D p -> fs st' !! p = fs st !! p) ->
  session_of J st -> session_of J st' /\ confined J D st st'.
Proof.
  intros Hsaved Hsession Hfs Hst. split.
  - unfold session_of. now rewrite Hsaved, Hsession.
  - unfold confined. rewrite Hsaved. repeat split; [| exact Hfs].
    exists []. now rewrite app_nil_r.
Qed.

Lemma safe_ret {A : Type} (x : A) : safe J D (ret x).
Proof. intros st r st' [= <- <-] H. split; [exact H | apply confined_refl]. Qed.

Lemma safe_throw {A : Type} (e : exn) : safe J D (@throw pstate A e).
Proof. intros st r st' [= <- <-] H. split; [exact H | apply confined_refl]. Qed.

Lemma safe_gets {A : Type} (g : pstate -> A) : safe J D (gets g).
Proof. intros st r st' [= <- <-] H. split; [exact H | apply confined_refl]. Qed.

Lemma safe_of_result {A : Type} (x : result A) : safe J D (of_result x).
Proof. destruct x; [apply safe_ret | apply safe_throw]. Qed.

Lemma safe_bind {A B : Type} (m : M pstate A) (k : A -> M pstate B) :
  safe J D m -> (forall x, safe J D (k x)) -> safe J D (bind m k).
Proof.
  intros Hm Hk st r st' H Hst. unfold bind in H.
  destruct (m st) as [[x|e|] st1] eqn:Hst1.
  - destruct (Hm _ _ _ Hst1 Hst) as (Hst1' & Hc1).
    destruct (Hk x _ _ _ H Hst1') as (Hst' & Hc').
    split; [exact Hst' | exact (confined_trans _ _ _ Hc1 Hc')].
  - injection H as <- <-. exact (Hm _ _ _ Hst1 Hst).
  - injection H as <- <-. exact (Hm _ _ _ Hst1 Hst).
Qed.

Lemma safe_on_world {A : Type} (m : M Http.World A) : safe J D (on_world m).
Proof.
  intros st r st' H Hst. unfold on_world in H.
  destruct (m (world st)) as [r' w]. injection H as <- <-.
  now apply same_database.
Qed.

Lemma safe_write_file (path content : string) :
  inside D path -> safe J D (write_file path content).
Proof.
  intros Hin st r st' [= <- <-] Hst. apply same_database; try reflexivity; [| exact Hst].
  intros p Hp. cbn. apply lookup_insert_ne. intros <-.
  exact (inside_outside _ _ _ Hin Hp eq_refl).
Qed.

Lemma safe_copy2 (source target : string) :
  inside D target -> safe J D (copy2 source target).
Proof.
  intros Hin st r st' H Hst. unfold copy2 in H.
  destruct (fs st !! source) as [content|];
    [destruct (String.eqb source target) |]; injection H as <- <-;
    try (split; [exact Hst | apply confined_refl]).
  apply same_database; try reflexivity; [| exact Hst].
  intros p Hp. cbn. apply lookup_insert_ne. intros <-.
  exact (inside_outside _ _ _ Hin Hp eq_refl).
Qed.

Lemma safe_commit : safe J D commit.
Proof.
  intros st r st' [= <- <-] (Hothers & (pending & He & Hown) & Hsaved & Hsession).
  split.
  - repeat split; cbn; try assumption. exists []. now rewrite app_nil_r.
  - repeat split; cbn; [exact Hothers | now exists pending].
Qed.

(** A write of the session to the record of the job, with events of
    the job. *)
Lemma safe_on_session (f : database -> result database) :
  (forall d d', f d = Ok d' ->
     (forall other, other <> J -> jobs d' !! other = jobs d !! other)
     /\ (exists new, events d' = events d ++ new /\ Forall (own J) new)
     /\ is_Some (jobs d' !! J)) ->
  safe J D (on_session f).
Proof.
  intros Hf st r st' H (Hothers & (pending & He & Hown) & Hsaved & Hsession).
  unfold on_session in H. destruct (f (session st)) as [d'|err] eqn:Hd.
  - injection H as <- <-. destruct (Hf _ _ Hd) as (Ho & (new & Hn & Hnown) & Hj).
    split; [| repeat split; cbn; try reflexivity; exists []; now rewrite app_nil_r].
    repeat split; cbn; [| | exact Hsaved | exact Hj].
    + intros other Hne. now rewrite Ho, Hothers.
    + exists (pending ++ new). split; [now rewrite Hn, He, <- app_assoc |].
      apply Forall_app. now split.
  - injection H as <- <-. split; [| apply confined_refl].
    repeat split; try assumption. now exists pending.
Qed.

Lemma put_job_own (d : database) (j : Job) :
  (forall other, other <> J -> jobs (put_job d J j) !! other = jobs d !! other)
  /\ (exists new, events (put_job d J j) = events d ++ new /\ Forall (own J) new)
  /\ is_Some (jobs (put_job d J j) !! J).
Proof.
  repeat split; cbn.
  - intros other Hne. now apply lookup_insert_ne.
  - exists []. now rewrite app_nil_r.
  - rewrite lookup_insert_eq. eauto.
Qed.

Lemma append_event_own (d : database) (status msg : string) :
  is_Some (jobs d !! J) ->
  (forall other, other <> J ->
     jobs (append_event d J status msg) !! other = jobs d !! other)
  /\ (exists new, events (append_event d J status msg) = events d ++ new
                  /\ Forall (own J) new)
  /\ is_Some (jobs (append_event d J status msg) !! J).
Proof.
  intros Hj. repeat split; cbn; [| exact Hj].
  eexists. split; [reflexivity |]. now repeat constructor.
Qed.

Lemma safe_put_job (j : Job) : safe J D (on_session (fun d => Ok (put_job d J j))).
Proof. apply safe_on_session. intros d d' [= <-]. apply put_job_own. Qed.

Lemma safe_patch_meta (kw : list (string * json)) :
  safe J D (on_session (fun d => patch_meta d J kw)).
Proof.
  apply safe_on_session. intros d d'. unfold patch_meta, get_job.
  destruct (jobs d !! J); [| discriminate]. intros [= <-]. apply put_job_own.
Qed.

Lemma safe_put_artifact (kind path : string) :
  safe J D (on_session (fun d => put_artifact d J kind path)).
Proof.
  apply safe_on_session. intros d d'. unfold put_artifact, get_job.
  destruct (jobs d !! J); [| discriminate]. intros [= <-]. apply put_job_own.
Qed.

Lemma safe_set_job_status (status msg : string) :
  safe J D (on_session (fun d => set_job_status d J status msg)).
Proof.
  apply safe_on_session. intros d d'. unfold set_job_status, get_job.
  destruct (jobs d !! J); [| discriminate]. intros [= <-].
  destruct (PyStr.truthy msg); [| apply put_job_own].
  destruct (put_job_own d (with_status j status)) as (Ho & _ & Hj).
  destruct (append_event_own _ status msg Hj) as (Ho' & (new & Hn & Hown) & Hj').
  repeat split; [| now exists new | exact Hj'].
  intros other Hne. now rewrite Ho', Ho.
Qed.

Lemma safe_append_event (status msg : string) :
  safe J D (on_session (fun d => Ok (append_event d J status msg))).
Proof.
  intros st r st' [= <- <-] (Hothers & (pending & He & Hown) & Hsaved & Hsession).
  split; [| repeat split; cbn; try reflexivity; exists []; now rewrite app_nil_r].
  repeat split; cbn; try assumption.
  eexists. rewrite He, <- app_assoc. split; [reflexivity |].
  apply Forall_app. split; [exact Hown | now repeat constructor].
Qed.

Lemma safe_set_stage (status : JobStatus) (msg : string) :
  safe J D (_set_stage J status msg).
Proof.
  apply safe_bind; [apply safe_set_job_status | intros _; apply safe_commit].
Qed.

Lemma safe_save_artifact (kind path : string) : safe J D (_save_artifact J kind path).
Proof.
  apply safe_bind; [apply safe_put_artifact | intros _; apply safe_commit].
Qed.

Lemma safe_reuse (P : string) (pa : gmap string string) (kind target : string)
    (required : bool) :
  inside D target -> safe J D (_reuse_parent_artifact J P pa kind target required).
Proof.
  intros Hin. unfold _reuse_parent_artifact.
  destruct (pa !! kind) as [[|c p]|]; try destruct required;
    try apply safe_ret; try apply safe_throw.
  all: apply safe_bind; [apply safe_gets |]; intros [|];
    try apply safe_ret; try apply safe_throw.
  all: apply safe_bind; [now apply safe_copy2 | intros _].
  all: apply safe_bind; [apply safe_save_artifact | intros _; apply safe_ret].
Qed.

Lemma safe_read_text (path msg : string) : safe J D (_read_text_or_fail path msg).
Proof.
  unfold _read_text_or_fail. apply safe_bind; [apply safe_gets |].
  intros [text|]; [| apply safe_throw].
  destruct (PyStr.truthy _); [apply safe_ret | apply safe_throw].
Qed.

Lemma safe_probe (env : Env) (path : string) : safe J D (probe env path).
Proof.
  unfold probe. apply safe_bind; [apply safe_gets | intros files].
  apply safe_of_result.
Qed.

Lemma safe_run_tool (env : Env) (cmd : ffmpeg_cmd) (out : string) :
  inside D out -> safe J D (run_tool env cmd out).
Proof.
  intros Hin. unfold run_tool. apply safe_bind; [apply safe_gets | intros files].
  apply safe_bind; [apply safe_of_result | intros content].
  now apply safe_write_file.
Qed.

End Confined.

(** A computation of the run that keeps to the job. *)
Ltac safe :=
  unfold reuse, dump_meta, _write_json, _write_text, extract_asr_clip_to_wav,
    normalize_source_video, normalize_hook_video, concat_with_source;
  rewrite ?parent_join by reflexivity;
  repeat first
    [ apply safe_ret | apply safe_throw | apply safe_gets | apply safe_of_result
    | apply safe_on_world | apply safe_commit | apply safe_set_stage
    | apply safe_patch_meta | apply safe_save_artifact | apply safe_set_job_status
    | apply safe_put_job | apply safe_append_event
    | apply safe_read_text | apply safe_probe
    | apply safe_reuse; apply inside_join
    | apply safe_write_file; apply inside_join
    | apply safe_run_tool; apply inside_join
    | apply safe_bind; [| intros ?]
    | match goal with
      | |- safe _ _ (match ?x with _ => _ end) => destruct x
      end ].

Section WithEnv.
Variable env : Env.
Variable c : context.

Local Abbreviation J := (id (job c)).
Local Abbreviation D := (job_dir c).

Lemma safe_stage_preprocessing : safe J D (stage_preprocessing env c).
Proof. unfold stage_preprocessing. safe. Qed.

Lemma safe_stage_asr : safe J D (stage_asr env c).
Proof. unfold stage_asr. safe. Qed.

Lemma safe_stage_transcript_polish (raw : string) :
  safe J D (stage_transcript_polish env c raw).
Proof. unfold stage_transcript_polish. safe. Qed.

Lemma safe_stage_script_gen (polished : string) :
  safe J D (stage_script_gen env c polished).
Proof. unfold stage_script_gen. safe. Qed.

Lemma safe_stage_video_submit (script : json) (sm : VideoMeta) :
  safe J D (stage_video_submit env c script sm).
Proof. unfold stage_video_submit. safe. Qed.

Lemma safe_stage_video_polling (task_id : string) :
  safe J D (stage_video_polling env c task_id).
Proof. unfold stage_video_polling. safe. Qed.

Lemma safe_stage_postprocess (sm : VideoMeta) (raw : string) :
  safe J D (stage_postprocess env c sm raw).
Proof. unfold stage_postprocess. safe. Qed.

Lemma safe_run_stages : safe J D (run_stages env c).
Proof.
  unfold run_stages.
  apply safe_bind; [apply safe_stage_preprocessing | intros sm].
  apply safe_bind; [apply safe_stage_asr | intros raw].
  apply safe_bind; [apply safe_stage_transcript_polish | intros polished].
  apply safe_bind; [apply safe_stage_script_gen | intros script].
  apply safe_bind; [apply safe_stage_video_submit | intros task_id].
  apply safe_bind; [apply safe_stage_video_polling | intros raw_path].
  apply safe_stage_postprocess.
Qed.

Lemma safe_prepare (loaded : Job) :
  safe (id loaded) (Path.join (jobs_root env) (id loaded)) (prepare env loaded).
Proof. unfold prepare. safe. Qed.

(** What [prepare] fixes of the context. *)
Lemma prepare_context (loaded : Job) (st st' : pstate) (c' : context) :
  prepare env loaded st = (Return c', st') ->
  job c' = loaded /\ job_dir c' = Path.join (jobs_root env) (id loaded).
Proof.
  unfold prepare. intros H.
  repeat (apply bind_return_inv in H as (? & ? & _ & H)).
  destruct (negb _); [discriminate H |].
  destruct (negb _ || negb _); [discriminate H |].
  apply bind_return_inv in H as (? & ? & _ & H).
  injection H as <- _. now split.
Qed.

End WithEnv.

Lemma safe_body (env : Env) (loaded : Job) :
  safe (id loaded) (Path.join (jobs_root env) (id loaded))
    (c <- prepare env loaded ;; run_stages env c).
Proof.
  intros st r st' H Hst. unfold bind in H.
  destruct (prepare env loaded st) as [[c|e|] st1] eqn:Hprep.
  - destruct (safe_prepare env loaded _ _ _ Hprep Hst) as (Hst1 & Hc1).
    destruct (prepare_context env loaded _ _ _ Hprep) as (Hjob & Hdir).
    pose proof (safe_run_stages env c) as Hrun. rewrite Hjob, Hdir in Hrun.
    destruct (Hrun _ _ _ H Hst1) as (Hst' & Hc').
    split; [exact Hst' | exact (confined_trans _ _ _ _ _ Hc1 Hc')].
  - injection H as <- <-. exact (safe_prepare env loaded _ _ _ Hprep Hst).
  - injection H as <- <-. exact (safe_prepare env loaded _ _ _ Hprep Hst).
Qed.

End PipelineSafety.

(** ** The pipeline: how a run ends *)
Module PipelineRuns.
Import Stage Repository Media Pipeline PipelineSpec PipelineInvariants Effects
  PyStrFacts PipelineFacts PipelineStages PipelineSafety.

Section WithEnv.
Variable env : Env.

(** The [except] block, where the job is stored. *)
Lemma on_exception_failed (job_id : string) (e : exn) (p : pstate) :
  is_Some (jobs (saved p) !! job_id) ->
  (forall other, other <> job_id ->
     jobs (saved (on_exception job_id e p)) !! other = jobs (saved p) !! other)
  /\ events (saved (on_exception job_id e p))
     = events (saved p) ++ [event job_id FAILED (exn_message e)]
  /\ failed_with (saved (on_exception job_id e p)) job_id e
  /\ fs (on_exception job_id e p) = fs p.
Proof.
  intros [j Hj].
  cbv [on_exception rollback modify bind on_session set_job_error get_job commit].
  cbn [snd session saved]. rewrite Hj. cbn. repeat split.
  - intros other Hne. now apply lookup_insert_ne.
  - eexists. cbn. rewrite lookup_insert_eq. now repeat split.
Qed.

Lemma open_session_of (s : system) (job_id : string) :
  is_Some (jobs (db s) !! job_id) -> session_of job_id (open_session s).
Proof.
  intros Hj. repeat split; cbn; try assumption. exists []. now rewrite app_nil_r.
Qed.

(** The body of [execute_job] on a stored job. *)
Lemma body_unfold (s : system) (job_id : string) (loaded : Job) :
  jobs (db s) !! job_id = Some loaded ->
  execute_job_body env job_id (open_session s)
  = (c <- prepare env loaded ;; run_stages env c) (open_session s).
Proof.
  intros Hjob. unfold execute_job_body. rewrite gets_bind. unfold get_job.
  cbn [session open_session]. now rewrite Hjob.
Qed.

Lemma execute_job_confined_run (s s' : system) (r : outcome unit) (job_id : string) :
  (forall j, jobs (db s) !! job_id = Some j -> id j = job_id) ->
  execute_job env job_id s = (r, s') ->
  confined_run job_id (Path.join (jobs_root env) job_id) s s'.
Proof.
  intros Hid H. unfold execute_job in H.
  destruct (jobs (db s) !! job_id) as [loaded|] eqn:Hjob.
  - rewrite (body_unfold _ _ _ Hjob) in H. specialize (Hid _ eq_refl). subst job_id.
    destruct ((c <- prepare env loaded ;; run_stages env c) (open_session s))
      as [rb p] eqn:Hbody.
    destruct (safe_body env loaded _ _ _ Hbody
                (open_session_of s _ ltac:(rewrite Hjob; eauto)))
      as ((_ & _ & Hsaved & _) & Hothers & Hevents & Hfiles).
    destruct rb as [[]|e|]; injection H as <- <-.
    + repeat split; assumption.
    + destruct (on_exception_failed (id loaded) e p Hsaved) as (Ho & He & _ & Hf).
      repeat split; cbn [db files close_session].
      * intros other Hne. now rewrite Ho, Hothers.
      * destruct Hevents as (new & Hnew & Hown). cbn in Hnew.
        exists (new ++ [event (id loaded) FAILED (exn_message e)]).
        rewrite He, Hnew, <- app_assoc. split; [reflexivity |].
        apply Forall_app. split; [exact Hown | now repeat constructor].
      * intros q Hq. rewrite Hf. now apply Hfiles.
    + repeat split; assumption.
  - unfold execute_job_body in H. rewrite gets_bind in H. unfold get_job in H.
    cbn [session open_session] in H. rewrite Hjob in H. cbn in H.
    injection H as <- <-. rewrite close_open.
    repeat split; try reflexivity. exists []. now rewrite app_nil_r.
Qed.

(** The last stage, from a state that has the job. *)
Lemma postprocess_result (c : context) (sm : VideoMeta) (raw : string)
    (st st' : pstate) :
  stage_postprocess env c sm raw st = (Return tt, st') ->
  is_Some (jobs (session st) !! id (job c)) ->
  exists j,
    jobs (saved st') !! id (job c) = Some j
    /\ status j = value COMPLETED
    /\ artifacts j !! "hook_video_norm"
       = Some (Path.join (job_dir c) "hook_video_norm.mp4")
    /\ artifacts j !! "final_video" = Some (Path.join (job_dir c) "final_video.mp4")
    /\ is_Some (fs st' !! Path.join (job_dir c) "hook_video_norm.mp4")
    /\ is_Some (fs st' !! Path.join (job_dir c) "final_video.mp4")
    /\ exists earlier,
         events (saved st')
         = earlier ++ [event (id (job c)) COMPLETED "任务完成，成片已输出"].
Proof.
  intros H [j0 Hj0].
  assert (Hs : snap (id (job c)) st (artifacts j0) (events (session st)) (fs st))
    by (repeat split; eauto).
  unfold stage_postprocess in H. do 2 step H Hs.
  unfold normalize_hook_video, concat_with_source in H.
  rewrite !parent_join in H by reflexivity.
  repeat step H Hs.
  match type of H with context [if ?b then _ else _] => destruct b end;
    repeat step H Hs.
  all: destruct Hs as ((j & Hj & Ha) & He & Hf);
    revert H; cbv [bind on_session set_job_status get_job commit modify];
    rewrite Hj; cbn; intros [= <-]; eexists; cbn; rewrite lookup_insert_eq;
    (split; [reflexivity |]); cbn; rewrite Ha, Hf;
    repeat split; lookup; eauto.
Qed.

Lemma execute_job_throws (s : system) (job_id : string) (loaded : Job) (e : exn)
    (p : pstate) :
  jobs (db s) !! job_id = Some loaded ->
  prepare env loaded (open_session s) = (Throw e, p) ->
  execute_job env job_id s = (Throw e, close_session (on_exception job_id e p)).
Proof.
  intros Hjob Hprep. unfold execute_job. rewrite (body_unfold _ _ _ Hjob).
  now rewrite (bind_throw _ _ _ _ _ Hprep).
Qed.

End WithEnv.

(** X1. Whatever the outcome of [execute_job] on a job (stored under its
    own id), the records of all the other jobs are what they were, and
    the events are the events of before followed by events of the job. *)
Theorem execute_job_keeps_other_jobs (env : Env) (s s' : system) (r : outcome unit)
    (job_id : string) :
  (forall j, jobs (db s) !! job_id = Some j -> id j = job_id) ->
  execute_job env job_id s = (r, s') ->
  (forall other, other <> job_id -> jobs (db s') !! other = jobs (db s) !! other)
  /\ exists new, events (db s') = events (db s) ++ new
                 /\ Forall (fun ev => event_job_id ev = job_id) new.
Proof.
  intros Hid H. destruct (execute_job_confined_run env s s' r job_id Hid H)
    as (Ho & He & _).
  split; [exact Ho | exact He].
Qed.

Lemma execute_job_keeps_other_jobs_witness :
  (forall other, other <> "j2" ->
     jobs (db PipelineScenario.completed) !! other
     = jobs (db PipelineScenario.queued) !! other)
  /\ exists new,
       events (db PipelineScenario.completed)
       = events (db PipelineScenario.queued) ++ new
       /\ Forall (fun ev => event_job_id ev = "j2") new.
Proof.
  apply (execute_job_keeps_other_jobs PipelineScenario.surroundings
           PipelineScenario.queued PipelineScenario.completed (Return tt) "j2").
  - intros j Hj. vm_compute in Hj. now injection Hj as <-.
  - vm_compute. reflexivity.
Defined.

(** X2. Whatever the outcome of [execute_job] on a job (stored under its
    own id), every file that is not below the directory of the job,
    [jobs_root/job_id], is what it was: the source and the artifacts of
    other jobs are never written. *)
Theorem execute_job_writes_in_job_dir (env : Env) (s s' : system) (r : outcome unit)
    (job_id : string) :
  (forall j, jobs (db s) !! job_id = Some j -> id j = job_id) ->
  execute_job env job_id s = (r, s') ->
  forall p, outside (Path.join (jobs_root env) job_id) p ->
            files s' !! p = files s !! p.
Proof.
  intros Hid H. destruct (execute_job_confined_run env s s' r job_id Hid H)
    as (_ & _ & Hf).
  exact Hf.
Qed.

Lemma execute_job_writes_in_job_dir_witness :
  files PipelineScenario.completed !! "/data/jobs/j1/hook_video_raw.mp4"
  = files PipelineScenario.queued !! "/data/jobs/j1/hook_video_raw.mp4".
Proof.
  apply (execute_job_writes_in_job_dir PipelineScenario.surroundings
           PipelineScenario.queued PipelineScenario.completed (Return tt) "j2").
  - intros j Hj. vm_compute in Hj. now injection Hj as <-.
  - vm_compute. reflexivity.
  - reflexivity.
Defined.

(** X3. When [execute_job] raises on a stored job, the exception is
    recorded before it is raised again: the job is committed with the
    status [failed] and with the text of the exception as its error
    message, and the last event is the failure with that text. *)
Theorem execute_job_failure_is_recorded (env : Env) (s s' : system) (job_id : string)
    (j : Job) (e : exn) :
  jobs (db s) !! job_id = Some j ->
  id j = job_id ->
  execute_job env job_id s = (Throw e, s') ->
  failed_with (db s') job_id e
  /\ exists earlier,
       events (db s') = earlier ++ [event job_id FAILED (exn_message e)].
Proof.
  intros Hjob Hid H. subst job_id. unfold execute_job in H.
  rewrite (body_unfold _ _ _ _ Hjob) in H.
  destruct ((c <- prepare env j ;; run_stages env c) (open_session s))
    as [rb p] eqn:Hbody.
  destruct (safe_body env j _ _ _ Hbody
              (open_session_of s _ ltac:(rewrite Hjob; eauto)))
    as ((_ & _ & Hsaved & _) & _).
  destruct rb as [[]|e'|]; try discriminate H. injection H as <- <-.
  destruct (on_exception_failed (id j) e' p Hsaved) as (_ & He & Hfailed & _).
  split; [exact Hfailed |]. eexists. exact He.
Qed.

Lemma execute_job_failure_is_recorded_witness :
  let e := PipelineError
             (missing_on_disk "transcript_raw" "/archive/transcript_raw.txt") in
  let s' := snd (execute_job PipelineScenario.surroundings "j2" PipelineScenario.stale) in
  failed_with (db s') "j2" e
  /\ exists earlier, events (db s') = earlier ++ [event "j2" FAILED (exn_message e)].
Proof.
  apply (execute_job_failure_is_recorded PipelineScenario.surroundings
           PipelineScenario.stale _ "j2" PipelineScenario.stale_rerun).
  - reflexivity.
  - reflexivity.
  - vm_compute. reflexivity.
Defined.

(** X4. When [execute_job] returns on a stored job, the job is committed
    with the status [completed], its last event is the completion, and
    it records [hook_video_norm] and [final_video] under the files of
    these names in its own directory, which exist. *)
Theorem execute_job_completed (env : Env) (s s' : system) (job_id : string) (j : Job) :
  jobs (db s) !! job_id = Some j ->
  id j = job_id ->
  execute_job env job_id s = (Return tt, s') ->
  let directory := Path.join (jobs_root env) job_id in
  exists j',
    jobs (db s') !! job_id = Some j'
    /\ status j' = value COMPLETED
    /\ artifacts j' !! "hook_video_norm" = Some (Path.join directory "hook_video_norm.mp4")
    /\ artifacts j' !! "final_video" = Some (Path.join directory "final_video.mp4")
    /\ is_Some (files s' !! Path.join directory "hook_video_norm.mp4")
    /\ is_Some (files s' !! Path.join directory "final_video.mp4")
    /\ exists earlier,
         events (db s') = earlier ++ [event job_id COMPLETED "任务完成，成片已输出"].
Proof.
  intros Hjob Hid H directory. subst job_id directory. unfold execute_job in H.
  rewrite (body_unfold _ _ _ _ Hjob) in H.
  destruct ((c <- prepare env j ;; run_stages env c) (open_session s))
    as [rb p] eqn:Hbody.
  destruct rb as [[]|e'|]; try discriminate H. injection H as <-.
  apply bind_return_inv in Hbody as (c & st & Hprep & Hrun).
  destruct (safe_prepare env j _ _ _ Hprep
              (open_session_of s _ ltac:(rewrite Hjob; eauto))) as (Hst & _).
  destruct (prepare_context env j _ _ _ Hprep) as (Hc & Hdir).
  rewrite <- Hc in Hst at 1. unfold run_stages in Hrun.
  apply bind_return_inv in Hrun as (sm & st1 & H1 & Hrun).
  destruct (safe_stage_preprocessing env c _ _ _ H1 Hst) as (Hst1 & _). clear Hst.
  apply bind_return_inv in Hrun as (raw & st2 & H2 & Hrun).
  destruct (safe_stage_asr env c _ _ _ H2 Hst1) as (Hst2 & _). clear Hst1.
  apply bind_return_inv in Hrun as (polished & st3 & H3 & Hrun).
  destruct (safe_stage_transcript_polish env c _ _ _ _ H3 Hst2) as (Hst3 & _). clear Hst2.
  apply bind_return_inv in Hrun as (script & st4 & H4 & Hrun).
  destruct (safe_stage_script_gen env c _ _ _ _ H4 Hst3) as (Hst4 & _). clear Hst3.
  apply bind_return_inv in Hrun as (task_id & st5 & H5 & Hrun).
  destruct (safe_stage_video_submit env c _ _ _ _ _ H5 Hst4) as (Hst5 & _). clear Hst4.
  apply bind_return_inv in Hrun as (hook_raw & st6 & H6 & Hrun).
  destruct (safe_stage_video_polling env c _ _ _ _ H6 Hst5) as (Hst6 & _). clear Hst5.
  destruct Hst6 as (_ & _ & _ & Hpresent).
  destruct (postprocess_result env c sm hook_raw st6 p Hrun Hpresent) as (j' & Hres).
  rewrite Hc, Hdir in Hres. exists j'. exact Hres.
Qed.

Lemma execute_job_completed_witness :
  exists j',
    jobs (db PipelineScenario.completed) !! "j2" = Some j'
    /\ status j' = value COMPLETED
    /\ artifacts j' !! "hook_video_norm" = Some "/data/jobs/j2/hook_video_norm.mp4"
    /\ artifacts j' !! "final_video" = Some "/data/jobs/j2/final_video.mp4"
    /\ is_Some (files PipelineScenario.completed !! "/data/jobs/j2/hook_video_norm.mp4")
    /\ is_Some (files PipelineScenario.completed !! "/data/jobs/j2/final_video.mp4")
    /\ exists earlier,
         events (db PipelineScenario.completed)
         = earlier ++ [event "j2" COMPLETED "任务完成，成片已输出"].
Proof.
  apply (execute_job_completed PipelineScenario.surroundings PipelineScenario.queued
           PipelineScenario.completed "j2" PipelineScenario.rerun).
  - reflexivity.
  - reflexivity.
  - vm_compute. reflexivity.
Defined.

Lemma on_exception_job (job_id : string) (e : exn) (p : pstate) (j : Job) :
  jobs (saved p) !! job_id = Some j ->
  jobs (saved (on_exception job_id e p)) !! job_id
  = Some (with_error (with_status j (value FAILED)) (Some (exn_message e)))
  /\ fs (on_exception job_id e p) = fs p
  /\ world (on_exception job_id e p) = world p.
Proof.
  intros Hj.
  cbv [on_exception rollback modify bind on_session set_job_error get_job commit].
  cbn [snd session saved]. rewrite Hj. cbn. now rewrite lookup_insert_eq.
Qed.

(** X5. A run whose configuration loads stops before its first stage when
    the parent of the rerun is not stored, else when the source video is
    not there, else when ffmpeg or ffprobe is missing: it raises the
    [PipelineError] of that check, the job is failed with its message,
    and no file, no remote state, no artifact and no meta entry has
    changed. *)
Theorem execute_job_precheck_fails (env : Env) (s : system) (job_id : string)
    (j : Job) (cfg : AppConfig) (msg : string) :
  jobs (db s) !! job_id = Some j ->
  id j = job_id ->
  load_config env = Ok cfg ->
  precheck_error env s j = Some msg ->
  exists s' j',
    execute_job env job_id s = (Throw (PipelineError msg), s')
    /\ files s' = files s
    /\ remote s' = remote s
    /\ jobs (db s') !! job_id = Some j'
    /\ status j' = value FAILED
    /\ error_message j' = Some msg
    /\ artifacts j' = artifacts j
    /\ meta j' = meta j.
Proof.
  intros Hjob Hid Hcfg Hpre. subst job_id.
  assert (Hprep : exists p,
            prepare env j (open_session s) = (Throw (PipelineError msg), p)
            /\ fs p = files s /\ world p = remote s
            /\ jobs (saved p) !! id j = Some (with_error j None)).
  { unfold precheck_error in Hpre. unfold prepare. rewrite Hcfg.
    cbv [of_result bind on_session commit modify gets throw ret get_job put_job
         set_session open_session].
    cbn [session saved fs world jobs events fst snd].
    set (pid := text_or_empty (meta_get (meta j) "rerun_of_job_id")) in *.
    assert (Hsame : bool_decide (is_Some (<[id j := with_error j None]> (jobs (db s)) !! pid))
                    = bool_decide (is_Some (jobs (db s) !! pid))).
    { apply bool_decide_ext. destruct (decide (pid = id j)) as [-> | Hne].
      - rewrite lookup_insert_eq, Hjob. split; eauto.
      - now rewrite lookup_insert_ne by congruence. }
    assert (Hthere : <[id j := with_error j None]> (jobs (db s)) !! id j
                     = Some (with_error j None)) by apply lookup_insert_eq.
    destruct (PyStr.truthy pid); cbn [andb] in Hpre.
    - rewrite <- Hsame in Hpre. cbn [fs saved session world jobs].
      destruct (<[id j := with_error j None]> (jobs (db s)) !! pid) as [parent|].
      + rewrite bool_decide_eq_true_2 in Hpre by eauto. cbn [negb] in Hpre.
        cbn [fs saved session world append_event jobs].
        destruct (negb (bool_decide (is_Some (files s !! source_path j)))).
        * injection Hpre as <-. eexists. now repeat split.
        * destruct (negb (ffmpeg_available (tools env))
                    || negb (ffprobe_available (tools env))); [| discriminate Hpre].
          injection Hpre as <-. eexists. now repeat split.
      + rewrite bool_decide_eq_false_2 in Hpre by (intros [? ?]; discriminate).
        injection Hpre as <-. eexists. now repeat split.
    - cbn [fs saved session world jobs].
      destruct (negb (bool_decide (is_Some (files s !! source_path j)))).
      + injection Hpre as <-. eexists. now repeat split.
      + destruct (negb (ffmpeg_available (tools env))
                  || negb (ffprobe_available (tools env))); [| discriminate Hpre].
        injection Hpre as <-. eexists. now repeat split. }
  destruct Hprep as (p & Hprep & Hfs & Hworld & Hsaved).
  destruct (on_exception_job (id j) (PipelineError msg) p _ Hsaved) as (Hj' & Hf & Hw).
  eexists. eexists. split; [exact (execute_job_throws env s _ _ _ _ Hjob Hprep) |].
  cbn [files remote db close_session]. rewrite Hf, Hw, Hj'. now repeat split.
Qed.

Lemma execute_job_precheck_fails_witness :
  exists s' j',
    execute_job PipelineScenario.surroundings "j2" RunScenario.unsourced
    = (Throw (PipelineError "源视频不存在: /data/jobs/j2/source.mp4"), s')
    /\ files s' = files RunScenario.unsourced
    /\ remote s' = remote RunScenario.unsourced
    /\ jobs (db s') !! "j2" = Some j'
    /\ status j' = value FAILED
    /\ error_message j' = Some "源视频不存在: /data/jobs/j2/source.mp4"
    /\ artifacts j' = artifacts PipelineScenario.rerun
    /\ meta j' = meta PipelineScenario.rerun.
Proof.
  apply (execute_job_precheck_fails PipelineScenario.surroundings RunScenario.unsourced
           "j2" PipelineScenario.rerun PipelineScenario.settings).
  - reflexivity.
  - reflexivity.
  - reflexivity.
  - vm_compute. reflexivity.
Defined.

End PipelineRuns.

(** ** The pipeline: the stages that send nothing *)
Module PipelineOffline.
Import Stage Repository Media Pipeline PipelineSpec PipelineInvariants Effects
  PyStrFacts PipelineFacts.

Lemma offline_ret {A : Type} (x : A) : offline (ret x).
Proof. intros st r st' [= <- <-]. now split. Qed.

Lemma offline_throw {A : Type} (e : exn) : offline (@throw pstate A e).
Proof. intros st r st' [= <- <-]. now split. Qed.

Lemma offline_gets {A : Type} (g : pstate -> A) : offline (gets g).
Proof. intros st r st' [= <- <-]. now split. Qed.

Lemma offline_of_result {A : Type} (x : result A) : offline (of_result x).
Proof. destruct x; [apply offline_ret | apply offline_throw]. Qed.

Lemma offline_bind {A B : Type} (m : M pstate A) (k : A -> M pstate B) :
  offline m -> (forall x, offline (k x)) -> offline (bind m k).
Proof.
  intros Hm Hk st r st' H. unfold bind in H.
  destruct (m st) as [[x|e|] st1] eqn:Hst1.
  - destruct (Hm _ _ _ Hst1) as (Hw1 & _). destruct (Hk x _ _ _ H) as (Hw & Hr).
    split; [congruence | exact Hr].
  - injection H as <- <-. destruct (Hm _ _ _ Hst1) as (Hw1 & _). now split.
  - destruct (Hm _ _ _ Hst1) as (_ & Hr). now destruct Hr.
Qed.

Lemma offline_on_session (f : database -> result database) : offline (on_session f).
Proof.
  intros st r st' H. unfold on_session in H.
  destruct (f (session st)); injection H as <- <-; now split.
Qed.

Lemma offline_commit : offline commit.
Proof. intros st r st' [= <- <-]. now split. Qed.

Lemma offline_write_file (path content : string) : offline (write_file path content).
Proof. intros st r st' [= <- <-]. now split. Qed.

Lemma offline_copy2 (source target : string) : offline (copy2 source target).
Proof.
  intros st r st' H. unfold copy2 in H.
  destruct (fs st !! source); [destruct (String.eqb source target) |];
    injection H as <- <-; now split.
Qed.

Lemma offline_set_stage (job_id : string) (status : JobStatus) (msg : string) :
  offline (_set_stage job_id status msg).
Proof.
  apply offline_bind; [apply offline_on_session | intros _; apply offline_commit].
Qed.

Lemma offline_save_artifact (job_id kind path : string) :
  offline (_save_artifact job_id kind path).
Proof.
  apply offline_bind; [apply offline_on_session | intros _; apply offline_commit].
Qed.

Lemma offline_reuse (job_id P : string) (pa : gmap string string) (kind target : string)
    (required : bool) :
  offline (_reuse_parent_artifact job_id P pa kind target required).
Proof.
  unfold _reuse_parent_artifact.
  destruct (pa !! kind) as [[|ch p]|]; try destruct required;
    try apply offline_ret; try apply offline_throw.
  all: apply offline_bind; [apply offline_gets |]; intros [|];
    try apply offline_ret; try apply offline_throw.
  all: apply offline_bind; [apply offline_copy2 | intros _].
  all: apply offline_bind; [apply offline_save_artifact | intros _; apply offline_ret].
Qed.

Lemma offline_read_text (path msg : string) : offline (_read_text_or_fail path msg).
Proof.
  unfold _read_text_or_fail. apply offline_bind; [apply offline_gets |].
  intros [text|]; [| apply offline_throw].
  destruct (PyStr.truthy _); [apply offline_ret | apply offline_throw].
Qed.

Lemma offline_probe (env : Env) (path : string) : offline (probe env path).
Proof.
  unfold probe. apply offline_bind; [apply offline_gets | intros files].
  apply offline_of_result.
Qed.

Lemma offline_run_tool (env : Env) (cmd : ffmpeg_cmd) (out : string) :
  offline (run_tool env cmd out).
Proof.
  unfold run_tool. apply offline_bind; [apply offline_gets | intros files].
  apply offline_bind; [apply offline_of_result | intros content].
  apply offline_write_file.
Qed.

Lemma offline_skip {A : Type} (k : bool -> M pstate A) :
  offline (k false) -> offline (bind (of_result (Ok false)) k).
Proof. intros H st r st' Heq. exact (H _ _ _ Heq). Qed.

Lemma halts_throw {A : Type} (e : exn) : halts (@throw pstate A e).
Proof. intros st r st' [= <- <-]. split; [reflexivity | now exists e]. Qed.

Lemma halts_bind {A B : Type} (m : M pstate A) (k : A -> M pstate B) :
  offline m -> (forall x, halts (k x)) -> halts (bind m k).
Proof.
  intros Hm Hk st r st' H. unfold bind in H.
  destruct (m st) as [[x|e|] st1] eqn:Hst1.
  - destruct (Hm _ _ _ Hst1) as (Hw1 & _). destruct (Hk x _ _ _ H) as (Hw & Hr).
    split; [congruence | exact Hr].
  - injection H as <- <-. destruct (Hm _ _ _ Hst1) as (Hw1 & _).
    split; [exact Hw1 | now exists e].
  - destruct (Hm _ _ _ Hst1) as (_ & Hr). now destruct Hr.
Qed.

Lemma halts_first {A B : Type} (m : M pstate A) (k : A -> M pstate B) :
  halts m -> halts (bind m k).
Proof.
  intros Hm st r st' H. unfold bind in H.
  destruct (m st) as [[x|e|] st1] eqn:Hst1.
  - destruct (Hm _ _ _ Hst1) as (_ & e & He). discriminate He.
  - injection H as <- <-. destruct (Hm _ _ _ Hst1) as (Hw & _).
    split; [exact Hw | now exists e].
  - destruct (Hm _ _ _ Hst1) as (_ & e & He). discriminate He.
Qed.

Lemma halts_skip {A : Type} (k : bool -> M pstate A) :
  halts (k false) -> halts (bind (of_result (Ok false)) k).
Proof. intros H st r st' Heq. exact (H _ _ _ Heq). Qed.

(** A computation of the run that sends nothing. *)
Ltac offline :=
  unfold reuse, dump_meta, _write_json, _write_text, extract_asr_clip_to_wav,
    normalize_source_video, normalize_hook_video, concat_with_source;
  repeat first
    [ apply offline_ret | apply offline_throw | apply offline_gets
    | apply offline_of_result | apply offline_commit | apply offline_set_stage
    | apply offline_on_session | apply offline_save_artifact
    | apply offline_read_text | apply offline_probe | apply offline_reuse
    | apply offline_write_file | apply offline_run_tool
    | apply offline_bind; [| intros ?]
    | match goal with
      | |- offline (match ?x with _ => _ end) => destruct x
      end ].

Section WithEnv.
Variable env : Env.
Variable c : context.
Hypothesis start_in_sequence : In (start_stage c) STAGE_SEQUENCE.

Lemma skipped (stage : JobStatus) :
  In stage STAGE_SEQUENCE -> before stage (start_stage c) = true ->
  _should_run_stage (start_stage c) stage = Ok false.
Proof.
  intros Hin Hb. rewrite (should_run_total _ _ start_in_sequence Hin). now rewrite Hb.
Qed.

Lemma offline_stage_preprocessing :
  before PREPROCESSING (start_stage c) = true -> offline (stage_preprocessing env c).
Proof.
  intros Hb. unfold stage_preprocessing.
  rewrite (skipped PREPROCESSING ltac:(simpl; tauto) Hb).
  apply offline_skip. cbn beta iota. offline.
Qed.

Lemma offline_stage_asr :
  before ASR (start_stage c) = true -> offline (stage_asr env c).
Proof.
  intros Hb. unfold stage_asr.
  rewrite (skipped ASR ltac:(simpl; tauto) Hb).
  apply offline_skip. cbn beta iota. offline.
Qed.

Lemma offline_stage_transcript_polish (raw : string) :
  before TRANSCRIPT_POLISH (start_stage c) = true ->
  offline (stage_transcript_polish env c raw).
Proof.
  intros Hb. unfold stage_transcript_polish.
  rewrite (skipped TRANSCRIPT_POLISH ltac:(simpl; tauto) Hb).
  apply offline_skip. cbn beta iota. offline.
Qed.

Lemma offline_stage_script_gen (polished : string) :
  before SCRIPT_GEN (start_stage c) = true ->
  offline (stage_script_gen env c polished).
Proof.
  intros Hb. unfold stage_script_gen.
  rewrite (skipped SCRIPT_GEN ltac:(simpl; tauto) Hb).
  apply offline_skip. cbn beta iota. offline.
Qed.

Lemma offline_stage_video_submit (script : json) (sm : VideoMeta) :
  before VIDEO_SUBMIT (start_stage c) = true ->
  offline (stage_video_submit env c script sm).
Proof.
  intros Hb. unfold stage_video_submit.
  rewrite (skipped VIDEO_SUBMIT ltac:(simpl; tauto) Hb).
  apply offline_skip. cbn beta iota. offline.
Qed.

Lemma offline_stage_video_polling (task_id : string) :
  before VIDEO_POLLING (start_stage c) = true ->
  offline (stage_video_polling env c task_id).
Proof.
  intros Hb. unfold stage_video_polling.
  rewrite (skipped VIDEO_POLLING ltac:(simpl; tauto) Hb).
  apply offline_skip. cbn beta iota. offline.
Qed.

Lemma offline_stage_postprocess (sm : VideoMeta) (raw : string) :
  offline (stage_postprocess env c sm raw).
Proof. unfold stage_postprocess. offline. Qed.

Lemma offline_run_stages : start_stage c = POSTPROCESS -> offline (run_stages env c).
Proof.
  intros Hs. unfold run_stages.
  apply offline_bind; [apply offline_stage_preprocessing; now rewrite Hs | intros sm].
  apply offline_bind; [apply offline_stage_asr; now rewrite Hs | intros raw].
  apply offline_bind;
    [apply offline_stage_transcript_polish; now rewrite Hs | intros polished].
  apply offline_bind; [apply offline_stage_script_gen; now rewrite Hs | intros script].
  apply offline_bind; [apply offline_stage_video_submit; now rewrite Hs | intros task].
  apply offline_bind; [apply offline_stage_video_polling; now rewrite Hs | intros raw'].
  apply offline_stage_postprocess.
Qed.

Lemma halts_stage_video_submit (script : json) (sm : VideoMeta) :
  before VIDEO_SUBMIT (start_stage c) = true ->
  PyStr.truthy (text_or_empty (meta_get (parent_meta c) "video_task_id")) = false ->
  halts (stage_video_submit env c script sm).
Proof.
  intros Hb Hid. unfold stage_video_submit.
  rewrite (skipped VIDEO_SUBMIT ltac:(simpl; tauto) Hb).
  apply halts_skip. cbn beta iota.
  apply halts_bind; [apply offline_set_stage | intros _].
  rewrite Hid. apply halts_throw.
Qed.

Lemma halts_run_stages :
  before VIDEO_SUBMIT (start_stage c) = true ->
  PyStr.truthy (text_or_empty (meta_get (parent_meta c) "video_task_id")) = false ->
  halts (run_stages env c).
Proof.
  intros Hb Hid. unfold run_stages.
  assert (Hearlier : forall stage, before stage VIDEO_SUBMIT = true ->
            before stage (start_stage c) = true).
  { intros stage Hlt. unfold before in *. apply Nat.ltb_lt in Hlt, Hb.
    apply Nat.ltb_lt. simpl in Hlt, Hb. lia. }
  apply halts_bind; [now apply offline_stage_preprocessing, Hearlier | intros sm].
  apply halts_bind; [now apply offline_stage_asr, Hearlier | intros raw].
  apply halts_bind; [now apply offline_stage_transcript_polish, Hearlier | intros p].
  apply halts_bind; [now apply offline_stage_script_gen, Hearlier | intros script].
  apply halts_first. now apply halts_stage_video_submit.
Qed.

End WithEnv.

Lemma offline_prepare (env : Env) (loaded : Job) : offline (prepare env loaded).
Proof. unfold prepare. offline. Qed.

Lemma on_exception_world (job_id : string) (e : exn) (p : pstate) :
  world (on_exception job_id e p) = world p.
Proof.
  cbv [on_exception rollback modify bind on_session commit]. cbn [snd session saved].
  now destruct (set_job_error (saved p) job_id (exn_message e)).
Qed.

(** What [prepare] takes from the job and from its parent. *)
Lemma prepare_lineage (env : Env) (s : system) (j : Job) (c : context) (st : pstate) :
  jobs (db s) !! id j = Some j ->
  prepare env j (open_session s) = (Return c, st) ->
  start_stage c = start_of j
  /\ (parent_meta c = ∅
      \/ exists p, jobs (db s) !! parent_of j = Some p /\ parent_meta c = meta p).
Proof.
  intros Hjob. unfold prepare, start_of, parent_of.
  destruct (load_config env) as [cfg|e]; [| discriminate].
  cbv [of_result bind on_session commit modify gets throw ret get_job put_job
       set_session open_session _save_artifact put_artifact].
  cbn [session saved fs world jobs events fst snd].
  set (pid := text_or_empty (meta_get (meta j) "rerun_of_job_id")).
  destruct (PyStr.truthy pid).
  - cbn [fs saved session world jobs].
    destruct (<[id j := with_error j None]> (jobs (db s)) !! pid) as [parent|] eqn:Hp;
      [| discriminate].
    cbn [fs saved session world append_event jobs].
    destruct (negb _); [discriminate |]. destruct (negb _ || negb _); [discriminate |].
    cbn [fs saved session world append_event jobs].
    rewrite lookup_insert_eq. cbn. intros [= <- _]. cbn.
    split; [reflexivity | right].
    destruct (decide (pid = id j)) as [Heq | Hne].
    + rewrite Heq, lookup_insert_eq in Hp. injection Hp as <-.
      exists j. rewrite Heq. now split.
    + rewrite lookup_insert_ne in Hp by congruence. now exists parent.
  - cbn [fs saved session world jobs].
    destruct (negb _); [discriminate |]. destruct (negb _ || negb _); [discriminate |].
    cbn [fs saved session world append_event jobs].
    rewrite lookup_insert_eq. cbn. intros [= <- _]. cbn.
    split; [reflexivity | now left].
Qed.

Lemma prepare_start (env : Env) (j : Job) (c : context) (st st' : pstate) :
  prepare env j st = (Return c, st') -> start_stage c = start_of j.
Proof.
  unfold prepare. intros H.
  repeat (apply bind_return_inv in H as (? & ? & _ & H)).
  destruct (negb _); [discriminate H |].
  destruct (negb _ || negb _); [discriminate H |].
  apply bind_return_inv in H as (? & ? & _ & H).
  now injection H as <- _.
Qed.

(** X6. A rerun from [postprocess] sends nothing: however it ends, the
    remote world is left as it was (no request, no sleep). *)
Theorem rerun_from_postprocess_sends_nothing (env : Env) (s s' : system)
    (r : outcome unit) (job_id : string) (j : Job) :
  jobs (db s) !! job_id = Some j ->
  start_of j = POSTPROCESS ->
  execute_job env job_id s = (r, s') ->
  remote s' = remote s.
Proof.
  intros Hjob Hstart H. unfold execute_job, execute_job_body in H.
  rewrite gets_bind in H. unfold get_job in H. cbn [session open_session] in H.
  rewrite Hjob in H.
  destruct ((c <- prepare env j ;; run_stages env c) (open_session s))
    as [rb p] eqn:Hbody.
  assert (Hw : world p = remote s).
  { unfold bind in Hbody.
    destruct (prepare env j (open_session s)) as [[c|e|] st1] eqn:Hprep;
      destruct (offline_prepare env j _ _ _ Hprep) as (Hw1 & Hr1);
      try (injection Hbody as <- <-; exact Hw1).
    pose proof (prepare_start _ _ _ _ _ Hprep) as Hs. rewrite Hstart in Hs.
    assert (Hin : In (start_stage c) STAGE_SEQUENCE) by (rewrite Hs; simpl; tauto).
    destruct (offline_run_stages env c Hin Hs _ _ _ Hbody) as (Hw & _).
    now rewrite Hw, Hw1. }
  destruct rb as [[]|e|]; injection H as <- <-; cbn [remote close_session];
    [exact Hw | now rewrite on_exception_world | exact Hw].
Qed.

Lemma rerun_from_postprocess_sends_nothing_witness :
  remote (snd (execute_job PipelineScenario.surroundings "j2" RunScenario.last_stage))
  = remote RunScenario.last_stage.
Proof.
  apply (rerun_from_postprocess_sends_nothing PipelineScenario.surroundings
           RunScenario.last_stage _
           (fst (execute_job PipelineScenario.surroundings "j2" RunScenario.last_stage))
           "j2" RunScenario.last_stage_rerun).
  - reflexivity.
  - vm_compute. reflexivity.
  - apply surjective_pairing.
Defined.

(** X7. A job that starts after [video_submit], and whose parent (when
    the job names one that is stored) has no usable [video_task_id] in
    its meta, never completes: the run raises an exception, and it has
    sent nothing. *)
Theorem rerun_without_task_id_fails (env : Env) (s s' : system) (r : outcome unit)
    (job_id : string) (j : Job) :
  jobs (db s) !! job_id = Some j ->
  id j = job_id ->
  before VIDEO_SUBMIT (start_of j) = true ->
  (forall p, jobs (db s) !! parent_of j = Some p ->
     PyStr.truthy (text_or_empty (meta_get (meta p) "video_task_id")) = false) ->
  execute_job env job_id s = (r, s') ->
  (exists e, r = Throw e) /\ remote s' = remote s.
Proof.
  intros Hjob Hid Hstart Hparent H. subst job_id.
  unfold execute_job, execute_job_body in H.
  rewrite gets_bind in H. unfold get_job in H. cbn [session open_session] in H.
  rewrite Hjob in H.
  destruct ((c <- prepare env j ;; run_stages env c) (open_session s))
    as [rb p] eqn:Hbody.
  assert (Hw : world p = remote s /\ exists e, rb = Throw e).
  { unfold bind in Hbody.
    destruct (prepare env j (open_session s)) as [[c|e|] st1] eqn:Hprep;
      destruct (offline_prepare env j _ _ _ Hprep) as (Hw1 & Hr1).
    - destruct (prepare_lineage _ _ _ _ _ Hjob Hprep) as (Hs & Hmeta).
      assert (Hin : In (start_stage c) STAGE_SEQUENCE)
        by (rewrite Hs; apply normalize_in_sequence).
      assert (Hid : PyStr.truthy (text_or_empty (meta_get (parent_meta c) "video_task_id"))
                    = false).
      { destruct Hmeta as [-> | (parent & Hp & ->)]; [reflexivity | now apply Hparent]. }
      rewrite <- Hs in Hstart.
      destruct (halts_run_stages env c Hin Hstart Hid _ _ _ Hbody) as (Hw & He).
      split; [now rewrite Hw, Hw1 | exact He].
    - injection Hbody as <- <-. split; [exact Hw1 | now exists e].
    - now destruct Hr1. }
  destruct Hw as (Hw & e & ->). injection H as <- <-.
  split; [now exists e |]. cbn [remote close_session]. now rewrite on_exception_world.
Qed.

Lemma rerun_without_task_id_fails_witness :
  (exists e, fst (execute_job PipelineScenario.surroundings "j2" RunScenario.untracked)
             = Throw e)
  /\ remote (snd (execute_job PipelineScenario.surroundings "j2" RunScenario.untracked))
     = remote RunScenario.untracked.
Proof.
  apply (rerun_without_task_id_fails PipelineScenario.surroundings RunScenario.untracked _ _
           "j2" PipelineScenario.rerun).
  - reflexivity.
  - reflexivity.
  - vm_compute. reflexivity.
  - intros p Hp. vm_compute in Hp. injection Hp as <-. vm_compute. reflexivity.
  - apply surjective_pairing.
Defined.

End PipelineOffline.

(** ** The order of the stages *)
Module StageOrder.
Import Stage PipelineSpec.

(** X8. [_should_run_stage] answers for the stages of [STAGE_SEQUENCE]
    only, and then a stage runs exactly when it is not before the start
    stage; for any other status it raises a [ValueError]. *)
Theorem should_run_stage_contract (start stage : JobStatus) :
  match _should_run_stage start stage with
  | Ok run =>
      In start STAGE_SEQUENCE /\ In stage STAGE_SEQUENCE
      /\ run = (rank start <=? rank stage)%nat
  | Raise e =>
      (~ In start STAGE_SEQUENCE \/ ~ In stage STAGE_SEQUENCE)
      /\ exists msg, e = ValueError msg
  end.
Proof.
  destruct start, stage; vm_compute;
    first [ split; [tauto | split; [tauto | reflexivity]]
          | split; [| eexists; reflexivity];
            first [ left; intuition discriminate | right; intuition discriminate ] ].
Qed.

End StageOrder.

(** ** The pipeline: the texts that the stages hand on *)
Module PipelineTexts.
Import Stage Repository Media Pipeline PipelineSpec Effects PyStrFacts PipelineFacts.

Lemma read_text_truthy (path msg t : string) (st st1 : pstate) :
  _read_text_or_fail path msg st = (Return t, st1) -> PyStr.truthy t = true.
Proof.
  cbv [bind _read_text_or_fail gets]. destruct (fs st !! path) as [text|];
    [| discriminate].
  destruct (PyStr.truthy (PyStr.strip text)) eqn:Ht; [| discriminate].
  intros H. now injection H as <- _.
Qed.

Ltac peel H := repeat (apply bind_return_inv in H as (? & ? & _ & H)).

Ltac branch H :=
  match type of H with
  | (match ?x with _ => _ end) _ = _ => destruct x eqn:?; try discriminate H
  | (if ?x then _ else _) _ = _ => destruct x eqn:?; try discriminate H
  end.

Lemma stage_asr_text (env : Env) (c : context) (st st1 : pstate) (raw : string) :
  stage_asr env c st = (Return raw, st1) -> PyStr.truthy raw = true.
Proof.
  unfold stage_asr. intros H.
  apply bind_return_inv in H as (run & s0 & _ & H). destruct run.
  - peel H. branch H. branch H. peel H. injection H as <- _.
    now apply negb_false_iff.
  - peel H. branch H. exact (read_text_truthy _ _ _ _ _ H).
Qed.

Lemma stage_transcript_polish_text (env : Env) (c : context) (st st1 : pstate)
    (raw polished : string) :
  stage_transcript_polish env c raw st = (Return polished, st1) ->
  PyStr.truthy raw = true -> PyStr.truthy polished = true.
Proof.
  unfold stage_transcript_polish. intros H Hraw.
  apply bind_return_inv in H as (run & s0 & _ & H). destruct run.
  - apply bind_return_inv in H as (text & s1 & Htext & H).
    peel H. injection H as <- _.
    branch Htext; peel Htext; injection Htext as <- _; [| exact Hraw].
    now destruct (PyStr.truthy (PyStr.strip _)) eqn:Ht.
  - peel H. branch H. exact (read_text_truthy _ _ _ _ _ H).
Qed.

(** X9. The transcript that [execute_job] takes from the ASR stage, run
    or skipped, is never empty, and neither is the text that the
    polishing stage hands on from it, run with or without the model or
    skipped. *)
Theorem stage_texts_are_not_empty (env : Env) (c : context) (st st1 st2 : pstate)
    (raw polished : string) :
  stage_asr env c st = (Return raw, st1) ->
  stage_transcript_polish env c raw st1 = (Return polished, st2) ->
  raw <> "" /\ polished <> "".
Proof.
  intros Hasr Hpolish. pose proof (stage_asr_text _ _ _ _ _ Hasr) as Hraw.
  pose proof (stage_transcript_polish_text _ _ _ _ _ _ Hpolish Hraw) as Hp.
  split; now apply truthy_true.
Qed.

Lemma stage_texts_are_not_empty_witness :
  "helo world" <> "" /\ "hello world" <> "".
Proof.
  apply (stage_texts_are_not_empty PipelineScenario.surroundings
           RunScenario.polling_context
           (open_session PipelineScenario.queued)
           (snd (stage_asr PipelineScenario.surroundings RunScenario.polling_context
                   (open_session PipelineScenario.queued)))
           (snd (stage_transcript_polish PipelineScenario.surroundings
                   RunScenario.polling_context "helo world"
                   (snd (stage_asr PipelineScenario.surroundings
                           RunScenario.polling_context
                           (open_session PipelineScenario.queued)))))).
  - vm_compute. reflexivity.
  - vm_compute. reflexivity.
Defined.

Lemma validate_returns_payload (payload r : json) :
  ScriptSchema.validate_script_payload payload = Ok r -> r = payload.
Proof.
  destruct payload; try discriminate. intros H.
  now apply ScriptSchemaFacts.validate_ok_iff in H as (-> & _).
Qed.

Ltac peel_all H := repeat (apply bind_return_inv in H as (? & ? & ? & H)).

(** X10. The script that the script stage hands on, generated by the
    model or read from the file of the parent, has always passed
    [validate_script_payload]. *)
Theorem stage_script_gen_validated (env : Env) (c : context) (polished : string)
    (st st' : pstate) (script : json) :
  stage_script_gen env c polished st = (Return script, st') ->
  ScriptSchema.validate_script_payload script = Ok script.
Proof.
  unfold stage_script_gen. intros H.
  apply bind_return_inv in H as (run & s0 & _ & H). destruct run.
  - peel_all H. injection H as <- _.
    match goal with
    | Hv : of_result (ScriptSchema.validate_script_payload _) _ = _ |- _ =>
        apply of_result_state in Hv as (Hv & _);
        pose proof (validate_returns_payload _ _ Hv) as ->; exact Hv
    end.
  - peel H. branch H. apply bind_return_inv in H as (content & s1 & _ & H).
    branch H. branch H. apply of_result_state in H as (Hv & _).
    pose proof (validate_returns_payload _ _ Hv) as ->. exact Hv.
Qed.

Lemma stage_script_gen_validated_witness :
  ScriptSchema.validate_script_payload (JObj PipelineScenario.script)
  = Ok (JObj PipelineScenario.script).
Proof.
  apply (stage_script_gen_validated PipelineScenario.surroundings
           RunScenario.polling_context "hello world"
           (open_session PipelineScenario.queued)
           (snd (stage_script_gen PipelineScenario.surroundings
                   RunScenario.polling_context "hello world"
                   (open_session PipelineScenario.queued)))).
  vm_compute. reflexivity.
Defined.

Lemma submit_loop_returns (cfg : VideoClient.VideoConfig) (candidates : list json) :
  forall (idx : nat) (errors : list string) (w w' : Http.World)
         (task_id : string) (data : json),
    VideoClient.submit_loop cfg idx candidates errors w = (Return (task_id, data), w') ->
    PyStr.truthy task_id = true.
Proof.
  induction candidates as [|payload rest IH]; intros idx errors w w' task_id data H;
    [discriminate H |].
  cbn [VideoClient.submit_loop] in H.
  apply bind_return_inv in H as (resp & w1 & _ & H).
  destruct (400 <=? Http.status_code resp)%Z.
  - destruct (_ || _); [exact (IH _ _ _ _ _ _ H) | discriminate H].
  - destruct (Http.json_body resp) as [document|]; [| discriminate H].
    destruct (VolcParsers._first_string _) as [found|]; [| exact (IH _ _ _ _ _ _ H)].
    destruct (PyStr.truthy found) eqn:Ht; [| exact (IH _ _ _ _ _ _ H)].
    now injection H as <- _ _.
Qed.

Lemma patch_meta_committed {A : Type} (job_id key : string) (v : json)
    (st st' : pstate) (x y : A) :
  (on_session (fun db => patch_meta db job_id [(key, v)]) ;; commit ;; ret x) st
  = (Return y, st') ->
  x = y /\ exists j, jobs (saved st') !! job_id = Some j /\ meta j !! key = Some v.
Proof.
  cbv [bind on_session commit modify ret patch_meta get_job].
  destruct (jobs (session st) !! job_id) as [j|]; [| discriminate].
  intros [= <- <-]. split; [reflexivity |].
  eexists. cbn. rewrite lookup_insert_eq. split; [reflexivity |].
  cbn. apply lookup_insert_eq.
Qed.

(** X11. The task id that the submit stage hands on, taken from the
    answer of the video service or from the meta of the parent, is never
    empty, and the stage has committed it to the meta of the job under
    [video_task_id]. *)
Theorem stage_video_submit_records_task (env : Env) (c : context) (script : json)
    (source_meta : VideoMeta) (st st' : pstate) (task_id : string) :
  stage_video_submit env c script source_meta st = (Return task_id, st') ->
  task_id <> ""
  /\ exists j, jobs (saved st') !! id (job c) = Some j
               /\ meta j !! "video_task_id" = Some (JStr task_id).
Proof.
  unfold stage_video_submit. intros H.
  apply bind_return_inv in H as (run & s0 & _ & H). destruct run.
  - apply bind_return_inv in H as (u & s1 & _ & H).
    apply bind_return_inv in H as (prompt & s2 & _ & H).
    apply bind_return_inv in H as ([found data] & s3 & Hsubmit & H).
    apply bind_return_inv in H as (u' & s4 & _ & H). cbn [fst snd] in H.
    destruct (patch_meta_committed _ _ _ _ _ _ _ H) as (Heq & j & Hj & Hmeta).
    subst found. split; [| now exists j].
    apply truthy_true. unfold on_world in Hsubmit.
    destruct (VideoClient.submit_generation _ _ _ _ _ _) as [r w] eqn:E.
    injection Hsubmit as -> _. exact (submit_loop_returns _ _ _ _ _ _ _ _ E).
  - apply bind_return_inv in H as (u & s1 & _ & H).
    destruct (negb (PyStr.truthy _)) eqn:Ht; [discriminate H |].
    destruct (patch_meta_committed _ _ _ _ _ _ _ H) as (Heq & j & Hj & Hmeta).
    rewrite Heq in *. split; [| now exists j].
    apply truthy_true. now apply negb_false_iff.
Qed.

Lemma stage_video_submit_records_task_witness :
  "task-1" <> ""
  /\ exists j,
       jobs (saved (snd (stage_video_submit PipelineScenario.surroundings
                           RunScenario.polling_context (JObj PipelineScenario.script)
                           {| width := 720; height := 1280; fps := 30; duration := 9;
                              has_audio := true |}
                           (open_session PipelineScenario.queued))))
         !! "j2" = Some j
       /\ meta j !! "video_task_id" = Some (JStr "task-1").
Proof.
  apply (stage_video_submit_records_task PipelineScenario.surroundings
           RunScenario.polling_context (JObj PipelineScenario.script)
           {| width := 720; height := 1280; fps := 30; duration := 9;
              has_audio := true |}
           (open_session PipelineScenario.queued)).
  vm_compute. reflexivity.
Defined.

End PipelineTexts.

(** ** services/repository.py: what the writes keep *)
Module RepositoryFacts.
Import Stage Repository PipelineSpec.

Lemma meta_update_other (kwargs : list (string * json)) (m : gmap string json)
    (k : string) :
  ~ In k (map fst kwargs) -> meta_update m kwargs !! k = m !! k.
Proof.
  revert m. induction kwargs as [|[k' v'] kwargs IH]; intros m Hk; [reflexivity |].
  simpl in Hk |- *. rewrite IH by tauto. apply lookup_insert_ne. tauto.
Qed.

Lemma meta_update_In (kwargs : list (string * json)) (m : gmap string json)
    (k : string) (v : json) :
  NoDup (map fst kwargs) -> In (k, v) kwargs -> meta_update m kwargs !! k = Some v.
Proof.
  revert m. induction kwargs as [|[k' v'] kwargs IH]; intros m Hnd Hin; [destruct Hin |].
  simpl in Hnd, Hin |- *. apply NoDup_cons in Hnd as (Hk' & Hnd).
  destruct Hin as [[= -> ->] | Hin].
  - rewrite meta_update_other; [apply lookup_insert_eq |].
    intros Hin. apply Hk'. now apply list_elem_of_In.
  - now apply IH.
Qed.

(** X12. [put_artifact] on a stored job records [path] under [kind] and
    changes nothing else: the other artifacts, the status, the error and
    the meta of the job, the other jobs and the events are what they
    were. On a job that is not stored it raises the [ValueError]
    [job not found]. *)
Theorem put_artifact_contract (d : database) (job_id kind path : string) :
  match put_artifact d job_id kind path with
  | Ok d' =>
      exists j j',
        get_job d job_id = Some j /\ get_job d' job_id = Some j'
        /\ artifacts j' !! kind = Some path
        /\ (forall k, k <> kind -> artifacts j' !! k = artifacts j !! k)
        /\ status j' = status j /\ error_message j' = error_message j
        /\ meta j' = meta j
        /\ (forall other, other <> job_id -> get_job d' other = get_job d other)
        /\ events d' = events d
  | Raise e => get_job d job_id = None /\ e = ValueError ("job not found: " +:+ job_id)
  end.
Proof.
  unfold put_artifact. destruct (get_job d job_id) as [j|] eqn:Hj; [| now split].
  exists j. eexists. unfold get_job. cbn. rewrite lookup_insert_eq.
  split; [reflexivity |]. split; [reflexivity |]. cbn.
  split; [apply lookup_insert_eq |].
  split; [intros k Hk; now apply lookup_insert_ne |].
  repeat split. intros other Hne. now apply lookup_insert_ne.
Qed.

(** X13. [patch_meta] on a stored job, called with keyword arguments
    (their names differ), binds each name to its value in the meta of
    the job and keeps every other entry of it; the artifacts, the status
    and the error of the job, the other jobs and the events are what
    they were. On a job that is not stored it raises the [ValueError]
    [job not found]. *)
Theorem patch_meta_contract (d : database) (job_id : string)
    (kwargs : list (string * json)) :
  NoDup (map fst kwargs) ->
  match patch_meta d job_id kwargs with
  | Ok d' =>
      exists j j',
        get_job d job_id = Some j /\ get_job d' job_id = Some j'
        /\ (forall k v, In (k, v) kwargs -> meta j' !! k = Some v)
        /\ (forall k, ~ In k (map fst kwargs) -> meta j' !! k = meta j !! k)
        /\ artifacts j' = artifacts j
        /\ status j' = status j /\ error_message j' = error_message j
        /\ (forall other, other <> job_id -> get_job d' other = get_job d other)
        /\ events d' = events d
  | Raise e => get_job d job_id = None /\ e = ValueError ("job not found: " +:+ job_id)
  end.
Proof.
  intros Hnd. unfold patch_meta. destruct (get_job d job_id) as [j|] eqn:Hj; [| now split].
  exists j. eexists. unfold get_job. cbn. rewrite lookup_insert_eq.
  split; [reflexivity |]. split; [reflexivity |]. cbn.
  split; [intros k v Hin; now apply meta_update_In |].
  split; [intros k Hk; now apply meta_update_other |].
  repeat split. intros other Hne. now apply lookup_insert_ne.
Qed.

Lemma patch_meta_contract_witness :
  match patch_meta (Pipeline.db PipelineScenario.queued) "j2"
          [("video_task_id", JStr "task-1"); ("source_meta", JNull)] with
  | Ok d' =>
      exists j j',
        get_job (Pipeline.db PipelineScenario.queued) "j2" = Some j
        /\ get_job d' "j2" = Some j'
        /\ (forall k v, In (k, v) [("video_task_id", JStr "task-1"); ("source_meta", JNull)] ->
                        meta j' !! k = Some v)
        /\ (forall k, ~ In k (map fst [("video_task_id", JStr "task-1");
                                       ("source_meta", JNull)]) ->
                      meta j' !! k = meta j !! k)
        /\ artifacts j' = artifacts j
        /\ status j' = status j /\ error_message j' = error_message j
        /\ (forall other, other <> "j2" ->
              get_job d' other = get_job (Pipeline.db PipelineScenario.queued) other)
        /\ events d' = events (Pipeline.db PipelineScenario.queued)
  | Raise e =>
      get_job (Pipeline.db PipelineScenario.queued) "j2" = None
      /\ e = ValueError ("job not found: " +:+ "j2")
  end.
Proof.
  apply (patch_meta_contract (Pipeline.db PipelineScenario.queued) "j2"
           [("video_task_id", JStr "task-1"); ("source_meta", JNull)]).
  repeat constructor; simpl; rewrite ?list_elem_of_In; simpl; intuition discriminate.
Defined.

(** X14. [set_job_status] on a stored job sets the status and keeps the
    error message, the meta and the artifacts; it writes one event of
    the status when the message is not empty, and none when it is.
    [set_job_error] sets the status [failed] and the error message, and
    always writes the event. Neither touches another job; on a job that
    is not stored both raise the [ValueError] [job not found]. *)
Theorem status_writes_contract (d : database) (job_id status message : string) :
  match set_job_status d job_id status message with
  | Ok d' =>
      exists j,
        get_job d job_id = Some j
        /\ get_job d' job_id = Some (with_status j status)
        /\ (forall other, other <> job_id -> get_job d' other = get_job d other)
        /\ events d' = events d ++ (if PyStr.truthy message
                                    then [{| event_job_id := job_id;
                                             event_status := status;
                                             event_message := message |}]
                                    else [])
  | Raise e => get_job d job_id = None /\ e = ValueError ("job not found: " +:+ job_id)
  end
  /\ match set_job_error d job_id message with
     | Ok d' =>
         exists j,
           get_job d job_id = Some j
           /\ get_job d' job_id
              = Some (with_error (with_status j (value FAILED)) (Some message))
           /\ (forall other, other <> job_id -> get_job d' other = get_job d other)
           /\ events d' = events d ++ [event job_id FAILED message]
     | Raise e => get_job d job_id = None /\ e = ValueError ("job not found: " +:+ job_id)
     end.
Proof.
  unfold set_job_status, set_job_error.
  destruct (get_job d job_id) as [j|] eqn:Hj; [| now repeat split].
  split; exists j; unfold get_job.
  - destruct (PyStr.truthy message); cbn; rewrite lookup_insert_eq.
    + repeat split. intros other Hne. now apply lookup_insert_ne.
    + rewrite app_nil_r. repeat split. intros other Hne. now apply lookup_insert_ne.
  - cbn. rewrite lookup_insert_eq. repeat split.
    intros other Hne. now apply lookup_insert_ne.
Qed.

End RepositoryFacts.

(** ** services/volc_clients.py: the readers of the answers *)
Module ClientFacts.
Import Http VolcParsers VideoClient VideoSpec ClientSpec Effects PyStrFacts.

Lemma contains_trans (p n s : string) :
  PyStr.contains p n = true -> PyStr.contains n s = true -> PyStr.contains p s = true.
Proof.
  intros Hp Hn. apply contains_spec in Hp as (a' & b' & ->).
  apply contains_spec in Hn as (a & b & ->). apply contains_spec.
  exists (a +:+ a'), (b' +:+ b). now rewrite !append_assoc.
Qed.

(** X15. [_is_permission_message] holds exactly of the messages that,
    lowercased, contain one of: requested grant not found, resourceid,
    not allowed, not granted. The test of both [resourceid] and
    [not allowed], and the pattern [requested resource not granted], add
    nothing to these. *)
Theorem is_permission_message_words (message : string) :
  ASRClient._is_permission_message message
  = existsb (fun word => PyStr.contains word (PyStr.lower message)) PERMISSION_WORDS.
Proof.
  unfold ASRClient._is_permission_message, PERMISSION_WORDS.
  cbn [forallb existsb]. set (text := PyStr.lower message).
  destruct (PyStr.contains "requested resource not granted" text) eqn:Hr.
  - rewrite (contains_trans "not granted" "requested resource not granted" text
               eq_refl Hr).
    destruct (PyStr.contains "requested grant not found" text),
      (PyStr.contains "resourceid" text), (PyStr.contains "not allowed" text);
      reflexivity.
  - destruct (PyStr.contains "requested grant not found" text),
      (PyStr.contains "resourceid" text), (PyStr.contains "not allowed" text),
      (PyStr.contains "not granted" text); reflexivity.
Qed.

Lemma rstrip_idem (s : string) : PyStr.rstrip (PyStr.rstrip s) = PyStr.rstrip s.
Proof.
  induction s as [|c s IH]; [reflexivity |].
  cbn [PyStr.rstrip]. destruct (PyStr.rstrip s) as [|d r] eqn:E.
  - destruct (PyStr.is_space c) eqn:Ec; [reflexivity |].
    cbn [PyStr.rstrip]. now rewrite Ec.
  - cbn [PyStr.rstrip] in IH |- *.
    change (match PyStr.rstrip r with
            | "" => if PyStr.is_space d then "" else String d ""
            | String a s0 => String d (String a s0)
            end) with (PyStr.rstrip (String d r)) in *.
    now rewrite IH.
Qed.

Lemma strip_idem (s : string) : PyStr.strip (PyStr.strip s) = PyStr.strip s.
Proof.
  unfold PyStr.strip.
  rewrite (JsonExtractFacts.rstrip_lstrip (PyStr.rstrip s)), rstrip_idem.
  apply JsonExtractFacts.lstrip_idem.
Qed.

Lemma first_string_stripped (values : list json) (s : string) :
  _first_string values = Some s -> PyStr.strip s = s.
Proof.
  induction values as [|v values IH]; [discriminate |].
  cbn [_first_string]. destruct v; try exact IH.
  destruct (PyStr.truthy (PyStr.strip s0)); [| exact IH].
  intros [= <-]. apply strip_idem.
Qed.

Lemma first_string_found (values : list json) :
  match _first_string values with
  | Some s =>
      s <> ""
      /\ exists before raw after,
           values = before ++ JStr raw :: after
           /\ s = PyStr.strip raw /\ Forall blank before
  | None => Forall blank values
  end.
Proof.
  induction values as [|v values IH]; [constructor |].
  assert (Hskip : blank v ->
            match _first_string values with
            | Some s =>
                s <> ""
                /\ exists before raw after,
                     v :: values = before ++ JStr raw :: after
                     /\ s = PyStr.strip raw /\ Forall blank before
            | None => Forall blank (v :: values)
            end).
  { intros Hv. destruct (_first_string values) as [s|].
    - destruct IH as (Hs & before & raw & after & -> & -> & Hb).
      split; [exact Hs |]. exists (v :: before), raw, after.
      split; [reflexivity |]. split; [reflexivity | now constructor].
    - now constructor. }
  destruct v as [| | |text| |]; cbn [_first_string];
    try (apply Hskip; intros raw Hraw; discriminate Hraw).
  destruct (PyStr.truthy (PyStr.strip text)) eqn:Ht.
  - split; [now apply truthy_true |]. exists [], text, values. now repeat split.
  - apply Hskip. intros raw [= <-].
    destruct (PyStr.strip text); [reflexivity | discriminate Ht].
Qed.






(** X20. [_submit_payload_candidates] always builds five payloads. Each
    is an object that names the model and carries the prompt, as the
    text of its [content] or as its [prompt]; and no [duration], [width]
    or [height] that it carries is below 1, whatever the arguments. *)
Theorem submit_payload_candidates_shape
    (cfg : VideoConfig) (prompt : string) (duration_s width height : Z) :
  let candidates := _submit_payload_candidates cfg prompt duration_s width height in
  length candidates = 5%nat
  /\ Forall (fun candidate =>
               exists fields,
                 candidate = JObj fields
                 /\ dict_get fields "model" = JStr (model cfg)
                 /\ (dict_get fields "content"
                       = JArr [JObj [("type", JStr "text"); ("text", JStr prompt)]]
                     \/ dict_get fields "prompt" = JStr prompt)
                 /\ (forall key n,
                       In key ["duration"; "width"; "height"] ->
                       dict_get fields key = JNum n -> (1 <= n)%Z))
       candidates.
Proof.
  cbv zeta. split; [reflexivity |]. unfold _submit_payload_candidates.
  assert (Hd : (1 <= Z.max 1 duration_s)%Z) by lia.
  assert (Hw : (1 <= Z.max 1 width)%Z) by lia.
  assert (Hh : (1 <= Z.max 1 height)%Z) by lia.
  revert Hd Hw Hh.
  generalize (Z.max 1 duration_s) (Z.max 1 width) (Z.max 1 height).
  intros d w h Hd Hw Hh.
  repeat apply List.Forall_cons; try apply List.Forall_nil;
    (eexists; split; [reflexivity |]; split; [reflexivity |];
     split; [first [left; reflexivity | right; reflexivity] |]);
    intros key n Hkey; simpl in Hkey;
    repeat (destruct Hkey as [<- | Hkey]); try destruct Hkey;
    vm_compute dict_get; intros H; try discriminate H;
    injection H as <-; lia.
Qed.

Lemma rstrip_slash_snoc (base : string) : rstrip_slash (base +:+ "/") = rstrip_slash base.
Proof.
  induction base as [|c base IH]; [reflexivity |].
  rewrite append_cons. cbn [rstrip_slash]. now rewrite IH.
Qed.

(** X21. A slash at the end of the configured [base_url] changes none of
    the addresses that the video client and the ASR client call. *)
Theorem base_url_trailing_slash (video video' : VideoConfig)
    (speech speech' : ASRClient.ASRConfig) :
  base_url video' = base_url video +:+ "/" ->
  ASRClient.base_url speech' = ASRClient.base_url speech +:+ "/" ->
  submit_url video' = submit_url video
  /\ (forall task_id, task_url video' task_id = task_url video task_id)
  /\ ASRClient.flash_url speech' = ASRClient.flash_url speech
  /\ ASRClient.submit_url speech' = ASRClient.submit_url speech
  /\ ASRClient.query_url speech' = ASRClient.query_url speech.
Proof.
  intros Hv Hs.
  unfold submit_url, task_url, ASRClient.flash_url, ASRClient.submit_url,
    ASRClient.query_url.
  rewrite Hv, Hs, !rstrip_slash_snoc. now repeat split.
Qed.

Lemma base_url_trailing_slash_witness :
  let video := {| base_url := "https://ark"; api_key := "k"; model := "m";
                  timeout_s := 60; poll_interval_s := 5; system_prompt := "" |} in
  let video' := {| base_url := "https://ark/"; api_key := "k"; model := "m";
                   timeout_s := 60; poll_interval_s := 5; system_prompt := "" |} in
  let speech := ASRClient.Build_ASRConfig "https://openspeech" "app" "tok" "" "" 120 "" in
  let speech' := ASRClient.Build_ASRConfig "https://openspeech/" "app" "tok" "" "" 120 "" in
  submit_url video' = submit_url video
  /\ (forall task_id, task_url video' task_id = task_url video task_id)
  /\ ASRClient.flash_url speech' = ASRClient.flash_url speech
  /\ ASRClient.submit_url speech' = ASRClient.submit_url speech
  /\ ASRClient.query_url speech' = ASRClient.query_url speech.
Proof.
  cbv zeta.
  apply (base_url_trailing_slash
           {| base_url := "https://ark"; api_key := "k"; model := "m";
              timeout_s := 60; poll_interval_s := 5; system_prompt := "" |}
           {| base_url := "https://ark/"; api_key := "k"; model := "m";
              timeout_s := 60; poll_interval_s := 5; system_prompt := "" |}
           (ASRClient.Build_ASRConfig "https://openspeech" "app" "tok" "" "" 120 "")
           (ASRClient.Build_ASRConfig "https://openspeech/" "app" "tok" "" "" 120 ""));
    reflexivity.
Defined.

End ClientFacts.

(** ** Speech recognition: the answer of the fast path *)
Module ASRFastPath.
Import Http ASRClient ASRSpec ClientSpec Effects PyStrFacts ASRLoopFacts.
Import VideoSpec (world_of).

(** Denied candidates, one request each, and then the rest of the loop. *)
Lemma flash_loop_prefix (cfg : ASRConfig) (audio_b64 : string)
    (attempts : list (string * string * response)) (more : list string) :
  forall (errors : list string) (rs : list response) (cl : list Q)
         (us : list string) (st : list request) (sl : list Z),
    Forall (fun a => denied (snd a)) attempts ->
    flash_loop cfg audio_b64 (map attempt_resource attempts ++ more) errors
      (world_of (map snd attempts ++ rs) cl
         (map attempt_request_id attempts ++ us) st sl)
    = flash_loop cfg audio_b64 more
        (errors ++ trace (map (fun a => ("flash", attempt_resource a, snd a)) attempts))
        (world_of rs cl us
           (st ++ map (fun a => flash_request cfg audio_b64 (attempt_resource a)
                                  (attempt_request_id a)) attempts)
           sl).
Proof.
  induction attempts as [|[[u c] resp] attempts IH]; intros errors rs cl us st sl Hall.
  - cbn. now rewrite !app_nil_r.
  - apply Forall_cons in Hall as [Hd Hall].
    cbn [map fst snd app flash_loop attempt_resource attempt_request_id] in *.
    unfold _post_flash_once at 1, bind at 1 2.
    cbn [uuid4 send world_of uuids responses clock sent slept].
    rewrite flash_answer_denied by exact Hd.
    rewrite IH by exact Hall. cbn [trace map fst snd]. now rewrite <- !app_assoc.
Qed.

Lemma flash_answer_taken (cfg : ASRConfig) (resource : string) (resp : response)
    (payload : dict) (errors : list string)
    (continue_ : list string -> M World (option json * list string)) (w : World) :
  flash_succeeds resp payload ->
  flash_answer cfg resource resp errors continue_ w
  = (Return (Some (JObj payload), errors), w).
Proof.
  intros (Hlt & Hstatus & Hbody & Hheader). unfold flash_answer.
  rewrite (proj2 (Z.leb_gt _ _) Hlt), bind_of_result.
  assert (Htest : exists s, _extract_status_code resp = Ok s
                            /\ PyStr.truthy s && negb (String.eqb s "20000000") = false).
  { destruct Hstatus as [E | E]; rewrite E; eexists; split; reflexivity. }
  destruct Htest as (s & -> & ->). rewrite Hbody.
  destruct (dict_get payload "header"); try reflexivity. now rewrite Hheader.
Qed.

(** X22. With credentials and an audio file, [recognize] returns the
    document of the first fast-path answer that succeeds: after the
    candidates before it were denied (an HTTP error that reads as a
    permission failure), one request each, it sends the request of the
    next candidate and returns its document. The candidates after it
    and the standard path are never tried. *)
Theorem recognize_returns_first_fast_answer
    (b64encode : string -> string) (cfg : ASRConfig) (audio_file data : string)
    (attempts : list (string * string * response)) (resource request_id : string)
    (later : list string) (resp : response) (payload : dict)
    (rs : list response) (cl : list Q) (us : list string)
    (st : list request) (sl : list Z) :
  has_credentials cfg ->
  _candidate_resource_ids cfg = map attempt_resource attempts ++ resource :: later ->
  Forall (fun a => denied (snd a)) attempts ->
  flash_succeeds resp payload ->
  recognize b64encode cfg audio_file (Some data)
    (world_of (map snd attempts ++ resp :: rs) cl
       (map attempt_request_id attempts ++ request_id :: us) st sl)
  = (Return (JObj payload),
     world_of rs cl us
       (st ++ map (fun a => flash_request cfg (b64encode data) (attempt_resource a)
                              (attempt_request_id a)) attempts
           ++ [flash_request cfg (b64encode data) resource request_id])
       sl).
Proof.
  intros Hcred Hcandidates Hdenied Hok. unfold recognize.
  destruct Hcred as [Ha Ht]. apply truthy_true in Ha, Ht. rewrite Ha, Ht.
  cbn [negb orb]. unfold _recognize_flash. rewrite Hcandidates.
  unfold bind at 1. rewrite flash_loop_prefix by exact Hdenied.
  cbn [flash_loop]. unfold _post_flash_once at 1, bind at 1 2.
  cbn [uuid4 send world_of uuids responses clock sent slept].
  rewrite (flash_answer_taken _ _ _ _ _ _ _ Hok). cbn [ret].
  now rewrite <- app_assoc.
Qed.

Lemma recognize_returns_first_fast_answer_witness :
  let cfg := Build_ASRConfig "https://openspeech" "app" "tok" "" "" 120 "" in
  let payload := [("result", JObj [("text", JStr "hello")])] in
  let resp := {| status_code := 200; text := ""; headers := [];
                 json_body := Decoded (JObj payload) |} in
  recognize (fun bytes => bytes) cfg "/data/jobs/j2/asr_clip.wav" (Some "RIFF")
    (world_of [resp] [] ["u1"] [] [])
  = (Return (JObj payload),
     world_of [] [] [] [flash_request cfg "RIFF" "volc.bigasr.auc_turbo" "u1"] []).
Proof.
  cbv zeta.
  apply (recognize_returns_first_fast_answer (fun bytes => bytes)
           (Build_ASRConfig "https://openspeech" "app" "tok" "" "" 120 "")
           "/data/jobs/j2/asr_clip.wav" "RIFF" [] "volc.bigasr.auc_turbo" "u1"
           ["volc.seedasr.auc"; "volc.bigasr.auc"]
           {| status_code := 200; text := ""; headers := [];
              json_body := Decoded (JObj [("result", JObj [("text", JStr "hello")])]) |}
           [("result", JObj [("text", JStr "hello")])] [] [] [] [] []).
  - split; discriminate.
  - reflexivity.
  - apply List.Forall_nil.
  - repeat split. left. reflexivity.
Defined.

End ASRFastPath.
